(** * Puppy Pal (main.ino): pet statistics, persistence and resume-time decay

    A shallow embedding of the simulation core of [main.ino]: the four
    statistics and their update rules ([updateStats], [feedPet],
    [playWithPet], [putToSleep], [wakeUp], [handleShakeSickness],
    [resetPet]), the flash snapshot ([saveStats], [loadStats]), the
    elapsed-time estimate that [loadStats] computes after a deep sleep,
    and the power states of the device: [setup], [handleWakeup],
    [enterDeepSleep] and the auto-sleep test of [loop].

    The sketch keeps its state in global variables and talks to the
    speaker and the display; the embedding threads one [State] record
    through a small state-and-output monad, so that each function body
    reads in the order of its C++ statements. *)

From Stdlib Require Import ZArith Lia List String Bool.
From stdpp Require Import base gmap strings.
Import ListNotations.

Local Open Scope string_scope.
Local Open Scope Z_scope.

(** ** Machine integers

    On the ESP32 both [int] and [unsigned long] are 32 bits wide.  Values
    are carried as [Z]; every arithmetic result is brought back into its
    type by [to_int] (two's complement) or [to_ulong] (modulo 2^32).
    C++ leaves signed overflow undefined; [to_int] wraps it the way the
    target does, and the lemmas below show that for statistics within
    0..100 no [int] operation of the sketch ever overflows. *)

Definition INT_MIN : Z := - 2 ^ 31.
Definition INT_MAX : Z := 2 ^ 31 - 1.
Definition ULONG_MAX : Z := 2 ^ 32 - 1.

Definition to_int (z : Z) : Z := (z + 2 ^ 31) mod 2 ^ 32 - 2 ^ 31.
Definition to_ulong (z : Z) : Z := z mod 2 ^ 32.

Definition is_int (z : Z) : Prop := INT_MIN <= z <= INT_MAX.
Definition is_ulong (z : Z) : Prop := 0 <= z <= ULONG_MAX.

(** Arduino's [min] and [max] on two [int]s. *)
Definition min (a b : Z) : Z := if a <? b then a else b.
Definition max (a b : Z) : Z := if a >? b then a else b.

(** ** Data model *)

(** [enum PetState].  The enumerators are the integer constants 0..7; the
    sketch casts between [PetState] and [int] when it writes and reads the
    snapshot ([(int)currentState], [(PetState)savedState]), so a state is
    carried as its integer value. *)
Abbreviation PetState := Z (only parsing).
Definition STATE_IDLE : PetState := 0.
Definition STATE_HAPPY : PetState := 1.
Definition STATE_EATING : PetState := 2.
Definition STATE_SLEEPING : PetState := 3.
Definition STATE_HUNGRY : PetState := 4.
Definition STATE_SICK : PetState := 5.
Definition STATE_PLAYING : PetState := 6.
Definition STATE_VOMITING : PetState := 7.

(** [struct PetStats]. *)
Record PetStats : Type := mkPetStats {
  hunger : Z;      (* int, 0-100 (100 = full) *)
  happiness : Z;   (* int, 0-100 *)
  energy : Z;      (* int, 0-100 *)
  health : Z;      (* int, 0-100 *)
  age : Z          (* unsigned long, in minutes *)
}.

(** [esp_sleep_get_wakeup_cause()].  The sketch tells apart the timer, the
    button on EXT0, and everything else (power on, reset, ...), for which
    [ESP_SLEEP_WAKEUP_UNDEFINED] stands. *)
Inductive esp_sleep_wakeup_cause_t : Type :=
  | ESP_SLEEP_WAKEUP_UNDEFINED
  | ESP_SLEEP_WAKEUP_EXT0
  | ESP_SLEEP_WAKEUP_TIMER.

Definition is_TIMER (w : esp_sleep_wakeup_cause_t) : bool :=
  match w with ESP_SLEEP_WAKEUP_TIMER => true | _ => false end.
Definition is_EXT0 (w : esp_sleep_wakeup_cause_t) : bool :=
  match w with ESP_SLEEP_WAKEUP_EXT0 => true | _ => false end.

(** What [M5.Rtc.getDateTime()] returns, as far as the sketch reads it.
    The fields are small signed integers of the M5Unified library; they are
    promoted to [int] before any arithmetic. *)
Record DateTime : Type := mkDateTime {
  year : Z;
  month : Z;
  date : Z;
  hours : Z;
  minutes : Z
}.

(** What the sketch sends to the speaker and the display.  Recorded are the
    tones, the strings a function itself hands to [canvas.drawString] and
    the backlight level.  The face, the status bars and the sprite
    transfers ([drawDogFace], [drawStatusBars], [drawVomit],
    [canvas.fillSprite], [canvas.pushSprite], text colour and size) only
    paint and are left out, and so are the [delay] calls. *)
Inductive Output : Type :=
  | tone (frequency duration : Z)
  | drawString (text : string) (x y : Z)
  | setBrightness (level : Z).

(** The global variables of the sketch that the embedded functions read or
    write, together with the flash namespace ["puppy"] behind the
    [Preferences] object. *)
Record State : Type := mkState {
  prefs : gmap string Z;
  pet : PetStats;
  currentState : PetState;
  eyeOffsetX : Z;
  mouthFrame : Z;
  bounceOffset : Z;
  vomitFrame : Z;
  lastShakeTime : Z;     (* unsigned long *)
  shakeCount : Z;        (* int *)
  sleepStartTime : Z;    (* unsigned long *)
  lastInteraction : Z;   (* unsigned long *)
  lastAgeUpdate : Z;     (* static unsigned long of updateStats *)
  alertWakeup : bool
}.

(** ** Assignments

    One updater per variable: [set_x v s] is [s] after [x = v;].  The
    statistics live inside [pet], so [set_hunger] and its siblings reach
    through it. *)

Definition set_prefs (v : gmap string Z) (s : State) : State :=
  mkState v (pet s) (currentState s) (eyeOffsetX s) (mouthFrame s)
    (bounceOffset s) (vomitFrame s) (lastShakeTime s) (shakeCount s)
    (sleepStartTime s) (lastInteraction s) (lastAgeUpdate s)
    (alertWakeup s).

Definition set_pet (v : PetStats) (s : State) : State :=
  mkState (prefs s) v (currentState s) (eyeOffsetX s) (mouthFrame s)
    (bounceOffset s) (vomitFrame s) (lastShakeTime s) (shakeCount s)
    (sleepStartTime s) (lastInteraction s) (lastAgeUpdate s)
    (alertWakeup s).

Definition set_currentState (v : PetState) (s : State) : State :=
  mkState (prefs s) (pet s) v (eyeOffsetX s) (mouthFrame s)
    (bounceOffset s) (vomitFrame s) (lastShakeTime s) (shakeCount s)
    (sleepStartTime s) (lastInteraction s) (lastAgeUpdate s)
    (alertWakeup s).

Definition set_eyeOffsetX (v : Z) (s : State) : State :=
  mkState (prefs s) (pet s) (currentState s) v (mouthFrame s)
    (bounceOffset s) (vomitFrame s) (lastShakeTime s) (shakeCount s)
    (sleepStartTime s) (lastInteraction s) (lastAgeUpdate s)
    (alertWakeup s).

Definition set_mouthFrame (v : Z) (s : State) : State :=
  mkState (prefs s) (pet s) (currentState s) (eyeOffsetX s) v
    (bounceOffset s) (vomitFrame s) (lastShakeTime s) (shakeCount s)
    (sleepStartTime s) (lastInteraction s) (lastAgeUpdate s)
    (alertWakeup s).

Definition set_bounceOffset (v : Z) (s : State) : State :=
  mkState (prefs s) (pet s) (currentState s) (eyeOffsetX s) (mouthFrame s)
    v (vomitFrame s) (lastShakeTime s) (shakeCount s) (sleepStartTime s)
    (lastInteraction s) (lastAgeUpdate s) (alertWakeup s).

Definition set_vomitFrame (v : Z) (s : State) : State :=
  mkState (prefs s) (pet s) (currentState s) (eyeOffsetX s) (mouthFrame s)
    (bounceOffset s) v (lastShakeTime s) (shakeCount s) (sleepStartTime s)
    (lastInteraction s) (lastAgeUpdate s) (alertWakeup s).

Definition set_lastShakeTime (v : Z) (s : State) : State :=
  mkState (prefs s) (pet s) (currentState s) (eyeOffsetX s) (mouthFrame s)
    (bounceOffset s) (vomitFrame s) v (shakeCount s) (sleepStartTime s)
    (lastInteraction s) (lastAgeUpdate s) (alertWakeup s).

Definition set_shakeCount (v : Z) (s : State) : State :=
  mkState (prefs s) (pet s) (currentState s) (eyeOffsetX s) (mouthFrame s)
    (bounceOffset s) (vomitFrame s) (lastShakeTime s) v (sleepStartTime s)
    (lastInteraction s) (lastAgeUpdate s) (alertWakeup s).

Definition set_sleepStartTime (v : Z) (s : State) : State :=
  mkState (prefs s) (pet s) (currentState s) (eyeOffsetX s) (mouthFrame s)
    (bounceOffset s) (vomitFrame s) (lastShakeTime s) (shakeCount s) v
    (lastInteraction s) (lastAgeUpdate s) (alertWakeup s).

Definition set_lastInteraction (v : Z) (s : State) : State :=
  mkState (prefs s) (pet s) (currentState s) (eyeOffsetX s) (mouthFrame s)
    (bounceOffset s) (vomitFrame s) (lastShakeTime s) (shakeCount s)
    (sleepStartTime s) v (lastAgeUpdate s) (alertWakeup s).

Definition set_lastAgeUpdate (v : Z) (s : State) : State :=
  mkState (prefs s) (pet s) (currentState s) (eyeOffsetX s) (mouthFrame s)
    (bounceOffset s) (vomitFrame s) (lastShakeTime s) (shakeCount s)
    (sleepStartTime s) (lastInteraction s) v (alertWakeup s).

Definition set_alertWakeup (v : bool) (s : State) : State :=
  mkState (prefs s) (pet s) (currentState s) (eyeOffsetX s) (mouthFrame s)
    (bounceOffset s) (vomitFrame s) (lastShakeTime s) (shakeCount s)
    (sleepStartTime s) (lastInteraction s) (lastAgeUpdate s) v.

Definition set_hunger (v : Z) (s : State) : State :=
  set_pet (mkPetStats v (happiness (pet s)) (energy (pet s))
                      (health (pet s)) (age (pet s))) s.

Definition set_happiness (v : Z) (s : State) : State :=
  set_pet (mkPetStats (hunger (pet s)) v (energy (pet s))
                      (health (pet s)) (age (pet s))) s.

Definition set_energy (v : Z) (s : State) : State :=
  set_pet (mkPetStats (hunger (pet s)) (happiness (pet s)) v
                      (health (pet s)) (age (pet s))) s.

Definition set_health (v : Z) (s : State) : State :=
  set_pet (mkPetStats (hunger (pet s)) (happiness (pet s)) (energy (pet s))
                      v (age (pet s))) s.

Definition set_age (v : Z) (s : State) : State :=
  set_pet (mkPetStats (hunger (pet s)) (happiness (pet s)) (energy (pet s))
                      (health (pet s)) v) s.

(** ** The statement monad

    A C++ statement reads and writes the globals and may drive the speaker
    or the display: it is a function from the state to a result, the new
    state and the list of outputs it produced, oldest first. *)

Definition M (A : Type) : Type := State -> A * State * list Output.

Definition ret {A : Type} (a : A) : M A := fun s => (a, s, []).

Definition bind {A B : Type} (m : M A) (k : A -> M B) : M B :=
  fun s =>
    let '(a, s1, o1) := m s in
    let '(b, s2, o2) := k a s1 in
    (b, s2, (o1 ++ o2)%list).

#[global] Instance M_ret : MRet M := @ret.
#[global] Instance M_bind : MBind M := fun A B k m => bind m k.

Definition get : M State := fun s => (s, s, []).
Definition emit (o : Output) : M unit := fun s => (tt, s, [o]).
Definition skip : M unit := ret tt.

(** [x = e;] where [e] is evaluated in the current state. *)
Definition assign {A : Type} (set : A -> State -> State) (e : State -> A) : M unit :=
  fun s => (tt, set (e s) s, []).

(** [if (c) { t } else { e }] *)
Definition ifM {A : Type} (c : State -> bool) (t e : M A) : M A :=
  fun s => if c s then t s else e s.

(** [for (int i = a; i < b; i++) { body }], given the values [i] takes. *)
Fixpoint forM (l : list Z) (body : Z -> M unit) : M unit :=
  match l with
  | [] => skip
  | i :: l' => body i ;; forM l' body
  end.

Notation "x ::= e" := (assign x e) (at level 60).
Notation "'If' c 'Then' t 'Else' e" := (ifM c t e)
  (at level 10, c at level 9, t at level 200, e at level 200).
Notation "'When' c 'Do' t" := (ifM c t skip)
  (at level 10, c at level 9, t at level 200).

(** The state and the outputs a statement leaves behind. *)
Definition exec {A : Type} (m : M A) (s : State) : State := snd (fst (m s)).
Definition outputs {A : Type} (m : M A) (s : State) : list Output := snd (m s).
Definition result {A : Type} (m : M A) (s : State) : A := fst (fst (m s)).

(** ** Speaker

    Each helper plays a fixed run of [M5.Speaker.tone] calls. *)

Definition playHappySound : M unit :=
  emit (tone 800 100) ;; emit (tone 1000 100) ;; emit (tone 1200 150).

Definition playSadSound : M unit :=
  emit (tone 400 200) ;; emit (tone 300 300).

Definition playEatSound : M unit :=
  forM (seqZ 0 3) (fun _ => emit (tone 600 80) ;; emit (tone 400 80)).

Definition playSleepSound : M unit :=
  emit (tone 300 400) ;; emit (tone 250 600).

Definition playWakeSound : M unit :=
  emit (tone 400 100) ;; emit (tone 600 100) ;; emit (tone 800 200).

Definition playPlaySound : M unit :=
  emit (tone 1000 80) ;; emit (tone 1200 80) ;; emit (tone 1000 80) ;;
  emit (tone 800 150).

Definition playErrorSound : M unit := emit (tone 200 200).

(** ** Preferences

    The [Preferences] library is external to the sketch and is modelled
    by its contract: a durable map from keys to values, where [getX(key,
    default)] returns the stored value or the default when the key is
    missing, [putX(key, value)] stores, [isKey(key)] tells whether the key
    is present and [clear()] removes every key.  Each key is always
    written and read at one type, so the values are carried as [Z];
    [begin] and [end] only open and close the namespace. *)

Definition isKey (key : string) (s : State) : bool :=
  bool_decide (is_Some (prefs s !! key)).

Definition getInt (key : string) (defaultValue : Z) (s : State) : Z :=
  default defaultValue (prefs s !! key).

Definition getULong (key : string) (defaultValue : Z) (s : State) : Z :=
  default defaultValue (prefs s !! key).

Definition putInt (key : string) (value : State -> Z) : M unit :=
  set_prefs ::= (fun s => <[key := value s]> (prefs s)).

Definition putULong (key : string) (value : State -> Z) : M unit :=
  set_prefs ::= (fun s => <[key := value s]> (prefs s)).

Definition clear : M unit := set_prefs ::= (fun _ => ∅).

(** ** Snapshot: [saveStats], [loadStats], [resetPet] *)

(** [dt.date.date * 24 * 60 + dt.time.hours * 60 + dt.time.minutes],
    computed in [int] and stored in an [unsigned long]: the expression
    that [saveStats] calls [timeVal] and [loadStats] calls [currentTime]. *)
Definition timeVal (dt : DateTime) : Z :=
  to_ulong
    (to_int (to_int (to_int (to_int (date dt * 24) * 60)
                     + to_int (hours dt * 60))
             + minutes dt)).

(** The [put] calls of [saveStats], in order.  Flash is written one entry
    at a time, so a power loss can leave any prefix of them behind. *)
Definition saveStats_puts (dt : DateTime) : list (M unit) :=
  [ putInt "hunger" (fun s => hunger (pet s));
    putInt "happiness" (fun s => happiness (pet s));
    putInt "energy" (fun s => energy (pet s));
    putInt "health" (fun s => health (pet s));
    putULong "age" (fun s => age (pet s));
    putInt "state" (fun s => currentState s);
    putULong "saveTime" (fun _ => timeVal dt);
    putInt "saveMonth" (fun _ => month dt) ].

Fixpoint block (stmts : list (M unit)) : M unit :=
  match stmts with
  | [] => skip
  | m :: rest => m ;; block rest
  end.

Definition saveStats (dt : DateTime) : M unit := block (saveStats_puts dt).

(** [saveStats] cut short by a power loss after its first [n] writes. *)
Definition saveStats_interrupted (n : nat) (dt : DateTime) : M unit :=
  block (take n (saveStats_puts dt)).

(** The elapsed-time estimate of [loadStats]: from the declaration of
    [currentTime] to the cap at 60 minutes. *)
Definition elapsedMinutes (wakeup_reason : esp_sleep_wakeup_cause_t)
    (dt : DateTime) (savedTime savedMonth : Z) : Z :=
  let currentTime := timeVal dt in
  let elapsedMinutes :=
    if (savedTime >? 0) && (year dt >? 2020) then
      if (month dt =? savedMonth) && (currentTime >=? savedTime) then
        to_ulong (currentTime - savedTime)
      else if (month dt =? savedMonth) && (currentTime <? savedTime) then
        1
      else
        if is_TIMER wakeup_reason then 15 else 5
    else
      if is_TIMER wakeup_reason then 15 else 1 in
  if elapsedMinutes >? 60 then 60 else elapsedMinutes.

(** The decay of [loadStats]: from [int decayTicks = elapsedMinutes / 2]
    to [pet.age += elapsedMinutes]. *)
Definition applyDecay (elapsedMinutes : Z) (savedState : Z) : M unit :=
  let decayTicks := to_int (elapsedMinutes / 2) in
  (If (fun _ => savedState =? STATE_SLEEPING) Then
     set_energy ::= (fun s => min 100 (to_int (energy (pet s) + decayTicks))) ;;
     set_currentState ::= (fun _ => STATE_SLEEPING)
   Else
     set_hunger ::= (fun s => max 0 (to_int (hunger (pet s) - decayTicks))) ;;
     set_happiness ::= (fun s => max 0 (to_int (happiness (pet s) - decayTicks))) ;;
     set_energy ::= (fun s => max 0 (to_int (energy (pet s) - decayTicks ÷ 2))) ;;
     set_currentState ::= (fun _ => STATE_IDLE)) ;;
  (When (fun s => (hunger (pet s) <? 10) || (happiness (pet s) <? 10)) Do
     set_health ::= (fun s => max 0 (to_int (health (pet s) - decayTicks)))) ;;
  set_age ::= (fun s => to_ulong (age (pet s) + elapsedMinutes)).

Definition loadStats (wakeup_reason : esp_sleep_wakeup_cause_t)
    (dt : DateTime) : M unit :=
  If (fun s => negb (isKey "hunger" s)) Then
    skip
  Else
    set_hunger ::= getInt "hunger" 80 ;;
    set_happiness ::= getInt "happiness" 80 ;;
    set_energy ::= getInt "energy" 100 ;;
    set_health ::= getInt "health" 100 ;;
    set_age ::= getULong "age" 0 ;;
    s ← get ;
    let savedState := getInt "state" STATE_IDLE s in
    let savedTime := getULong "saveTime" 0 s in
    let savedMonth := getInt "saveMonth" 0 s in
    if is_TIMER wakeup_reason || is_EXT0 wakeup_reason then
      applyDecay (elapsedMinutes wakeup_reason dt savedTime savedMonth)
                 savedState ;;
      set_alertWakeup ::= (fun _ => is_TIMER wakeup_reason)
    else
      set_currentState ::= (fun _ => savedState) ;;
      (When (fun s => currentState s =? STATE_SLEEPING) Do
         set_currentState ::= (fun _ => STATE_IDLE)) ;;
      set_alertWakeup ::= (fun _ => false).

Definition resetPet : M unit :=
  clear ;;
  set_hunger ::= (fun _ => 80) ;;
  set_happiness ::= (fun _ => 80) ;;
  set_energy ::= (fun _ => 100) ;;
  set_health ::= (fun _ => 100) ;;
  set_age ::= (fun _ => 0) ;;
  set_currentState ::= (fun _ => STATE_IDLE).

(** ** Caregiving actions

    [ms] is what [millis()] returns where the function reads it. *)

Definition feedPet (ms : Z) : M unit :=
  If (fun s => hunger (pet s) >=? 100) Then
    playErrorSound ;;
    emit (drawString "Already full!" 30 160)
  Else
    set_currentState ::= (fun _ => STATE_EATING) ;;
    playEatSound ;;
    forM (seqZ 0 6) (fun i =>
      set_mouthFrame ::= (fun _ => i) ;;
      emit (drawString "~ PUPPY PAL ~" 25 5) ;;
      let foodY := to_int (20 + to_int (i * 20)) in
      When (fun _ => foodY <? 100) Do
        emit (drawString "*" 60 foodY)) ;;
    set_hunger ::= (fun s => min 100 (to_int (hunger (pet s) + 25))) ;;
    set_happiness ::= (fun s => min 100 (to_int (happiness (pet s) + 5))) ;;
    set_currentState ::= (fun _ => STATE_HAPPY) ;;
    playHappySound ;;
    set_lastInteraction ::= (fun _ => ms).

Definition playWithPet (ms : Z) : M unit :=
  If (fun s => energy (pet s) <? 20) Then
    playErrorSound ;;
    emit (drawString "Too tired!" 35 160)
  Else
    set_currentState ::= (fun _ => STATE_PLAYING) ;;
    playPlaySound ;;
    forM (seqZ 0 12) (fun i =>
      emit (drawString "~ PUPPY PAL ~" 25 5) ;;
      set_bounceOffset ::= (fun _ => if Z.rem i 2 =? 0 then -8 else 8) ;;
      set_eyeOffsetX ::= (fun _ => if Z.rem i 4 <? 2 then -3 else 3) ;;
      let starX := to_int (20 + Z.rem (to_int (i * 17)) 80) in
      let starY := to_int (30 + Z.rem (to_int (i * 13)) 40) in
      emit (drawString "*" starX starY) ;;
      emit (drawString "*" (to_int (starX + 40)) (to_int (starY + 20)))) ;;
    set_bounceOffset ::= (fun _ => 0) ;;
    set_eyeOffsetX ::= (fun _ => 0) ;;
    set_happiness ::= (fun s => min 100 (to_int (happiness (pet s) + 20))) ;;
    set_energy ::= (fun s => max 0 (to_int (energy (pet s) - 15))) ;;
    set_hunger ::= (fun s => max 0 (to_int (hunger (pet s) - 5))) ;;
    set_currentState ::= (fun _ => STATE_HAPPY) ;;
    set_lastInteraction ::= (fun _ => ms).

Definition putToSleep (ms : Z) : M unit :=
  set_currentState ::= (fun _ => STATE_SLEEPING) ;;
  set_sleepStartTime ::= (fun _ => ms) ;;
  playSleepSound ;;
  emit (setBrightness 30).

Definition wakeUp (ms : Z) : M unit :=
  If (fun s => negb (currentState s =? STATE_SLEEPING)) Then
    skip
  Else
    set_currentState ::= (fun _ => STATE_IDLE) ;;
    emit (setBrightness 100) ;;
    playWakeSound ;;
    set_lastInteraction ::= (fun _ => ms).

Definition handleShakeSickness : M unit :=
  If (fun s => (currentState s =? STATE_SICK)
               || (currentState s =? STATE_VOMITING)) Then
    skip
  Else
    set_currentState ::= (fun _ => STATE_VOMITING) ;;
    set_health ::= (fun s => max 0 (to_int (health (pet s) - 15))) ;;
    set_happiness ::= (fun s => max 0 (to_int (happiness (pet s) - 20))) ;;
    playSadSound ;;
    forM (seqZ 0 8) (fun i =>
      set_vomitFrame ::= (fun _ => i) ;;
      emit (drawString "~ PUPPY PAL ~" 25 5) ;;
      emit (drawString "Sick!" 50 150)) ;;
    set_currentState ::= (fun _ => STATE_SICK) ;;
    set_vomitFrame ::= (fun _ => 0).

(** ** The periodic tick, [updateStats] *)

Definition updateStats (ms : Z) : M unit :=
  If (fun s => currentState s =? STATE_SLEEPING) Then
    set_energy ::= (fun s => min 100 (to_int (energy (pet s) + 5)))
  Else
    set_hunger ::= (fun s => max 0 (to_int (hunger (pet s) - 1))) ;;
    set_happiness ::= (fun s => max 0 (to_int (happiness (pet s) - 1))) ;;
    set_energy ::= (fun s => max 0 (to_int (energy (pet s) - 1))) ;;
    (If (fun s => (hunger (pet s) <? 20) || (happiness (pet s) <? 20)) Then
       set_health ::= (fun s => max 0 (to_int (health (pet s) - 2)))
     Else
       When (fun s => (hunger (pet s) >? 60) && (happiness (pet s) >? 60)
                      && (energy (pet s) >? 40)) Do
         set_health ::= (fun s => min 100 (to_int (health (pet s) + 1)))) ;;
    (When (fun s => (hunger (pet s) <? 30)
                    && (currentState s =? STATE_IDLE)) Do
       set_currentState ::= (fun _ => STATE_HUNGRY) ;;
       playSadSound) ;;
    (When (fun s => currentState s =? STATE_SICK) Do
       When (fun s => (health (pet s) >? 60) && (happiness (pet s) >? 50)
                      && (energy (pet s) >? 40)) Do
         set_currentState ::= (fun _ => STATE_IDLE) ;;
         playHappySound) ;;
    When (fun s => to_ulong (ms - lastAgeUpdate s) >? 60000) Do
      set_age ::= (fun s => to_ulong (age (pet s) + 1)) ;;
      set_lastAgeUpdate ::= (fun _ => ms).

(** ** Shake handling in [loop] *)

Definition SHAKE_DEBOUNCE_MS : Z := 1000.

(** [checkForShake].  The accelerometer reading and its magnitude are
    floating-point; what enters here is the outcome of
    [shakeMagnitude > SHAKE_THRESHOLD]. *)
Definition checkForShake (aboveThreshold : bool) (ms : Z) : M bool :=
  If (fun s => aboveThreshold
               && (to_ulong (ms - lastShakeTime s) >? SHAKE_DEBOUNCE_MS)) Then
    set_lastShakeTime ::= (fun _ => ms) ;;
    set_shakeCount ::= (fun s => to_int (shakeCount s + 1)) ;;
    mret true
  Else
    mret false.

(** The first statement of [loop] after [currentTime = millis()]:
    [if (checkForShake()) { ... }].  [ms] is the clock as [checkForShake]
    reads it and [ms'] as [wakeUp] reads it. *)
Definition loop_shake (aboveThreshold : bool) (currentTime ms ms' : Z) : M unit :=
  shaken ← checkForShake aboveThreshold ms ;
  if shaken : bool then
    set_lastInteraction ::= (fun _ => currentTime) ;;
    If (fun s => currentState s =? STATE_SLEEPING) Then
      wakeUp ms'
    Else
      When (fun s => negb (currentState s =? STATE_SICK)
                     && negb (currentState s =? STATE_VOMITING)) Do
        handleShakeSickness
  else
    skip.

(** The last statement of [updateAnimations] when its timeout has passed:
    a happy pet calms down. *)
Definition updateAnimations_happy (timedOut : bool) : M unit :=
  When (fun s => (currentState s =? STATE_HAPPY) && timedOut) Do
    set_currentState ::= (fun _ => STATE_IDLE).

(** ** The device as a transition system *)

(** The globals as their initialisers leave them, over a given flash
    content.  A deep sleep loses the RAM, so this is the state at the
    start of [setup] after every power-on, reset or wake-up. *)
Definition power_on (flash : gmap string Z) : State :=
  mkState flash (mkPetStats 80 80 100 100 0) STATE_IDLE
          0 0 0 0 0 0 0 0 0 false.

(** The device out of the box: nothing saved yet. *)
Definition first_boot : State := power_on ∅.

(** Losing the RAM and starting over with the flash as it is. *)
Definition reboot : M unit := assign (fun flash _ => power_on flash) prefs.

(** The first part of [setup], up to the point where the statistics are
    in place: the reset combo (both buttons held) or [loadStats].  The
    rest of [setup] is given with [handleWakeup] below. *)
Definition setup_load (resetCombo : bool) (wakeup_reason : esp_sleep_wakeup_cause_t)
    (dt : DateTime) : M unit :=
  emit (setBrightness 100) ;;
  if resetCombo then
    emit (drawString "RESETTING PET..." 20 100) ;;
    resetPet ;;
    emit (drawString "Done! New pet!" 25 120) ;;
    playHappySound
  else
    loadStats wakeup_reason dt.

(** What can happen to the device, each with the inputs it reads.  The
    events cover every statement of the sketch that writes [pet],
    [currentState] or the flash: [Boot] is the first part of [setup], and
    the [saveStats] that [handleWakeup] and [enterDeepSleep] call is the
    event [Save].  Any event may follow any other, which allows more
    histories than [loop] does: an invariant of all of them is an
    invariant of the device. *)
Inductive Event : Type :=
  | Tick (ms : Z)
  | Feed (ms : Z)
  | Play (ms : Z)
  | Sleep (ms : Z)
  | Wake (ms : Z)
  | Shake (aboveThreshold : bool) (currentTime ms ms' : Z)
  | Calm (timedOut : bool)
  | Save (dt : DateTime)
  | PowerLoss (n : nat) (dt : DateTime)
  | Boot (resetCombo : bool) (wakeup_reason : esp_sleep_wakeup_cause_t)
         (dt : DateTime).

Definition handler (ev : Event) : M unit :=
  match ev with
  | Tick ms => updateStats ms
  | Feed ms => feedPet ms
  | Play ms => playWithPet ms
  | Sleep ms => putToSleep ms
  | Wake ms => wakeUp ms
  | Shake a t ms ms' => loop_shake a t ms ms'
  | Calm b => updateAnimations_happy b
  | Save dt => saveStats dt
  | PowerLoss n dt => saveStats_interrupted n dt
  | Boot r w dt => reboot ;; setup_load r w dt
  end.

Definition step (ev : Event) (s : State) : State := exec (handler ev) s.

(** The state after a history of events, oldest first. *)
Definition run (evs : list Event) (s : State) : State :=
  fold_left (fun s ev => step ev s) evs s.

(** ** Properties of states and snapshots *)

(** A statistic is within its documented range. *)
Definition in_range (v : Z) : Prop := 0 <= v <= 100.

Definition stats_in_range (p : PetStats) : Prop :=
  in_range (hunger p) /\ in_range (happiness p) /\
  in_range (energy p) /\ in_range (health p).

(** The keys of the four statistics, and all keys of a snapshot in the
    order [saveStats] writes them. *)
Definition stat_keys : list string := ["hunger"; "happiness"; "energy"; "health"].
Definition snapshot_keys : list string :=
  ["hunger"; "happiness"; "energy"; "health"; "age"; "state"; "saveTime";
   "saveMonth"].

(** Every statistic that the flash holds is within range. *)
Definition snapshot_in_range (flash : gmap string Z) : Prop :=
  forall k v, k ∈ stat_keys -> flash !! k = Some v -> in_range v.

(** The invariant of the device: the statistics in RAM and those in flash
    are within range. *)
Definition Inv (s : State) : Prop :=
  stats_in_range (pet s) /\ snapshot_in_range (prefs s).

(** Some, but not all, fields of a snapshot are in the flash. *)
Definition partial_snapshot (flash : gmap string Z) : bool :=
  existsb (fun k => bool_decide (is_Some (flash !! k))) snapshot_keys
  && existsb (fun k => bool_decide (flash !! k = None)) snapshot_keys.

(** The default that [loadStats] passes to [getInt] or [getULong] for each
    key. *)
Definition snapshot_defaults : list (string * Z) :=
  [("hunger", 80); ("happiness", 80); ("energy", 100); ("health", 100);
   ("age", 0); ("state", STATE_IDLE); ("saveTime", 0); ("saveMonth", 0)].

(** The flash with every missing field of the snapshot written as its
    default. *)
Definition fill_defaults (flash : gmap string Z) : gmap string Z :=
  fold_right (fun '(k, d) m => <[k := default d (flash !! k)]> m)
             flash snapshot_defaults.

(** A pet that has gone hungry, and a clock reading, to try the functions
    on. *)
Definition hungry_pet : State :=
  mkState ∅ (mkPetStats 25 60 70 90 12) STATE_HUNGRY 0 0 0 0 0 0 0 0 0 false.

Definition half_past_ten : DateTime := mkDateTime 2025 6 15 10 30.

(** The variables in RAM alone: the state with its flash blanked. *)
Definition ram (s : State) : State := set_prefs ∅ s.

(** A flash in which a save was cut short after its first write. *)
Definition only_hunger_saved : gmap string Z := {["hunger" := 25]}.

(** The state once [loadStats] has read the five statistics from the
    flash, each with its default. *)
Definition restored (s : State) : State :=
  set_age (getULong "age" 0 s)
    (set_health (getInt "health" 100 s)
       (set_energy (getInt "energy" 100 s)
          (set_happiness (getInt "happiness" 80 s)
             (set_hunger (getInt "hunger" 80 s) s)))).

(** A statement keeps a property of the state. *)
Definition preserves {A : Type} (I : State -> Prop) (m : M A) : Prop :=
  forall s, I s -> I (exec m s).

(** A clock reading whose day, hour and minute are those of a calendar. *)
Definition valid_clock (dt : DateTime) : Prop :=
  1 <= date dt <= 31 /\ 0 <= hours dt <= 23 /\ 0 <= minutes dt <= 59.

(** ** Deep sleep and the wake-up handler *)

Definition SLEEP_TIMEOUT_MS : Z := 60000.
Definition ALERT_CHECK_INTERVAL_US : Z := 900000000.
Definition STAT_CRITICAL_THRESHOLD : Z := 25.
Definition GPIO_NUM_37 : Z := 37.

(** How a function of the sketch ends.  [esp_deep_sleep_start] does not
    return: the processor powers down with the wake sources that were
    armed, here the pin that wakes it when pulled low and a timer in
    microseconds.  A function that polls a button is given the readings
    it gets; when they run out before it has seen what it waits for, it
    is still [Waiting]. *)
Inductive Outcome : Type :=
  | Returned
  | DeepSleep (ext0_pin timer_us : Z)
  | Waiting.


Definition playAlertSound : M unit :=
  forM (seqZ 0 3) (fun _ => emit (tone 1000 150) ;; emit (tone 500 150)).

Definition needsAlert (s : State) : bool :=
  (hunger (pet s) <? STAT_CRITICAL_THRESHOLD)
  || (happiness (pet s) <? STAT_CRITICAL_THRESHOLD)
  || (energy (pet s) <? STAT_CRITICAL_THRESHOLD)
  || (health (pet s) <? STAT_CRITICAL_THRESHOLD).

(** [enterDeepSleep].  [M5.Lcd.sleep] switches the panel off and is not
    among the recorded outputs. *)
Definition enterDeepSleep (dt : DateTime) : M Outcome :=
  saveStats dt ;;
  emit (drawString "Going to sleep..." 20 100) ;;
  emit (drawString "Press PWR to wake" 15 120) ;;
  emit (drawString "Checking in 15min" 15 150) ;;
  emit (setBrightness 0) ;;
  mret (DeepSleep GPIO_NUM_37 ALERT_CHECK_INTERVAL_US).

(** The 30 second wait of [handleWakeup]:
    [while (millis() - alertStart < 30000) { ... delay(50); }].
    Each element of [polls] is one turn of the loop: the clock as the
    loop condition reads it, and whether button A or B was pressed.  The
    result is [Some true] when a press was seen in time, [Some false] when
    the 30 seconds ran out, [None] when the readings ran out first. *)
Fixpoint alertWait (alertStart : Z) (polls : list (Z * bool)) (msAck : Z)
    : M (option bool) :=
  match polls with
  | [] => mret None
  | (ms, pressed) :: rest =>
      if to_ulong (ms - alertStart) <? 30000 then
        if pressed then
          set_lastInteraction ::= (fun _ => msAck) ;;
          set_alertWakeup ::= (fun _ => false) ;;
          mret (Some true)
        else
          alertWait alertStart rest msAck
      else
        mret (Some false)
  end.

(** One line of the alert screen: drawn at height [y] when the statistic
    is critical, and then [y += 20]. *)
Definition alertLine (stat : PetStats -> Z) (text : string) (x y : Z) : M Z :=
  If (fun s => stat (pet s) <? STAT_CRITICAL_THRESHOLD) Then
    emit (drawString text x y) ;;
    mret (to_int (y + 20))
  Else
    mret y.

(** [handleWakeup].  [alertStart] is the clock when the wait begins,
    [msAck] the clock when a press is acknowledged, [dt] the calendar
    clock at the save.  [M5.Lcd.wakeup] is not among the recorded
    outputs, and [drawDogFace(SCREEN_WIDTH / 2, 160)] with its default
    [sleeping = false] draws shapes only: it writes no text and no
    global. *)
Definition handleWakeup (wakeup_reason : esp_sleep_wakeup_cause_t)
    (alertStart : Z) (polls : list (Z * bool)) (msAck : Z) (dt : DateTime)
    : M Outcome :=
  if is_TIMER wakeup_reason then
    If needsAlert Then
      set_alertWakeup ::= (fun _ => true) ;;
      emit (setBrightness 100) ;;
      playAlertSound ;;
      emit (drawString "ALERT!" 35 30) ;;
      y ← alertLine hunger "I'm hungry!" 30 70 ;
      y ← alertLine happiness "I'm sad!" 35 y ;
      y ← alertLine energy "I'm tired!" 32 y ;
      y ← alertLine health "I'm sick!" 35 y ;
      emit (drawString "Press A to care" 20 220) ;;
      answer ← alertWait alertStart polls msAck ;
      match answer with
      | Some true => mret Returned
      | Some false => enterDeepSleep dt
      | None => mret Waiting
      end
    Else
      saveStats dt ;;
      mret (DeepSleep GPIO_NUM_37 ALERT_CHECK_INTERVAL_US)
  else if is_EXT0 wakeup_reason then
    set_alertWakeup ::= (fun _ => false) ;;
    emit (setBrightness 100) ;;
    playWakeSound ;;
    mret Returned
  else
    mret Returned.

(** One line for each statistic of a pet that is below the threshold, in
    the order hunger, happiness, energy, health, the first at height 70
    and each next one 20 lower. *)
Definition alert_lines (p : PetStats) : list Output :=
  let low :=
    List.filter (fun '(v, _, _) => v <? STAT_CRITICAL_THRESHOLD)
      [(hunger p, "I'm hungry!", 30); (happiness p, "I'm sad!", 35);
       (energy p, "I'm tired!", 32); (health p, "I'm sick!", 35)] in
  imap (fun i '(_, text, x) => drawString text x (70 + 20 * Z.of_nat i)) low.

(** The polls of a wait in which no button is pressed and the clock stays
    within 30 seconds of [alertStart]. *)
Definition quiet_polls (alertStart : Z) (polls : list (Z * bool)) : Prop :=
  Forall (fun '(ms, pressed) =>
            to_ulong (ms - alertStart) < 30000 /\ pressed = false) polls.

(** The flash holds the statistics and the state that are in RAM. *)
Definition saved_in_flash (s : State) : Prop :=
  prefs s !! "hunger" = Some (hunger (pet s)) /\
  prefs s !! "happiness" = Some (happiness (pet s)) /\
  prefs s !! "energy" = Some (energy (pet s)) /\
  prefs s !! "health" = Some (health (pet s)) /\
  prefs s !! "age" = Some (age (pet s)) /\
  prefs s !! "state" = Some (currentState s).


(** ** The whole of [setup], and the device with its power states *)

(** [setup] from its first to its last line.  Once the statistics are in
    place, a wake-up from deep sleep is handed to [handleWakeup] and every
    other start shows the welcome screen.  When [setup] gets to its end,
    [lastInteraction = millis()] starts the idle clock at [ms];
    [lastUpdate] and [lastStatDecay], set in the same place, time the
    drawing and the ticks of [loop], which are events here.  [dt] is the
    calendar clock that [loadStats] reads and [dt'] the one that a
    [saveStats] inside [handleWakeup] reads. *)
Definition setup (resetCombo : bool) (wakeup_reason : esp_sleep_wakeup_cause_t)
    (dt : DateTime) (alertStart : Z) (polls : list (Z * bool)) (msAck : Z)
    (dt' : DateTime) (ms : Z) : M Outcome :=
  setup_load resetCombo wakeup_reason dt ;;
  o ← (if is_TIMER wakeup_reason || is_EXT0 wakeup_reason then
         handleWakeup wakeup_reason alertStart polls msAck dt'
       else
         emit (drawString "PUPPY" 35 90) ;;
         emit (drawString "PAL" 50 115) ;;
         emit (drawString "Your virtual pet!" 20 150) ;;
         playHappySound ;;
         mret Returned) ;
  match o with
  | Returned => set_lastInteraction ::= (fun _ => ms) ;; mret Returned
  | _ => mret o
  end.

(** The auto-sleep test near the end of [loop]:
    [if (currentState == STATE_IDLE &&
         currentTime - lastInteraction > SLEEP_TIMEOUT_MS) enterDeepSleep();] *)
Definition loop_autosleep (currentTime : Z) (dt : DateTime) : M Outcome :=
  If (fun s => (currentState s =? STATE_IDLE)
               && (to_ulong (currentTime - lastInteraction s)
                   >? SLEEP_TIMEOUT_MS)) Then
    enterDeepSleep dt
  Else
    mret Returned.


(** The device is running the sketch, or it is in deep sleep with its
    wake sources armed, or it has no power.  Only the flash outlives the
    last two. *)
Inductive Device : Type :=
  | Running (s : State)
  | InDeepSleep (flash : gmap string Z)
  | PoweredOff (flash : gmap string Z).

Definition flash_of (d : Device) : gmap string Z :=
  match d with
  | Running s => prefs s
  | InDeepSleep flash => flash
  | PoweredOff flash => flash
  end.

(** What can happen to the device, power included.
    - [InLoop]: one of the events of [loop] above, while running;
    - [Touch]: [lastInteraction = currentTime], as [loop] does on a button
      press or a shake;
    - [IdleCheck]: the auto-sleep test of [loop];
    - [PowerFailure]: the power goes while running, [n] writes into a
      [saveStats] ([0]: outside of one);
    - [PowerOn]: power-on or reset, from any state: [setup] runs with a
      wake cause that is neither the timer nor the button;
    - [Resume]: a wake-up from deep sleep by the timer or the button:
      [setup] runs with that cause;
    - [ResumeFailure]: the power goes during such a [setup], [n] writes
      into a [saveStats]. *)
Inductive DeviceEvent : Type :=
  | InLoop (ev : Event)
  | Touch (currentTime : Z)
  | IdleCheck (currentTime : Z) (dt : DateTime)
  | PowerFailure (n : nat) (dt : DateTime)
  | PowerOn (resetCombo : bool) (dt : DateTime) (ms : Z)
  | Resume (wakeup_reason : esp_sleep_wakeup_cause_t) (resetCombo : bool)
           (dt : DateTime) (alertStart : Z) (polls : list (Z * bool))
           (msAck : Z) (dt' : DateTime) (ms : Z)
  | ResumeFailure (wakeup_reason : esp_sleep_wakeup_cause_t)
                  (resetCombo : bool) (dt : DateTime) (n : nat)
                  (dt' : DateTime).

(** The events that [loop] itself gives rise to. *)
Definition in_loop (ev : Event) : bool :=
  match ev with
  | PowerLoss _ _ | Boot _ _ _ => false
  | _ => true
  end.

(** Where the device is once a function has ended.  A wait whose button
    readings ran out has not ended. *)
Definition ended (r : Outcome * State * list Output) : option Device :=
  match r with
  | (Returned, s, _) => Some (Running s)
  | (DeepSleep _ _, s, _) => Some (InDeepSleep (prefs s))
  | (Waiting, _, _) => None
  end.

(** One event; [None] when it cannot happen in that state. *)
Definition device_step (e : DeviceEvent) (d : Device) : option Device :=
  match e, d with
  | InLoop ev, Running s =>
      if in_loop ev then Some (Running (step ev s)) else None
  | Touch currentTime, Running s =>
      Some (Running (set_lastInteraction currentTime s))
  | IdleCheck currentTime dt, Running s =>
      ended (loop_autosleep currentTime dt s)
  | PowerFailure n dt, Running s =>
      Some (PoweredOff (prefs (exec (saveStats_interrupted n dt) s)))
  | PowerOn r dt ms, _ =>
      ended (setup r ESP_SLEEP_WAKEUP_UNDEFINED dt 0 [] 0 dt ms
                   (power_on (flash_of d)))
  | Resume w r dt a polls msAck dt' ms, InDeepSleep flash =>
      if is_TIMER w || is_EXT0 w then
        ended (setup r w dt a polls msAck dt' ms (power_on flash))
      else None
  | ResumeFailure w r dt n dt', InDeepSleep flash =>
      if is_TIMER w || is_EXT0 w then
        Some (PoweredOff
                (prefs (exec (setup_load r w dt ;; saveStats_interrupted n dt')
                             (power_on flash))))
      else None
  | _, _ => None
  end.

(** The device after a history of events, oldest first. *)
Fixpoint device_run (evs : list DeviceEvent) (d : Device) : option Device :=
  match evs with
  | [] => Some d
  | e :: rest =>
      match device_step e d with
      | Some d' => device_run rest d'
      | None => None
      end
  end.

(** The device out of the box: no power yet, nothing saved. *)
Definition factory : Device := PoweredOff ∅.

(** The age is an [unsigned long], in RAM and in the flash. *)
Definition age_is_ulong (s : State) : Prop :=
  is_ulong (age (pet s)) /\ forall v, prefs s !! "age" = Some v -> is_ulong v.

(** What holds of the device in each power state.  In deep sleep the
    flash is a whole snapshot, taken by [saveStats] while the pet was
    IDLE. *)
Definition device_Inv (d : Device) : Prop :=
  match d with
  | Running s => Inv s /\ age_is_ulong s
  | InDeepSleep flash =>
      exists s dt,
        flash = prefs (exec (saveStats dt) s) /\
        (Inv s /\ age_is_ulong s) /\ currentState s = STATE_IDLE
  | PoweredOff flash => snapshot_in_range flash /\
                        forall v, flash !! "age" = Some v -> is_ulong v
  end.

(** ** Machine integers: lemmas *)

Lemma to_int_small (z : Z) : is_int z -> to_int z = z.
Proof.
  unfold is_int, INT_MIN, INT_MAX, to_int. intros H.
  rewrite Z.mod_small; lia.
Qed.

Lemma to_ulong_small (z : Z) : is_ulong z -> to_ulong z = z.
Proof.
  unfold is_ulong, ULONG_MAX, to_ulong. intros H.
  rewrite Z.mod_small; lia.
Qed.

Lemma to_ulong_bounds (z : Z) : 0 <= to_ulong z < 2 ^ 32.
Proof. unfold to_ulong. apply Z.mod_pos_bound. lia. Qed.

Lemma min_Zmin (a b : Z) : min a b = Z.min a b.
Proof. unfold min. destruct (Z.ltb_spec a b); lia. Qed.

Lemma max_Zmax (a b : Z) : max a b = Z.max a b.
Proof. unfold max. rewrite Z.gtb_ltb. destruct (Z.ltb_spec b a); lia. Qed.

(** ** Running statements: equations *)

Section Exec.
Context {A B : Type}.

Lemma exec_bind (m : M A) (k : A -> M B) (s : State) :
  exec (m ≫= k) s = exec (k (result m s)) (exec m s).
Proof.
  unfold exec, result, mbind, M_bind, bind.
  destruct (m s) as [[a s1] o1]; simpl.
  destruct (k a s1) as [[b s2] o2]; reflexivity.
Qed.

Lemma result_bind (m : M A) (k : A -> M B) (s : State) :
  result (m ≫= k) s = result (k (result m s)) (exec m s).
Proof.
  unfold exec, result, mbind, M_bind, bind.
  destruct (m s) as [[a s1] o1]; simpl.
  destruct (k a s1) as [[b s2] o2]; reflexivity.
Qed.

Lemma outputs_bind (m : M A) (k : A -> M B) (s : State) :
  outputs (m ≫= k) s
  = (outputs m s ++ outputs (k (result m s)) (exec m s))%list.
Proof.
  unfold outputs, exec, result, mbind, M_bind, bind.
  destruct (m s) as [[a s1] o1]; simpl.
  destruct (k a s1) as [[b s2] o2]; reflexivity.
Qed.

Lemma exec_ifM (c : State -> bool) (t e : M A) (s : State) :
  exec (If c Then t Else e) s = if c s then exec t s else exec e s.
Proof. unfold exec, ifM. destruct (c s); reflexivity. Qed.

Lemma exec_assign (set : A -> State -> State) (e : State -> A) (s : State) :
  exec (set ::= e) s = set (e s) s.
Proof. reflexivity. Qed.

Lemma exec_ret (a : A) (s : State) : exec (mret a) s = s.
Proof. reflexivity. Qed.

End Exec.

Lemma exec_emit (o : Output) (s : State) : exec (emit o) s = s.
Proof. reflexivity. Qed.

Lemma exec_skip (s : State) : exec skip s = s.
Proof. reflexivity. Qed.

Lemma exec_get (s : State) : exec get s = s.
Proof. reflexivity. Qed.

Lemma result_get (s : State) : result get s = s.
Proof. reflexivity. Qed.

Lemma exec_forM_cons (i : Z) (l : list Z) (body : Z -> M unit) (s : State) :
  exec (forM (i :: l) body) s = exec (forM l body) (exec (body i) s).
Proof. simpl. apply exec_bind. Qed.

Lemma exec_block_cons (m : M unit) (rest : list (M unit)) (s : State) :
  exec (block (m :: rest)) s = exec (block rest) (exec m s).
Proof. simpl. apply exec_bind. Qed.

(** ** Keeping an invariant: one rule per construct *)

Section Preserves.
Variable I : State -> Prop.

Lemma preserves_bind {A B : Type} (m : M A) (k : A -> M B) :
  preserves I m -> (forall a, preserves I (k a)) -> preserves I (m ≫= k).
Proof. intros Hm Hk s Hs. rewrite exec_bind. apply Hk, Hm, Hs. Qed.

Lemma preserves_ifM {A : Type} (c : State -> bool) (t e : M A) :
  preserves I t -> preserves I e -> preserves I (If c Then t Else e).
Proof. intros Ht He s Hs. rewrite exec_ifM. destruct (c s); auto. Qed.

Lemma preserves_assign {A : Type} (set : A -> State -> State) (e : State -> A) :
  (forall s, I s -> I (set (e s) s)) -> preserves I (set ::= e).
Proof. intros H s Hs. apply H, Hs. Qed.

Lemma preserves_ret {A : Type} (a : A) : preserves I (mret a).
Proof. intros s Hs. exact Hs. Qed.

Lemma preserves_skip : preserves I skip.
Proof. intros s Hs. exact Hs. Qed.

Lemma preserves_get : preserves I get.
Proof. intros s Hs. exact Hs. Qed.

Lemma preserves_emit (o : Output) : preserves I (emit o).
Proof. intros s Hs. exact Hs. Qed.

Lemma preserves_forM (l : list Z) (body : Z -> M unit) :
  (forall i, preserves I (body i)) -> preserves I (forM l body).
Proof.
  intros Hb. induction l as [|i l IH]; intros s Hs.
  - exact Hs.
  - rewrite exec_forM_cons. apply IH, Hb, Hs.
Qed.

Lemma preserves_block (stmts : list (M unit)) :
  Forall (preserves I) stmts -> preserves I (block stmts).
Proof.
  induction 1 as [|m rest Hm _ IH]; intros s Hs.
  - exact Hs.
  - rewrite exec_block_cons. apply IH, Hm, Hs.
Qed.
End Preserves.

(** ** The statistics stay within range *)

Lemma in_range_clamp_down (v d : Z) :
  in_range v -> 0 <= d <= INT_MAX -> in_range (max 0 (to_int (v - d))).
Proof.
  unfold in_range, INT_MAX. intros Hv Hd.
  rewrite max_Zmax, to_int_small by (unfold is_int, INT_MIN, INT_MAX; lia).
  lia.
Qed.

Lemma in_range_clamp_up (v d : Z) :
  in_range v -> 0 <= d <= 100 -> in_range (min 100 (to_int (v + d))).
Proof.
  unfold in_range. intros Hv Hd.
  rewrite min_Zmin, to_int_small by (unfold is_int, INT_MIN, INT_MAX; lia).
  lia.
Qed.

Lemma not_stat_key (k : string) :
  k ∈ stat_keys -> k = "hunger" \/ k = "happiness" \/ k = "energy" \/ k = "health".
Proof.
  unfold stat_keys. rewrite !elem_of_cons, elem_of_nil. tauto.
Qed.

Lemma snapshot_in_range_insert (k : string) (v : Z) (flash : gmap string Z) :
  snapshot_in_range flash -> (k ∈ stat_keys -> in_range v) ->
  snapshot_in_range (<[k := v]> flash).
Proof.
  intros Hfl Hv k' v' Hk'. rewrite lookup_insert.
  case_decide as E.
  - subst k'. intros [= <-]. auto.
  - apply Hfl, Hk'.
Qed.

Lemma snapshot_in_range_empty : snapshot_in_range ∅.
Proof. intros k v _. rewrite lookup_empty. discriminate. Qed.

Lemma getInt_in_range (k : string) (d : Z) (s : State) :
  snapshot_in_range (prefs s) -> k ∈ stat_keys -> in_range d ->
  in_range (getInt k d s).
Proof.
  intros Hfl Hk Hd. unfold getInt.
  destruct (prefs s !! k) as [v|] eqn:E; simpl; eauto.
Qed.

Lemma Inv_power_on (flash : gmap string Z) :
  snapshot_in_range flash -> Inv (power_on flash).
Proof.
  intros Hfl. split; [|exact Hfl].
  unfold stats_in_range, in_range; simpl. lia.
Qed.

(** Taking a rule apart: sequencing, branching and loops are followed
    down to the assignments, which are left to the caller. *)
Ltac preserves_rule :=
  lazymatch goal with
  | |- preserves _ skip => apply preserves_skip
  | |- preserves _ (mret _) => apply preserves_ret
  | |- preserves _ get => apply preserves_get
  | |- preserves _ (emit _) => apply preserves_emit
  | |- preserves _ (_ ≫= _) => apply preserves_bind; [|intros ?]
  | |- preserves _ (ifM _ _ _) => apply preserves_ifM
  | |- preserves _ (forM _ _) => apply preserves_forM; intros ?
  | |- preserves _ (assign _ _) => apply preserves_assign; intros ? [? ?]
  | |- preserves _ (let x := _ in _) => cbv zeta
  end.

Ltac preserves_rules := repeat preserves_rule.

(** An assignment to a statistic keeps the invariant when the value is in
    range; an assignment to any other variable keeps it outright. *)
Ltac Inv_assign :=
  match goal with
  | Hst : stats_in_range (pet ?s), Hfl : snapshot_in_range (prefs ?s)
    |- Inv _ =>
      first
        [ exact (conj Hst Hfl)
        | split; [|exact Hfl];
          destruct Hst as (? & ? & ? & ?);
          unfold stats_in_range; simpl;
          refine (conj _ (conj _ (conj _ _)));
          first [ assumption
                | apply in_range_clamp_down; [assumption | unfold INT_MAX; lia]
                | apply in_range_clamp_up; [assumption | lia]
                | unfold in_range; lia ] ]
  end.

Lemma playHappySound_preserves (I : State -> Prop) : preserves I playHappySound.
Proof. intros s Hs. exact Hs. Qed.

Lemma playSadSound_preserves (I : State -> Prop) : preserves I playSadSound.
Proof. intros s Hs. exact Hs. Qed.

Lemma playEatSound_preserves (I : State -> Prop) : preserves I playEatSound.
Proof. intros s Hs. exact Hs. Qed.

Lemma playSleepSound_preserves (I : State -> Prop) : preserves I playSleepSound.
Proof. intros s Hs. exact Hs. Qed.

Lemma playWakeSound_preserves (I : State -> Prop) : preserves I playWakeSound.
Proof. intros s Hs. exact Hs. Qed.

Lemma playPlaySound_preserves (I : State -> Prop) : preserves I playPlaySound.
Proof. intros s Hs. exact Hs. Qed.

Lemma playErrorSound_preserves (I : State -> Prop) : preserves I playErrorSound.
Proof. intros s Hs. exact Hs. Qed.

Create HintDb sounds.
#[local] Hint Resolve playHappySound_preserves playSadSound_preserves
  playEatSound_preserves playSleepSound_preserves playWakeSound_preserves
  playPlaySound_preserves playErrorSound_preserves : sounds.

Lemma updateStats_Inv (ms : Z) : preserves Inv (updateStats ms).
Proof.
  unfold updateStats. preserves_rules; auto with sounds; Inv_assign.
Qed.

Lemma feedPet_Inv (ms : Z) : preserves Inv (feedPet ms).
Proof.
  unfold feedPet. preserves_rules; auto with sounds; Inv_assign.
Qed.

Lemma playWithPet_Inv (ms : Z) : preserves Inv (playWithPet ms).
Proof.
  unfold playWithPet. preserves_rules; auto with sounds; Inv_assign.
Qed.

Lemma putToSleep_Inv (ms : Z) : preserves Inv (putToSleep ms).
Proof.
  unfold putToSleep. preserves_rules; auto with sounds; Inv_assign.
Qed.

Lemma wakeUp_Inv (ms : Z) : preserves Inv (wakeUp ms).
Proof.
  unfold wakeUp. preserves_rules; auto with sounds; Inv_assign.
Qed.

Lemma handleShakeSickness_Inv : preserves Inv handleShakeSickness.
Proof.
  unfold handleShakeSickness. preserves_rules; auto with sounds; Inv_assign.
Qed.

Lemma checkForShake_Inv (a : bool) (ms : Z) : preserves Inv (checkForShake a ms).
Proof.
  unfold checkForShake. preserves_rules; Inv_assign.
Qed.

Lemma loop_shake_Inv (a : bool) (t ms ms' : Z) :
  preserves Inv (loop_shake a t ms ms').
Proof.
  unfold loop_shake. apply preserves_bind; [apply checkForShake_Inv|].
  intros [|]; preserves_rules;
    auto using wakeUp_Inv, handleShakeSickness_Inv; Inv_assign.
Qed.

Lemma updateAnimations_happy_Inv (b : bool) :
  preserves Inv (updateAnimations_happy b).
Proof.
  unfold updateAnimations_happy. preserves_rules; Inv_assign.
Qed.

Lemma elapsedMinutes_bounds (w : esp_sleep_wakeup_cause_t) (dt : DateTime)
    (savedTime savedMonth : Z) :
  0 <= elapsedMinutes w dt savedTime savedMonth <= 60.
Proof.
  unfold elapsedMinutes.
  match goal with
  | |- context [if ?x >? 60 then 60 else ?x] =>
      assert (Hx : 0 <= x);
      [| generalize dependent x; intros e He;
         rewrite Z.gtb_ltb; destruct (Z.ltb_spec 60 e); lia ]
  end.
  pose proof (to_ulong_bounds (timeVal dt - savedTime)) as Hu.
  repeat match goal with
         | |- context [if ?c then _ else _] => destruct c
         end; lia.
Qed.

Lemma applyDecay_Inv (e savedState : Z) :
  0 <= e <= 60 -> preserves Inv (applyDecay e savedState).
Proof.
  intros He. unfold applyDecay.
  assert (Hd : 0 <= to_int (e / 2) <= 30).
  { assert (0 <= e / 2 <= 30)
      by (split; [apply Z.div_pos | apply Z.div_le_upper_bound]; lia).
    rewrite to_int_small by (unfold is_int, INT_MIN, INT_MAX; lia). lia. }
  generalize dependent (to_int (e / 2)). intros d Hd.
  assert (Hq : 0 <= d ÷ 2 <= 30).
  { rewrite Z.quot_div_nonneg by lia.
    split; [apply Z.div_pos | apply Z.div_le_upper_bound]; lia. }
  preserves_rules; Inv_assign.
Qed.

Lemma loadStats_Inv (w : esp_sleep_wakeup_cause_t) (dt : DateTime) :
  preserves Inv (loadStats w dt).
Proof.
  unfold loadStats. apply preserves_ifM; [apply preserves_skip|].
  repeat (apply preserves_bind;
          [ apply preserves_assign; intros s [Hst Hfl];
            split; [|exact Hfl];
            destruct Hst as (? & ? & ? & ?);
            unfold stats_in_range; simpl;
            refine (conj _ (conj _ (conj _ _)));
            first [ assumption
                  | apply getInt_in_range;
                    [ assumption
                    | unfold stat_keys;
                      repeat first [apply list_elem_of_here | apply list_elem_of_further]
                    | unfold in_range; lia ] ]
          | intros _ ]).
  apply preserves_bind; [apply preserves_get|]. intros s0.
  destruct (is_TIMER w || is_EXT0 w).
  - apply preserves_bind; [apply applyDecay_Inv, elapsedMinutes_bounds|].
    intros _. preserves_rules; Inv_assign.
  - preserves_rules; Inv_assign.
Qed.

Lemma saveStats_puts_Inv (dt : DateTime) :
  Forall (preserves Inv) (saveStats_puts dt).
Proof.
  unfold saveStats_puts, putInt, putULong.
  repeat apply Forall_cons_2; try apply Forall_nil_2;
    apply preserves_assign; intros s [Hst Hfl];
    (split; [exact Hst|]); simpl;
    (apply snapshot_in_range_insert; [exact Hfl|]);
    intros Hk; destruct Hst as (? & ? & ? & ?);
    first [ assumption
          | apply not_stat_key in Hk; destruct Hk as [|[|[|]]]; discriminate ].
Qed.

Lemma saveStats_Inv (dt : DateTime) : preserves Inv (saveStats dt).
Proof. apply preserves_block, saveStats_puts_Inv. Qed.

Lemma saveStats_interrupted_Inv (n : nat) (dt : DateTime) :
  preserves Inv (saveStats_interrupted n dt).
Proof. apply preserves_block, Forall_take, saveStats_puts_Inv. Qed.

Lemma resetPet_Inv : preserves Inv resetPet.
Proof.
  unfold resetPet. apply preserves_bind.
  - apply preserves_assign; intros s [Hst _].
    split; [exact Hst | apply snapshot_in_range_empty].
  - intros _. preserves_rules; Inv_assign.
Qed.

Lemma reboot_Inv : preserves Inv reboot.
Proof. intros s [_ Hfl]. apply Inv_power_on, Hfl. Qed.

Lemma setup_load_Inv (r : bool) (w : esp_sleep_wakeup_cause_t) (dt : DateTime) :
  preserves Inv (setup_load r w dt).
Proof.
  unfold setup_load. apply preserves_bind; [apply preserves_emit|]. intros _.
  destruct r.
  - preserves_rules; auto using resetPet_Inv with sounds.
  - apply loadStats_Inv.
Qed.

Lemma handler_Inv (ev : Event) : preserves Inv (handler ev).
Proof.
  destruct ev; simpl;
    auto using updateStats_Inv, feedPet_Inv, playWithPet_Inv, putToSleep_Inv,
      wakeUp_Inv, loop_shake_Inv, updateAnimations_happy_Inv, saveStats_Inv,
      saveStats_interrupted_Inv.
  apply preserves_bind; [apply reboot_Inv|]. intros _. apply setup_load_Inv.
Qed.

Lemma run_Inv (evs : list Event) (s : State) : Inv s -> Inv (run evs s).
Proof.
  revert s. induction evs as [|ev evs IH]; intros s Hs; simpl.
  - exact Hs.
  - apply IH, handler_Inv, Hs.
Qed.

Lemma Inv_first_boot : Inv first_boot.
Proof. apply Inv_power_on, snapshot_in_range_empty. Qed.

(** C1.  Every state the device can reach from its first boot, through any
    history of ticks, feeding, play, sleep, wake-up, shakes, saves (whole or
    cut short by a power loss) and reboots with any wake cause and clock,
    has hunger, happiness, energy and health within 0..100; and each of
    these operations, started where the statistics in RAM and in flash are
    within range, ends there too. *)
Theorem stats_in_range_invariant :
  (forall evs, stats_in_range (pet (run evs first_boot))) /\
  (forall ev s, Inv s -> Inv (step ev s)).
Proof.
  split.
  - intros evs. apply (run_Inv evs first_boot Inv_first_boot).
  - intros ev s. apply handler_Inv.
Qed.

Lemma stats_in_range_invariant_witness :
  Inv first_boot /\ Inv (step (Play 2000) first_boot).
Proof.
  assert (H : Inv first_boot).
  { split.
    - unfold stats_in_range, in_range; simpl. lia.
    - intros k v _ Hl. vm_compute in Hl. discriminate Hl. }
  split.
  - exact H.
  - apply (proj2 stats_in_range_invariant (Play 2000) first_boot H).
Defined.

(** ** Decay on resume *)

Ltac stmt_unfold :=
  cbv [exec outputs result mbind M_bind bind mret M_ret ret assign ifM skip
       emit get].

Lemma ticks_int (e : Z) : is_ulong e -> to_int (e / 2) = e / 2 /\ 0 <= e / 2 <= INT_MAX.
Proof.
  unfold is_ulong, ULONG_MAX, INT_MAX. intros He.
  assert (0 <= e / 2) by (apply Z.div_pos; lia).
  assert (e / 2 < 2 ^ 31) by (apply Z.div_lt_upper_bound; lia).
  split; [|lia].
  apply to_int_small. unfold is_int, INT_MIN, INT_MAX. lia.
Qed.

Lemma applyDecay_awake (e savedState : Z) (s : State) :
  stats_in_range (pet s) -> is_ulong e ->
  savedState <> STATE_SLEEPING ->
  let ticks := e / 2 in
  let hunger' := Z.max 0 (hunger (pet s) - ticks) in
  let happiness' := Z.max 0 (happiness (pet s) - ticks) in
  let energy' := Z.max 0 (energy (pet s) - ticks / 2) in
  let health' :=
    if (hunger' <? 10) || (happiness' <? 10)
    then Z.max 0 (health (pet s) - ticks) else health (pet s) in
  pet (exec (applyDecay e savedState) s)
  = mkPetStats hunger' happiness' energy' health'
               (to_ulong (age (pet s) + e))
  /\ currentState (exec (applyDecay e savedState) s) = STATE_IDLE.
Proof.
  intros (Hh & Hp & He & Hl) Hu Hst. unfold in_range in *. cbv zeta.
  destruct (ticks_int e Hu) as [Ht Hd].
  set (ticks := e / 2) in *. unfold INT_MAX in Hd.
  assert (Hq : ticks ÷ 2 = ticks / 2) by (apply Z.quot_div_nonneg; lia).
  assert (0 <= ticks / 2 <= ticks).
  { split; [apply Z.div_pos; lia|].
    apply Z.div_le_upper_bound; lia. }
  unfold applyDecay. fold ticks. rewrite Ht, Hq. clearbody ticks.
  apply Z.eqb_neq in Hst. stmt_unfold. rewrite Hst.
  destruct s as [fl [h hp en hl a] cs ? ? ? ? ? ? ? ? ? ?]; simpl in *.
  rewrite !max_Zmax.
  rewrite !to_int_small by (unfold is_int, INT_MIN, INT_MAX; lia).
  destruct ((Z.max 0 (h - ticks) <? 10) || (Z.max 0 (hp - ticks) <? 10));
    simpl; rewrite ?max_Zmax, ?to_int_small
      by (unfold is_int, INT_MIN, INT_MAX; lia); split; reflexivity.
Qed.

Lemma applyDecay_zero (savedState : Z) (s : State) :
  stats_in_range (pet s) -> is_ulong (age (pet s)) ->
  exec (applyDecay 0 savedState) s
  = set_currentState
      (if savedState =? STATE_SLEEPING then STATE_SLEEPING else STATE_IDLE) s.
Proof.
  intros (Hh & Hp & He & Hl) Ha. unfold in_range in *.
  unfold applyDecay. change (to_int (0 / 2)) with 0. change (0 ÷ 2) with 0.
  stmt_unfold.
  destruct s as [fl [h hp en hl a] cs ? ? ? ? ? ? ? ? ? ?]; simpl in *.
  assert (Hmax : forall v, 0 <= v <= 100 -> max 0 (to_int (v - 0)) = v).
  { intros v Hv. rewrite max_Zmax, to_int_small
      by (unfold is_int, INT_MIN, INT_MAX; lia). lia. }
  assert (Hmin : forall v, 0 <= v <= 100 -> min 100 (to_int (v + 0)) = v).
  { intros v Hv. rewrite min_Zmin, to_int_small
      by (unfold is_int, INT_MIN, INT_MAX; lia). lia. }
  assert (Hage : to_ulong (a + 0) = a).
  { rewrite Z.add_0_r. apply to_ulong_small, Ha. }
  destruct (savedState =? STATE_SLEEPING); simpl;
    rewrite ?Hmax, ?Hmin by assumption;
    destruct ((h <? 10) || (hp <? 10)); simpl;
    rewrite ?Hmax, ?Hage by assumption; reflexivity.
Qed.

(** After a deep sleep, [loadStats] on a flash that has the key
    ["hunger"] reads the statistics and then applies the decay for the
    estimated minutes. *)
Lemma loadStats_resume (w : esp_sleep_wakeup_cause_t) (dt : DateTime) (s : State) :
  isKey "hunger" s = true -> w <> ESP_SLEEP_WAKEUP_UNDEFINED ->
  exec (loadStats w dt) s
  = set_alertWakeup (is_TIMER w)
      (exec (applyDecay
               (elapsedMinutes w dt (getULong "saveTime" 0 s)
                               (getInt "saveMonth" 0 s))
               (getInt "state" STATE_IDLE s))
            (restored s)).
Proof.
  intros Hk Hw. unfold loadStats. rewrite exec_ifM, Hk. simpl negb. cbv iota.
  rewrite !exec_bind, !exec_assign, exec_get, result_get.
  destruct w; [congruence| |]; simpl orb; cbv iota;
    rewrite exec_bind, exec_assign; reflexivity.
Qed.

(** On any other boot it reads the statistics and the state, with
    SLEEPING read as IDLE, and applies no decay. *)
Lemma loadStats_fresh_exec (dt : DateTime) (s : State) :
  isKey "hunger" s = true ->
  exec (loadStats ESP_SLEEP_WAKEUP_UNDEFINED dt) s
  = set_alertWakeup false
      (set_currentState
         (if getInt "state" STATE_IDLE s =? STATE_SLEEPING then STATE_IDLE
          else getInt "state" STATE_IDLE s)
         (restored s)).
Proof.
  intros Hk. unfold loadStats. rewrite exec_ifM, Hk. simpl negb. cbv iota.
  rewrite !exec_bind, !exec_assign, exec_get, result_get. simpl orb. cbv iota.
  rewrite !exec_bind, !exec_assign, exec_ifM, exec_assign.
  destruct s as [fl [h hp en hl a] cs ? ? ? ? ? ? ? ? ? ?].
  unfold restored, getInt, getULong; simpl.
  match goal with
  | |- context [if ?c then _ else _] => destruct c
  end; reflexivity.
Qed.

(** C2.  The decay that [loadStats] applies when the saved state is not
    SLEEPING, for statistics within range and any [unsigned long] number
    of elapsed minutes: ticks = elapsedMinutes / 2; hunger and happiness
    lose ticks and energy loses ticks / 2, none going below 0; the state
    becomes IDLE; health loses ticks (not going below 0) exactly when the
    new hunger or the new happiness is below 10; age gains elapsedMinutes
    in [unsigned long] arithmetic.  With hunger 80, happiness 80, energy
    100 and 30 elapsed minutes this gives 65, 65, 93 and age + 30. *)
Theorem resume_decay_awake (e savedState : Z) (s : State) :
  stats_in_range (pet s) -> is_ulong e -> savedState <> STATE_SLEEPING ->
  let s' := exec (applyDecay e savedState) s in
  let ticks := e / 2 in
  hunger (pet s') = Z.max 0 (hunger (pet s) - ticks) /\
  happiness (pet s') = Z.max 0 (happiness (pet s) - ticks) /\
  energy (pet s') = Z.max 0 (energy (pet s) - ticks / 2) /\
  currentState s' = STATE_IDLE /\
  health (pet s')
  = (if (hunger (pet s') <? 10) || (happiness (pet s') <? 10)
     then Z.max 0 (health (pet s) - ticks) else health (pet s)) /\
  age (pet s') = to_ulong (age (pet s) + e) /\
  (e = 30 -> hunger (pet s) = 80 -> happiness (pet s) = 80 ->
   energy (pet s) = 100 -> 0 <= age (pet s) -> age (pet s) + 30 <= ULONG_MAX ->
   hunger (pet s') = 80 - 15 /\ happiness (pet s') = 80 - 15 /\
   energy (pet s') = 100 - 7 /\ age (pet s') = age (pet s) + 30).
Proof.
  intros Hst He Hs. cbv zeta.
  destruct (applyDecay_awake e savedState s Hst He Hs) as [Hpet Hcs].
  cbv zeta in Hpet. rewrite Hpet, Hcs. simpl.
  repeat (split; [reflexivity|]).
  intros -> -> -> -> Ha0 Ha.
  rewrite to_ulong_small by (unfold is_ulong; lia).
  repeat split; reflexivity.
Qed.

Lemma resume_decay_awake_witness :
  stats_in_range (pet first_boot) /\
  hunger (pet (exec (applyDecay 30 STATE_IDLE) first_boot))
  = Z.max 0 (hunger (pet first_boot) - 30 / 2).
Proof.
  assert (Hst : stats_in_range (pet first_boot))
    by (unfold stats_in_range, in_range; simpl; lia).
  assert (He : is_ulong 30) by (unfold is_ulong, ULONG_MAX; lia).
  assert (Hs : STATE_IDLE <> STATE_SLEEPING)
    by (unfold STATE_IDLE, STATE_SLEEPING; lia).
  split; [exact Hst|].
  exact (proj1 (resume_decay_awake 30 STATE_IDLE first_boot Hst He Hs)).
Defined.

(** ** The elapsed-time estimate *)

(** C3.  Whatever the flash holds as saved time and month (0 and 0 when
    there is no snapshot), whatever the clock reads and whatever the wake
    cause, the estimate of elapsed minutes is between 0 and 60. *)
Theorem elapsedMinutes_within_0_60 (w : esp_sleep_wakeup_cause_t)
    (dt : DateTime) (savedTime savedMonth : Z) :
  0 <= elapsedMinutes w dt savedTime savedMonth <= 60.
Proof.
  unfold elapsedMinutes.
  set (currentTime := timeVal dt).
  pose proof (to_ulong_bounds (currentTime - savedTime)) as Hdiff.
  destruct ((savedTime >? 0) && (year dt >? 2020));
    [ destruct ((month dt =? savedMonth) && (currentTime >=? savedTime));
      [| destruct ((month dt =? savedMonth) && (currentTime <? savedTime)) ] |];
    try destruct (is_TIMER w); simpl;
    try match goal with
        | |- context [?x >? 60] => rewrite (Z.gtb_ltb x 60)
        end;
    try match goal with
        | |- context [60 <? ?x] => destruct (Z.ltb_spec 60 x)
        end; lia.
Qed.

(** C7.  With a saved timestamp above 0 and a clock year above 2020, a
    month that differs from the saved month makes the estimate the fixed
    value 15 after a timer wake-up and 5 after a button wake-up, whatever
    the timestamps are. *)
Theorem elapsedMinutes_month_changed (w : esp_sleep_wakeup_cause_t)
    (dt : DateTime) (savedTime savedMonth : Z) :
  savedTime > 0 -> year dt > 2020 -> month dt <> savedMonth ->
  elapsedMinutes w dt savedTime savedMonth
  = match w with
    | ESP_SLEEP_WAKEUP_TIMER => 15
    | _ => 5
    end.
Proof.
  intros Ht Hy Hm. unfold elapsedMinutes.
  apply Z.gtb_gt in Ht, Hy. apply Z.eqb_neq in Hm.
  rewrite Ht, Hy, Hm. simpl. destruct w; reflexivity.
Qed.

Lemma elapsedMinutes_month_changed_witness :
  elapsedMinutes ESP_SLEEP_WAKEUP_TIMER (mkDateTime 2025 7 1 0 5) 44635 6 = 15.
Proof.
  apply (elapsedMinutes_month_changed ESP_SLEEP_WAKEUP_TIMER
           (mkDateTime 2025 7 1 0 5) 44635 6); simpl; lia.
Defined.

(** ** Saving and loading *)

(** What [saveStats] leaves in the flash, key by key; it writes nothing
    else and touches no variable in RAM. *)
Lemma saveStats_exec (dt : DateTime) (s : State) :
  exec (saveStats dt) s
  = set_prefs
      (<["saveMonth" := month dt]>
         (<["saveTime" := timeVal dt]>
            (<["state" := currentState s]>
               (<["age" := age (pet s)]>
                  (<["health" := health (pet s)]>
                     (<["energy" := energy (pet s)]>
                        (<["happiness" := happiness (pet s)]>
                           (<["hunger" := hunger (pet s)]> (prefs s)))))))))
      s.
Proof. destruct s as [fl [h hp en hl a] cs ? ? ? ? ? ? ? ? ? ?]. reflexivity. Qed.

Lemma saveStats_lookup (dt : DateTime) (s : State) :
  let flash := prefs (exec (saveStats dt) s) in
  flash !! "hunger" = Some (hunger (pet s)) /\
  flash !! "happiness" = Some (happiness (pet s)) /\
  flash !! "energy" = Some (energy (pet s)) /\
  flash !! "health" = Some (health (pet s)) /\
  flash !! "age" = Some (age (pet s)) /\
  flash !! "state" = Some (currentState s) /\
  flash !! "saveTime" = Some (timeVal dt) /\
  flash !! "saveMonth" = Some (month dt).
Proof.
  rewrite saveStats_exec. simpl.
  repeat split; simplify_map_eq; reflexivity.
Qed.

Lemma loadStats_fresh (dt : DateTime) (s : State) :
  isKey "hunger" s = true ->
  let s' := exec (loadStats ESP_SLEEP_WAKEUP_UNDEFINED dt) s in
  pet s' = mkPetStats (getInt "hunger" 80 s) (getInt "happiness" 80 s)
                      (getInt "energy" 100 s) (getInt "health" 100 s)
                      (getULong "age" 0 s) /\
  currentState s'
  = (if getInt "state" STATE_IDLE s =? STATE_SLEEPING then STATE_IDLE
     else getInt "state" STATE_IDLE s).
Proof.
  intros Hk. cbv zeta. rewrite (loadStats_fresh_exec dt s Hk).
  split; reflexivity.
Qed.

(** C4.  Saving any state with [saveStats] and then booting fresh (a
    wake-up cause that is neither the timer nor the button) gives back the
    same hunger, happiness, energy, health and age, so no decay is
    applied, and the saved state, except that SLEEPING comes back as
    IDLE. *)
Theorem save_then_fresh_boot (s : State) (dt dt' : DateTime) :
  let s' := run [Save dt; Boot false ESP_SLEEP_WAKEUP_UNDEFINED dt'] s in
  pet s' = pet s /\
  currentState s'
  = (if currentState s =? STATE_SLEEPING then STATE_IDLE else currentState s).
Proof.
  cbv zeta.
  change (run [Save dt; Boot false ESP_SLEEP_WAKEUP_UNDEFINED dt'] s)
    with (exec (reboot ;; emit (setBrightness 100) ;;
                loadStats ESP_SLEEP_WAKEUP_UNDEFINED dt')
               (exec (saveStats dt) s)).
  rewrite !exec_bind, exec_emit.
  set (saved := exec (saveStats dt) s).
  change (exec reboot saved) with (power_on (prefs saved)).
  destruct (saveStats_lookup dt s) as (Hh & Hp & He & Hl & Ha & Hs & _ & _).
  fold saved in Hh, Hp, He, Hl, Ha, Hs. clearbody saved.
  assert (Hk : isKey "hunger" (power_on (prefs saved)) = true).
  { unfold isKey; simpl. rewrite Hh. apply bool_decide_eq_true. eauto. }
  destruct (loadStats_fresh dt' (power_on (prefs saved)) Hk)
    as (Hpet & Hcs).
  rewrite Hpet, Hcs. unfold getInt, getULong; simpl.
  rewrite Hh, Hp, He, Hl, Ha, Hs; simpl.
  split; [destruct s as [fl [h hp en hl a] cs]; reflexivity | reflexivity].
Qed.


(** ** Snapshots with missing fields *)

(** Membership in a list that is written out. *)
Ltac in_list :=
  unfold snapshot_defaults, stat_keys, snapshot_keys;
  repeat first [apply list_elem_of_here | apply list_elem_of_further].

Lemma fill_defaults_lookup (flash : gmap string Z) (k : string) (d : Z) :
  (k, d) ∈ snapshot_defaults ->
  fill_defaults flash !! k = Some (default d (flash !! k)).
Proof.
  unfold snapshot_defaults. rewrite !elem_of_cons, elem_of_nil.
  unfold fill_defaults; simpl.
  intros [H|[H|[H|[H|[H|[H|[H|[H|[]]]]]]]]]; injection H as -> ->;
    simplify_map_eq; reflexivity.
Qed.

Lemma loadStats_absent (w : esp_sleep_wakeup_cause_t) (dt : DateTime) (s : State) :
  prefs s !! "hunger" = None -> loadStats w dt s = (tt, s, []).
Proof.
  intros Hk. unfold loadStats, ifM, isKey. rewrite Hk.
  rewrite bool_decide_eq_false_2 by (intros [v Hv]; discriminate).
  reflexivity.
Qed.

(** The decay does not look at the flash. *)
Lemma applyDecay_flash (e savedState : Z) (flash : gmap string Z) (s : State) :
  exec (applyDecay e savedState) (set_prefs flash s)
  = set_prefs flash (exec (applyDecay e savedState) s).
Proof.
  destruct s as [fl [h hp en hl a] cs ? ? ? ? ? ? ? ? ? ?].
  unfold applyDecay. stmt_unfold. simpl.
  destruct (savedState =? STATE_SLEEPING); simpl;
    match goal with
    | |- context [if ?c then _ else _] => destruct c
    end; reflexivity.
Qed.

Lemma loadStats_fill_defaults (w : esp_sleep_wakeup_cause_t) (dt : DateTime)
    (s : State) :
  is_Some (prefs s !! "hunger") ->
  ram (exec (loadStats w dt) (set_prefs (fill_defaults (prefs s)) s))
  = ram (exec (loadStats w dt) s).
Proof.
  intros Hk.
  assert (Hk1 : isKey "hunger" s = true)
    by (apply bool_decide_eq_true; exact Hk).
  assert (Hk2 : isKey "hunger" (set_prefs (fill_defaults (prefs s)) s) = true).
  { apply bool_decide_eq_true; simpl.
    rewrite (fill_defaults_lookup _ "hunger" 80)
      by in_list.
    eauto. }
  assert (Hget : forall k d, (k, d) ∈ snapshot_defaults ->
            default d (fill_defaults (prefs s) !! k) = default d (prefs s !! k)).
  { intros k d H. rewrite (fill_defaults_lookup _ k d H). reflexivity. }
  pose proof (Hget "hunger" 80 ltac:(in_list)) as G1.
  pose proof (Hget "happiness" 80 ltac:(in_list)) as G2.
  pose proof (Hget "energy" 100 ltac:(in_list)) as G3.
  pose proof (Hget "health" 100 ltac:(in_list)) as G4.
  pose proof (Hget "age" 0 ltac:(in_list)) as G5.
  pose proof (Hget "state" STATE_IDLE ltac:(in_list)) as G6.
  pose proof (Hget "saveTime" 0 ltac:(in_list)) as G7.
  pose proof (Hget "saveMonth" 0 ltac:(in_list)) as G8.
  clear Hget.
  assert (Hr : restored (set_prefs (fill_defaults (prefs s)) s)
               = set_prefs (fill_defaults (prefs s)) (restored s)).
  { unfold restored, getInt, getULong; simpl prefs.
    rewrite G1, G2, G3, G4, G5. reflexivity. }
  destruct w.
  - rewrite !loadStats_fresh_exec by assumption. rewrite Hr.
    unfold getInt; simpl prefs. rewrite G6. reflexivity.
  - rewrite !loadStats_resume by (assumption || discriminate). rewrite Hr.
    unfold getInt, getULong; simpl prefs. rewrite G6, G7, G8.
    rewrite applyDecay_flash. reflexivity.
  - rewrite !loadStats_resume by (assumption || discriminate). rewrite Hr.
    unfold getInt, getULong; simpl prefs. rewrite G6, G7, G8.
    rewrite applyDecay_flash. reflexivity.
Qed.


(** [loadStats] does not draw or play anything. *)
Lemma loadStats_run (w : esp_sleep_wakeup_cause_t) (dt : DateTime) (s : State) :
  loadStats w dt s = (tt, exec (loadStats w dt) s, []).
Proof.
  destruct s as [fl [h hp en hl a] cs ? ? ? ? ? ? ? ? ? ?].
  unfold exec, loadStats, applyDecay. stmt_unfold. simpl.
  repeat match goal with
         | |- context [if ?c then _ else _] => destruct c; simpl
         end; reflexivity.
Qed.

(** C6 (amended).  [loadStats] takes the snapshot as absent exactly when
    the key "hunger" is missing: it then changes nothing, so the defaults
    stay, whatever other keys the flash holds.  When "hunger" is present
    the snapshot is loaded, and every field is read on its own: the saved
    value when the field is there, and its own default when it is missing
    (hunger 80, happiness 80, energy 100, health 100, age 0, state IDLE,
    saved time 0, saved month 0).  The five statistics go to RAM as read;
    on a wake-up from deep sleep the decay is then applied for the
    estimate made from the saved time and month as read and with the
    state as read, and on any other start the state as read becomes the
    state of the pet, with SLEEPING turned into IDLE. *)
Theorem loadStats_missing_fields (w : esp_sleep_wakeup_cause_t)
    (dt : DateTime) (s : State) :
  let field k d := default d (prefs s !! k) in
  let loaded :=
    set_pet (mkPetStats (field "hunger" 80) (field "happiness" 80)
                        (field "energy" 100) (field "health" 100)
                        (field "age" 0)) s in
  (prefs s !! "hunger" = None -> loadStats w dt s = (tt, s, [])) /\
  (is_Some (prefs s !! "hunger") ->
   loadStats w dt s
   = (tt,
      if is_TIMER w || is_EXT0 w then
        set_alertWakeup (is_TIMER w)
          (exec (applyDecay
                   (elapsedMinutes w dt (field "saveTime" 0)
                                   (field "saveMonth" 0))
                   (field "state" STATE_IDLE))
                loaded)
      else
        set_alertWakeup false
          (set_currentState
             (if field "state" STATE_IDLE =? STATE_SLEEPING then STATE_IDLE
              else field "state" STATE_IDLE)
             loaded),
      [])).
Proof.
  cbv zeta. split.
  - apply loadStats_absent.
  - intros Hk.
    assert (Hkey : isKey "hunger" s = true) by (apply bool_decide_eq_true, Hk).
    assert (Hr : restored s
                 = set_pet (mkPetStats (default 80 (prefs s !! "hunger"))
                                       (default 80 (prefs s !! "happiness"))
                                       (default 100 (prefs s !! "energy"))
                                       (default 100 (prefs s !! "health"))
                                       (default 0 (prefs s !! "age"))) s).
    { destruct s as [fl [h hp en hl a] cs ? ? ? ? ? ? ? ? ? ?]. reflexivity. }
    rewrite loadStats_run. f_equal. f_equal.
    destruct w.
    + rewrite (loadStats_fresh_exec dt s Hkey), Hr. reflexivity.
    + rewrite (loadStats_resume _ dt s Hkey) by discriminate.
      rewrite Hr. reflexivity.
    + rewrite (loadStats_resume _ dt s Hkey) by discriminate.
      rewrite Hr. reflexivity.
Qed.

Lemma loadStats_missing_fields_witness :
  (prefs first_boot !! "hunger" = None /\
   loadStats ESP_SLEEP_WAKEUP_TIMER half_past_ten first_boot
   = (tt, first_boot, [])) /\
  (is_Some (prefs (power_on only_hunger_saved) !! "hunger") /\
   pet (exec (loadStats ESP_SLEEP_WAKEUP_UNDEFINED half_past_ten)
             (power_on only_hunger_saved))
   = mkPetStats 25 80 100 100 0).
Proof.
  assert (H : prefs first_boot !! "hunger" = None) by (vm_compute; reflexivity).
  assert (H' : is_Some (prefs (power_on only_hunger_saved) !! "hunger"))
    by (exists 25; vm_compute; reflexivity).
  split; split.
  - exact H.
  - exact (proj1 (loadStats_missing_fields ESP_SLEEP_WAKEUP_TIMER half_past_ten
                    first_boot) H).
  - exact H'.
  - unfold exec.
    rewrite (proj2 (loadStats_missing_fields ESP_SLEEP_WAKEUP_UNDEFINED
                      half_past_ten (power_on only_hunger_saved)) H').
    vm_compute. reflexivity.
Defined.

(** C6 as stated fails: a save cut short after its first write leaves
    only the key "hunger"; the next boot loads that hunger next to the
    defaults of all other fields instead of falling back to the defaults
    as a whole. *)
Lemma partial_snapshot_is_loaded :
  let flash := prefs (exec (saveStats_interrupted 1 half_past_ten) hungry_pet) in
  let s' := step (Boot false ESP_SLEEP_WAKEUP_UNDEFINED half_past_ten)
                 (power_on flash) in
  flash = only_hunger_saved /\
  partial_snapshot flash = true /\
  pet s' = mkPetStats 25 80 100 100 0 /\
  pet s' <> pet first_boot.
Proof. vm_compute. repeat split; congruence. Qed.

(** ** Feeding and playing *)

Lemma feedPet_full (ms : Z) (s : State) :
  hunger (pet s) >= 100 ->
  feedPet ms s = (tt, s, [tone 200 200; drawString "Already full!" 30 160]).
Proof.
  intros H. unfold feedPet, ifM.
  destruct (Z.geb_spec (hunger (pet s)) 100); [reflexivity | lia].
Qed.

Lemma feedPet_fed (ms : Z) (s : State) :
  hunger (pet s) < 100 ->
  pet (exec (feedPet ms) s)
  = mkPetStats (min 100 (to_int (hunger (pet s) + 25)))
               (min 100 (to_int (happiness (pet s) + 5)))
               (energy (pet s)) (health (pet s)) (age (pet s)) /\
  currentState (exec (feedPet ms) s) = STATE_HAPPY.
Proof.
  intros H. unfold feedPet. rewrite exec_ifM.
  destruct (Z.geb_spec (hunger (pet s)) 100); [lia|].
  destruct s as [fl [h hp en hl a] cs ? ? ? ? ? ? ? ? ? ?].
  split; reflexivity.
Qed.

Lemma playWithPet_tired (ms : Z) (s : State) :
  energy (pet s) < 20 ->
  playWithPet ms s = (tt, s, [tone 200 200; drawString "Too tired!" 35 160]).
Proof.
  intros H. unfold playWithPet, ifM.
  destruct (Z.ltb_spec (energy (pet s)) 20); [reflexivity | lia].
Qed.

Lemma playWithPet_played (ms : Z) (s : State) :
  energy (pet s) >= 20 ->
  pet (exec (playWithPet ms) s)
  = mkPetStats (max 0 (to_int (hunger (pet s) - 5)))
               (min 100 (to_int (happiness (pet s) + 20)))
               (max 0 (to_int (energy (pet s) - 15)))
               (health (pet s)) (age (pet s)) /\
  currentState (exec (playWithPet ms) s) = STATE_HAPPY.
Proof.
  intros H. unfold playWithPet. rewrite exec_ifM.
  destruct (Z.ltb_spec (energy (pet s)) 20); [lia|].
  destruct s as [fl [h hp en hl a] cs ? ? ? ? ? ? ? ? ? ?].
  split; reflexivity.
Qed.

(** C8.  For a pet within range: [feedPet] refuses (error tone and the
    message "Already full!", nothing changed) exactly when hunger is 100,
    and otherwise adds 25 to hunger and 5 to happiness, both capped at
    100; [playWithPet] refuses (error tone and the message "Too tired!",
    nothing changed) exactly when energy is below 20, and otherwise adds
    20 to happiness (capped at 100) and takes 15 from energy and 5 from
    hunger (not going below 0). *)
Theorem feed_and_play (ms : Z) (s : State) :
  stats_in_range (pet s) ->
  (feedPet ms s = (tt, s, [tone 200 200; drawString "Already full!" 30 160])
   <-> hunger (pet s) = 100) /\
  (hunger (pet s) <> 100 ->
   pet (exec (feedPet ms) s)
   = mkPetStats (Z.min 100 (hunger (pet s) + 25))
                (Z.min 100 (happiness (pet s) + 5))
                (energy (pet s)) (health (pet s)) (age (pet s))) /\
  (playWithPet ms s = (tt, s, [tone 200 200; drawString "Too tired!" 35 160])
   <-> energy (pet s) < 20) /\
  (~ energy (pet s) < 20 ->
   pet (exec (playWithPet ms) s)
   = mkPetStats (Z.max 0 (hunger (pet s) - 5))
                (Z.min 100 (happiness (pet s) + 20))
                (Z.max 0 (energy (pet s) - 15))
                (health (pet s)) (age (pet s))).
Proof.
  intros (Hh & Hp & He & Hl). unfold in_range in *.
  assert (Hfed : hunger (pet s) <> 100 ->
            pet (exec (feedPet ms) s)
            = mkPetStats (Z.min 100 (hunger (pet s) + 25))
                         (Z.min 100 (happiness (pet s) + 5))
                         (energy (pet s)) (health (pet s)) (age (pet s))).
  { intros Hne. destruct (feedPet_fed ms s) as [-> _]; [lia|].
    rewrite !min_Zmin.
    rewrite !to_int_small by (unfold is_int, INT_MIN, INT_MAX; lia).
    reflexivity. }
  assert (Hplayed : ~ energy (pet s) < 20 ->
            pet (exec (playWithPet ms) s)
            = mkPetStats (Z.max 0 (hunger (pet s) - 5))
                         (Z.min 100 (happiness (pet s) + 20))
                         (Z.max 0 (energy (pet s) - 15))
                         (health (pet s)) (age (pet s))).
  { intros Hge. destruct (playWithPet_played ms s) as [-> _]; [lia|].
    rewrite !min_Zmin, !max_Zmax.
    rewrite !to_int_small by (unfold is_int, INT_MIN, INT_MAX; lia).
    reflexivity. }
  repeat split.
  - intros Hrej.
    destruct (Z.eq_dec (hunger (pet s)) 100) as [|Hne]; [assumption|].
    specialize (Hfed Hne). unfold exec in Hfed. rewrite Hrej in Hfed.
    simpl in Hfed. apply (f_equal hunger) in Hfed. simpl in Hfed. lia.
  - intros Hfull. apply feedPet_full. lia.
  - exact Hfed.
  - intros Hrej.
    destruct (Z.lt_ge_cases (energy (pet s)) 20) as [|Hge]; [assumption|].
    assert (Hnl : ~ energy (pet s) < 20) by lia.
    specialize (Hplayed Hnl). unfold exec in Hplayed. rewrite Hrej in Hplayed.
    simpl in Hplayed. apply (f_equal energy) in Hplayed. simpl in Hplayed. lia.
  - apply playWithPet_tired.
  - exact Hplayed.
Qed.

Lemma feed_and_play_witness :
  stats_in_range (pet first_boot) /\
  pet (exec (playWithPet 7) first_boot)
  = mkPetStats 75 100 85 100 0.
Proof.
  assert (Hst : stats_in_range (pet first_boot))
    by (unfold stats_in_range, in_range; simpl; lia).
  split; [exact Hst|].
  apply (proj2 (proj2 (proj2 (feed_and_play 7 first_boot Hst)))).
  simpl; lia.
Defined.

(** ** The tick while asleep *)

(** C9.  While the pet is SLEEPING, one call of [updateStats] sets energy
    to min(100, energy + 5) and does nothing else: hunger, happiness,
    health, the state, the age and the time of the last age update are as
    before, and nothing is played. *)
Theorem sleeping_tick (ms : Z) (s : State) :
  currentState s = STATE_SLEEPING -> in_range (energy (pet s)) ->
  updateStats ms s = (tt, set_energy (Z.min 100 (energy (pet s) + 5)) s, []).
Proof.
  intros Hcs He. unfold in_range in He.
  unfold updateStats, ifM. rewrite Hcs. simpl.
  unfold assign. rewrite min_Zmin.
  rewrite to_int_small by (unfold is_int, INT_MIN, INT_MAX; lia).
  reflexivity.
Qed.

Lemma sleeping_tick_witness :
  let s := set_energy 90 (set_currentState STATE_SLEEPING first_boot) in
  currentState s = STATE_SLEEPING /\
  energy (pet (exec (updateStats 10000) s)) = 95 /\
  age (pet (exec (updateStats 10000) s)) = age (pet s).
Proof.
  cbv zeta.
  assert (Hcs : currentState (set_energy 90 (set_currentState STATE_SLEEPING first_boot))
                = STATE_SLEEPING) by reflexivity.
  assert (He : in_range (energy (pet (set_energy 90 (set_currentState STATE_SLEEPING first_boot)))))
    by (unfold in_range; simpl; lia).
  split; [exact Hcs|].
  unfold exec. rewrite (sleeping_tick 10000 _ Hcs He).
  split; reflexivity.
Defined.

(** ** Shaking the device *)

Lemma checkForShake_exec (a : bool) (ms : Z) (s : State) :
  result (checkForShake a ms) s = true ->
  exec (checkForShake a ms) s
  = set_shakeCount (to_int (shakeCount s + 1)) (set_lastShakeTime ms s).
Proof.
  unfold checkForShake, result, exec, ifM.
  destruct (a && (to_ulong (ms - lastShakeTime s) >? SHAKE_DEBOUNCE_MS)).
  - reflexivity.
  - simpl. discriminate.
Qed.

Lemma wakeUp_asleep (ms : Z) (s : State) :
  currentState s = STATE_SLEEPING ->
  pet (exec (wakeUp ms) s) = pet s /\
  currentState (exec (wakeUp ms) s) = STATE_IDLE.
Proof.
  intros Hcs. unfold wakeUp. rewrite exec_ifM, Hcs. simpl.
  split; reflexivity.
Qed.

Lemma handleShakeSickness_awake (s : State) :
  currentState s <> STATE_SICK -> currentState s <> STATE_VOMITING ->
  pet (exec handleShakeSickness s)
  = mkPetStats (hunger (pet s))
               (max 0 (to_int (happiness (pet s) - 20)))
               (energy (pet s))
               (max 0 (to_int (health (pet s) - 15)))
               (age (pet s)) /\
  currentState (exec handleShakeSickness s) = STATE_SICK.
Proof.
  intros H1 H2. unfold handleShakeSickness. rewrite exec_ifM.
  apply Z.eqb_neq in H1, H2. rewrite H1, H2. simpl.
  destruct s as [fl [h hp en hl a] cs ? ? ? ? ? ? ? ? ? ?].
  split; reflexivity.
Qed.

(** C10.  When [checkForShake] reports a shake (acceleration above the
    threshold and more than the debounce interval after the last one),
    [loop] acts on an in-range pet as follows: a SLEEPING pet wakes to IDLE
    with its statistics untouched; a pet that is neither SLEEPING, SICK
    nor VOMITING loses 15 health and 20 happiness (not going below 0),
    keeps hunger, energy and age, and ends SICK; a SICK or VOMITING pet
    keeps its statistics and its state. *)
Theorem shake_event (a : bool) (currentTime ms ms' : Z) (s : State) :
  stats_in_range (pet s) ->
  result (checkForShake a ms) s = true ->
  let s' := exec (loop_shake a currentTime ms ms') s in
  (currentState s = STATE_SLEEPING ->
   pet s' = pet s /\ currentState s' = STATE_IDLE) /\
  (currentState s <> STATE_SLEEPING -> currentState s <> STATE_SICK ->
   currentState s <> STATE_VOMITING ->
   pet s' = mkPetStats (hunger (pet s))
                       (Z.max 0 (happiness (pet s) - 20))
                       (energy (pet s))
                       (Z.max 0 (health (pet s) - 15))
                       (age (pet s)) /\
   currentState s' = STATE_SICK) /\
  (currentState s = STATE_SICK \/ currentState s = STATE_VOMITING ->
   pet s' = pet s /\ currentState s' = currentState s).
Proof.
  intros (Hh & Hp & He & Hl) Hshake. unfold in_range in *. cbv zeta.
  unfold loop_shake. rewrite exec_bind, Hshake, (checkForShake_exec a ms s Hshake).
  rewrite exec_bind, exec_assign, exec_ifM.
  set (s1 := set_lastInteraction currentTime
               (set_shakeCount (to_int (shakeCount s + 1))
                  (set_lastShakeTime ms s))).
  assert (Hpet : pet s1 = pet s) by reflexivity.
  assert (Hcs : currentState s1 = currentState s) by reflexivity.
  clearbody s1. rewrite <- Hpet, <- Hcs.
  split; [|split].
  - intros Hsl. rewrite Hsl. simpl. apply wakeUp_asleep, Hsl.
  - intros Hsl Hsick Hvom.
    pose proof Hsick as Hsick'. pose proof Hvom as Hvom'.
    apply Z.eqb_neq in Hsl, Hsick', Hvom'.
    rewrite Hsl, exec_ifM, Hsick', Hvom'. simpl.
    destruct (handleShakeSickness_awake s1 Hsick Hvom) as [-> ->].
    rewrite !max_Zmax.
    rewrite !to_int_small
      by (rewrite Hpet; unfold is_int, INT_MIN, INT_MAX; lia).
    split; reflexivity.
  - intros [Hc | Hc]; rewrite Hc; simpl; rewrite exec_ifM, Hc; simpl;
      (split; [reflexivity | exact Hc]).
Qed.

Lemma shake_event_witness :
  stats_in_range (pet first_boot) /\
  result (checkForShake true 1500) first_boot = true /\
  pet (exec (loop_shake true 1490 1500 1600) first_boot)
  = mkPetStats 80 60 100 85 0 /\
  currentState (exec (loop_shake true 1490 1500 1600) first_boot) = STATE_SICK.
Proof.
  assert (Hst : stats_in_range (pet first_boot))
    by (unfold stats_in_range, in_range; simpl; lia).
  assert (Hshake : result (checkForShake true 1500) first_boot = true)
    by (vm_compute; reflexivity).
  split; [exact Hst|]. split; [exact Hshake|].
  apply (proj1 (proj2 (shake_event true 1490 1500 1600 first_boot Hst Hshake)));
    simpl; unfold STATE_IDLE, STATE_SLEEPING, STATE_SICK, STATE_VOMITING; lia.
Defined.

(** * Further properties of the embedded functions *)

(** ** Reset *)

Lemma boot_reset (w : esp_sleep_wakeup_cause_t) (dt : DateTime) (s : State) :
  step (Boot true w dt) s = first_boot.
Proof.
  unfold step, handler, setup_load, resetPet, reboot, clear.
  rewrite !exec_bind, !exec_assign, !exec_emit.
  change (exec playHappySound ?x) with x.
  reflexivity.
Qed.

Lemma boot_load (w : esp_sleep_wakeup_cause_t) (dt : DateTime) (s : State) :
  step (Boot false w dt) s = exec (loadStats w dt) (power_on (prefs s)).
Proof.
  unfold step, handler, setup_load. rewrite !exec_bind, exec_emit. reflexivity.
Qed.


(** X1.  Booting with the reset combo held forgets the old pet, whatever
    the flash held and whatever woke the device: [setup] ends with the
    default statistics and the state IDLE.  After a power-on, a reset or
    a button wake-up it returns with the flash empty and the idle clock
    started.  After a timer wake-up [handleWakeup] finds nothing critical
    in the new pet, saves it and sends the device back to deep sleep, so
    the flash then holds the snapshot of the new pet and nothing of the
    old one. *)
Theorem reset_combo_forgets (w : esp_sleep_wakeup_cause_t) (dt : DateTime)
    (alertStart : Z) (polls : list (Z * bool)) (msAck : Z) (dt' : DateTime)
    (ms : Z) (flash : gmap string Z) :
  let boot := setup true w dt alertStart polls msAck dt' ms in
  let s' := exec boot (power_on flash) in
  pet s' = mkPetStats 80 80 100 100 0 /\
  currentState s' = STATE_IDLE /\
  (if is_TIMER w then
     result boot (power_on flash) = DeepSleep 37 900000000 /\
     prefs s' = prefs (exec (saveStats dt') first_boot)
   else
     result boot (power_on flash) = Returned /\
     prefs s' = ∅ /\ lastInteraction s' = ms).
Proof.
  cbv zeta. destruct w; repeat split; reflexivity.
Qed.

(** ** Saving *)

Lemma saveStats_interrupted_ram (n : nat) (dt : DateTime) (s : State) :
  exists flash, exec (saveStats_interrupted n dt) s = set_prefs flash s /\
                forall k, k ∉ snapshot_keys -> flash !! k = prefs s !! k.
Proof.
  destruct s as [fl [h hp en hl a] cs ? ? ? ? ? ? ? ? ? ?].
  do 9 (destruct n as [|n];
        [ eexists; split; [reflexivity|];
          intros k Hk; simpl;
          repeat (rewrite lookup_insert_ne;
                  [| intros <-; apply Hk; in_list ]);
          reflexivity |]).
  eexists; split; [reflexivity|].
  intros k Hk; simpl.
  repeat (rewrite lookup_insert_ne; [| intros <-; apply Hk; in_list ]).
  reflexivity.
Qed.

Lemma saveStats_lookup_other (dt : DateTime) (s : State) (k : string) :
  k ∉ snapshot_keys -> prefs (exec (saveStats dt) s) !! k = prefs s !! k.
Proof.
  intros Hk. rewrite saveStats_exec. simpl.
  repeat (rewrite lookup_insert_ne; [| intros <-; apply Hk; in_list ]).
  reflexivity.
Qed.

Lemma snapshot_key_cases (k : string) :
  k ∈ snapshot_keys ->
  k = "hunger" \/ k = "happiness" \/ k = "energy" \/ k = "health" \/
  k = "age" \/ k = "state" \/ k = "saveTime" \/ k = "saveMonth".
Proof.
  unfold snapshot_keys. rewrite !elem_of_cons, elem_of_nil. tauto.
Qed.


(** X2.  [saveStats] overwrites: whatever the flash held before, be it
    the snapshot of an older pet, the leftovers of a save that a power
    loss cut short, or nothing, afterwards each of the eight fields holds
    the value that is in RAM (or on the clock) now, every other key is as
    it was, the flash is not a partial snapshot, and the variables in RAM
    are untouched.  So two devices that differ only in what their flash
    held in the eight fields are the same after a save. *)
Theorem saveStats_overwrites (dt : DateTime) (old : gmap string Z) (s : State) :
  let s' := exec (saveStats dt) (set_prefs old s) in
  (prefs s' !! "hunger" = Some (hunger (pet s)) /\
   prefs s' !! "happiness" = Some (happiness (pet s)) /\
   prefs s' !! "energy" = Some (energy (pet s)) /\
   prefs s' !! "health" = Some (health (pet s)) /\
   prefs s' !! "age" = Some (age (pet s)) /\
   prefs s' !! "state" = Some (currentState s) /\
   prefs s' !! "saveTime" = Some (timeVal dt) /\
   prefs s' !! "saveMonth" = Some (month dt)) /\
  (forall k, k ∉ snapshot_keys -> prefs s' !! k = old !! k) /\
  partial_snapshot (prefs s') = false /\
  ram s' = ram s /\
  ((forall k, k ∉ snapshot_keys -> prefs s !! k = old !! k) ->
   s' = exec (saveStats dt) s).
Proof.
  cbv zeta.
  pose proof (saveStats_lookup dt (set_prefs old s)) as Hl. cbv zeta in Hl.
  assert (Hpet : pet (set_prefs old s) = pet s)
    by (destruct s as [fl [h hp en hl a] cs ? ? ? ? ? ? ? ? ? ?]; reflexivity).
  assert (Hcs : currentState (set_prefs old s) = currentState s)
    by (destruct s as [fl [h hp en hl a] cs ? ? ? ? ? ? ? ? ? ?]; reflexivity).
  rewrite Hpet, Hcs in Hl.
  split; [exact Hl|]. split; [|split; [|split]].
  - intros k Hk. rewrite (saveStats_lookup_other dt _ k Hk).
    destruct s as [fl [h hp en hl a] cs ? ? ? ? ? ? ? ? ? ?]; reflexivity.
  - destruct Hl as (H1 & H2 & H3 & H4 & H5 & H6 & H7 & H8).
    generalize dependent (prefs (exec (saveStats dt) (set_prefs old s))).
    intros flash H1 H2 H3 H4 H5 H6 H7 H8.
    unfold partial_snapshot, snapshot_keys.
    apply andb_false_iff. right. simpl.
    rewrite H1, H2, H3, H4, H5, H6, H7, H8. reflexivity.
  - rewrite saveStats_exec.
    destruct s as [fl [h hp en hl a] cs ? ? ? ? ? ? ? ? ? ?]; reflexivity.
  - intros Hother. rewrite !saveStats_exec.
    destruct s as [fl [h hp en hl a] cs ? ? ? ? ? ? ? ? ? ?].
    unfold set_prefs; simpl. f_equal. simpl in Hother.
    apply map_eq. intros k.
    destruct (decide (k ∈ snapshot_keys)) as [Hk | Hk].
    + apply snapshot_key_cases in Hk.
      destruct Hk as [->|[->|[->|[->|[->|[->|[->| ->]]]]]]];
        simplify_map_eq; reflexivity.
    + repeat (rewrite lookup_insert_ne; [| intros <-; apply Hk; in_list ]).
      symmetry.
      repeat (rewrite lookup_insert_ne; [| intros <-; apply Hk; in_list ]).
      apply Hother, Hk.
Qed.

Lemma saveStats_overwrites_witness :
  let old := prefs (exec (saveStats_interrupted 3 half_past_ten) hungry_pet) in
  old !! "hunger" = Some 25 /\
  prefs (exec (saveStats half_past_ten) (set_prefs old first_boot)) !! "hunger"
  = Some 80 /\
  exec (saveStats half_past_ten) (set_prefs old first_boot)
  = exec (saveStats half_past_ten) first_boot.
Proof.
  cbv zeta. split; [vm_compute; reflexivity|].
  set (old := prefs (exec (saveStats_interrupted 3 half_past_ten) hungry_pet)).
  destruct (saveStats_overwrites half_past_ten old first_boot)
    as ((H1 & _) & _ & _ & _ & H5).
  split; [exact H1|].
  apply H5. intros k Hk. subst old.
  destruct (saveStats_interrupted_ram 3 half_past_ten hungry_pet)
    as (flash & E & Hother).
  rewrite E. simpl. rewrite Hother by exact Hk. reflexivity.
Defined.

(** ** Going to sleep and waking up *)

Lemma wakeUp_awake (ms : Z) (s : State) :
  currentState s <> STATE_SLEEPING -> wakeUp ms s = (tt, s, []).
Proof.
  intros Hne. unfold wakeUp, ifM.
  apply Z.eqb_neq in Hne. rewrite Hne. reflexivity.
Qed.

(** X3.  [wakeUp] does nothing at all unless the pet is SLEEPING: no state
    change, no sound, no reset of the idle clock.  Putting the pet to
    sleep and waking it again leaves the five statistics as they were and
    the pet IDLE, with the idle clock set to the time of the wake-up. *)
Theorem wakeUp_needs_sleep (ms ms' : Z) (s : State) :
  (currentState s <> STATE_SLEEPING -> wakeUp ms s = (tt, s, [])) /\
  (let s' := run [Sleep ms; Wake ms'] s in
   pet s' = pet s /\ currentState s' = STATE_IDLE /\ lastInteraction s' = ms').
Proof.
  split.
  - apply wakeUp_awake.
  - cbv zeta.
    destruct s as [fl [h hp en hl a] cs ? ? ? ? ? ? ? ? ? ?].
    repeat split; reflexivity.
Qed.

Lemma wakeUp_needs_sleep_witness :
  currentState first_boot <> STATE_SLEEPING /\
  wakeUp 5000 first_boot = (tt, first_boot, []).
Proof.
  assert (H : currentState first_boot <> STATE_SLEEPING)
    by (simpl; unfold STATE_IDLE, STATE_SLEEPING; lia).
  split; [exact H|].
  exact (proj1 (wakeUp_needs_sleep 5000 0 first_boot) H).
Defined.

(** ** Ticks in a row *)

Lemma updateStats_asleep (ms : Z) (s : State) :
  currentState s = STATE_SLEEPING -> in_range (energy (pet s)) ->
  exec (updateStats ms) s = set_energy (Z.min 100 (energy (pet s) + 5)) s.
Proof.
  intros Hcs He. unfold in_range in He.
  unfold updateStats. rewrite exec_ifM, Hcs. simpl.
  rewrite exec_assign, min_Zmin.
  rewrite to_int_small by (unfold is_int, INT_MIN, INT_MAX; lia).
  reflexivity.
Qed.

(** X4.  While the pet is SLEEPING, any number of ticks only restores
    energy, five points a tick up to 100: after n ticks the state is the
    one before with energy min(100, energy + 5 n), so twenty ticks fill
    the energy from any level. *)
Theorem sleeping_ticks (mss : list Z) (s : State) :
  currentState s = STATE_SLEEPING -> in_range (energy (pet s)) ->
  run (map Tick mss) s
  = set_energy (Z.min 100 (energy (pet s) + 5 * Z.of_nat (length mss))) s /\
  ((20 <= length mss)%nat -> energy (pet (run (map Tick mss) s)) = 100).
Proof.
  intros Hcs He.
  assert (Hrun : run (map Tick mss) s
            = set_energy (Z.min 100 (energy (pet s) + 5 * Z.of_nat (length mss))) s).
  { revert s Hcs He. induction mss as [|ms mss IH]; intros s Hcs He.
    - assert (E : Z.min 100 (energy (pet s) + 5 * Z.of_nat (length (@nil Z)))
                  = energy (pet s))
        by (unfold in_range in He; simpl length; lia).
      rewrite E.
      destruct s as [fl [h hp en hl a] cs ? ? ? ? ? ? ? ? ? ?]. reflexivity.
    - change (run (map Tick (ms :: mss)) s)
        with (run (map Tick mss) (exec (updateStats ms) s)).
      rewrite (updateStats_asleep ms s Hcs He).
      rewrite IH; [| exact Hcs | unfold in_range in *; simpl; lia ].
      assert (E : Z.min 100
                    (energy (pet (set_energy (Z.min 100 (energy (pet s) + 5)) s))
                     + 5 * Z.of_nat (length mss))
                  = Z.min 100 (energy (pet s) + 5 * Z.of_nat (length (ms :: mss))))
        by (unfold in_range in He; simpl energy; simpl length; lia).
      rewrite E.
      destruct s as [fl [h hp en hl a] cs ? ? ? ? ? ? ? ? ? ?]. reflexivity. }
  split; [exact Hrun|].
  intros Hlen. rewrite Hrun. unfold in_range in He. simpl. lia.
Qed.

Lemma sleeping_ticks_witness :
  let s := set_energy 10 (set_currentState STATE_SLEEPING first_boot) in
  currentState s = STATE_SLEEPING /\
  energy (pet (run (map Tick [10; 20; 30]) s)) = 25.
Proof.
  cbv zeta.
  assert (Hcs : currentState (set_energy 10 (set_currentState STATE_SLEEPING first_boot))
                = STATE_SLEEPING) by reflexivity.
  assert (He : in_range (energy (pet (set_energy 10 (set_currentState STATE_SLEEPING first_boot)))))
    by (unfold in_range; simpl; lia).
  split; [exact Hcs|].
  rewrite (proj1 (sleeping_ticks [10; 20; 30] _ Hcs He)).
  reflexivity.
Defined.

(** What one tick does to a pet that is not SLEEPING. *)
Lemma updateStats_awake (ms : Z) (s : State) :
  currentState s <> STATE_SLEEPING -> stats_in_range (pet s) ->
  let hunger' := Z.max 0 (hunger (pet s) - 1) in
  let happiness' := Z.max 0 (happiness (pet s) - 1) in
  let energy' := Z.max 0 (energy (pet s) - 1) in
  let health' :=
    if (hunger' <? 20) || (happiness' <? 20)
    then Z.max 0 (health (pet s) - 2)
    else if (hunger' >? 60) && (happiness' >? 60) && (energy' >? 40)
         then Z.min 100 (health (pet s) + 1) else health (pet s) in
  let state1 :=
    if (hunger' <? 30) && (currentState s =? STATE_IDLE)
    then STATE_HUNGRY else currentState s in
  let state' :=
    if (state1 =? STATE_SICK)
       && ((health' >? 60) && (happiness' >? 50) && (energy' >? 40))
    then STATE_IDLE else state1 in
  let age' :=
    if to_ulong (ms - lastAgeUpdate s) >? 60000
    then to_ulong (age (pet s) + 1) else age (pet s) in
  pet (exec (updateStats ms) s)
  = mkPetStats hunger' happiness' energy' health' age' /\
  currentState (exec (updateStats ms) s) = state'.
Proof.
  intros Hcs (Hh & Hp & He & Hl). unfold in_range in *. cbv zeta.
  apply Z.eqb_neq in Hcs.
  unfold updateStats. rewrite exec_ifM, Hcs.
  destruct s as [fl [h hp en hl a] cs ? ? ? ? ? ? ? ? lau ?]; simpl in *.
  stmt_unfold. simpl.
  rewrite !max_Zmax.
  rewrite !(to_int_small (h - 1)), !(to_int_small (hp - 1)),
    !(to_int_small (en - 1)) by (unfold is_int, INT_MIN, INT_MAX; lia).
  destruct ((Z.max 0 (h - 1) <? 20) || (Z.max 0 (hp - 1) <? 20)); simpl;
    [| destruct ((Z.max 0 (h - 1) >? 60) && (Z.max 0 (hp - 1) >? 60)
                 && (Z.max 0 (en - 1) >? 40)); simpl ];
    rewrite ?max_Zmax, ?min_Zmin;
    rewrite ?(to_int_small (hl - 2)), ?(to_int_small (hl + 1))
      by (unfold is_int, INT_MIN, INT_MAX; lia);
    (destruct ((Z.max 0 (h - 1) <? 30) && (cs =? STATE_IDLE)); simpl;
     repeat match goal with
            | |- context [if ?c then _ else _] => destruct c; simpl
            end; split; reflexivity).
Qed.

Lemma tick_keeps_awake (ms : Z) (s : State) :
  currentState s <> STATE_SLEEPING -> stats_in_range (pet s) ->
  currentState (exec (updateStats ms) s) <> STATE_SLEEPING.
Proof.
  intros Hne Hst.
  destruct (updateStats_awake ms s Hne Hst) as [_ Hcs].
  cbv zeta in Hcs. rewrite Hcs.
  repeat match goal with
         | |- context [if ?c then _ else _] => destruct c
         end;
    first [ exact Hne | unfold STATE_IDLE, STATE_HUNGRY, STATE_SLEEPING; lia ].
Qed.


(** X5.  The rule by which a tick changes the state, for a pet with its
    statistics in range: an IDLE pet whose hunger after the tick is
    below 30 becomes HUNGRY; a SICK pet whose health after the tick is
    above 60, happiness above 50 and energy above 40 becomes IDLE; in
    every other case the state stays as it is.  In particular a tick
    never puts the pet to sleep and never wakes it. *)
Theorem tick_state_changes (ms : Z) (s : State) :
  stats_in_range (pet s) ->
  let s' := exec (updateStats ms) s in
  currentState s'
  = (if (currentState s =? STATE_IDLE) && (hunger (pet s') <? 30)
     then STATE_HUNGRY
     else if (currentState s =? STATE_SICK)
             && ((health (pet s') >? 60) && (happiness (pet s') >? 50)
                 && (energy (pet s') >? 40))
     then STATE_IDLE
     else currentState s) /\
  (currentState s' = STATE_SLEEPING <-> currentState s = STATE_SLEEPING).
Proof.
  intros Hst. cbv zeta.
  destruct (Z.eq_dec (currentState s) STATE_SLEEPING) as [Hsl | Hne].
  - destruct Hst as (_ & _ & He & _).
    rewrite (updateStats_asleep ms s Hsl He). simpl currentState.
    rewrite Hsl. split; reflexivity.
  - destruct (updateStats_awake ms s Hne Hst) as [Hpet Hcs].
    cbv zeta in Hpet, Hcs. rewrite Hpet, Hcs. simpl.
    set (h' := Z.max 0 (hunger (pet s) - 1)).
    set (hp' := Z.max 0 (happiness (pet s) - 1)).
    set (e' := Z.max 0 (energy (pet s) - 1)).
    rewrite (andb_comm (h' <? 30)).
    destruct (currentState s =? STATE_IDLE) eqn:E1; simpl andb.
    + apply Z.eqb_eq in E1. rewrite E1.
      destruct (h' <? 30).
      * change (STATE_HUNGRY =? STATE_SICK) with false. simpl.
        split; [reflexivity|].
        unfold STATE_HUNGRY, STATE_IDLE, STATE_SLEEPING. lia.
      * change (STATE_IDLE =? STATE_SICK) with false. simpl.
        split; [reflexivity|]. reflexivity.
    + destruct (currentState s =? STATE_SICK) eqn:E2; simpl andb.
      * match goal with
        | |- context [if ?c then STATE_IDLE else _] => destruct c
        end; (split; [reflexivity|]).
        -- apply Z.eqb_eq in E2. rewrite E2.
           unfold STATE_SICK, STATE_IDLE, STATE_SLEEPING. lia.
        -- reflexivity.
      * split; reflexivity.
Qed.

Lemma tick_state_changes_witness :
  stats_in_range (pet (set_hunger 30 first_boot)) /\
  currentState (set_hunger 30 first_boot) = STATE_IDLE /\
  currentState (exec (updateStats 10000) (set_hunger 30 first_boot))
  = STATE_HUNGRY.
Proof.
  assert (Hst : stats_in_range (pet (set_hunger 30 first_boot)))
    by (unfold stats_in_range, in_range; simpl; lia).
  split; [exact Hst|]. split; [reflexivity|].
  rewrite (proj1 (tick_state_changes 10000 _ Hst)). reflexivity.
Defined.

Lemma updateStats_awake_step (ms : Z) (s : State) :
  currentState s <> STATE_SLEEPING -> stats_in_range (pet s) ->
  let s' := exec (updateStats ms) s in
  hunger (pet s') = Z.max 0 (hunger (pet s) - 1) /\
  happiness (pet s') = Z.max 0 (happiness (pet s) - 1) /\
  energy (pet s') = Z.max 0 (energy (pet s) - 1) /\
  currentState s' <> STATE_SLEEPING /\ stats_in_range (pet s').
Proof.
  intros Hne Hst. cbv zeta.
  pose proof (tick_keeps_awake ms s Hne Hst) as Hsl.
  destruct (updateStats_awake ms s Hne Hst) as [Hpet _].
  cbv zeta in Hpet. rewrite Hpet. simpl.
  destruct Hst as (Hh & Hp & He & Hl).
  split; [reflexivity|]. split; [reflexivity|]. split; [reflexivity|].
  split; [exact Hsl|].
  unfold stats_in_range, in_range in *; simpl.
  refine (conj _ (conj _ (conj _ _))); try lia.
  repeat match goal with
         | |- context [if ?c then _ else _] => destruct c
         end; lia.
Qed.

(** X6.  While the pet is not SLEEPING, n ticks in a row take n points
    from hunger, happiness and energy, none going below 0, and the pet is
    still not SLEEPING afterwards: left alone, every one of the three is
    0 after a hundred ticks. *)
Theorem awake_ticks (mss : list Z) (s : State) :
  currentState s <> STATE_SLEEPING -> stats_in_range (pet s) ->
  let s' := run (map Tick mss) s in
  let n := Z.of_nat (length mss) in
  hunger (pet s') = Z.max 0 (hunger (pet s) - n) /\
  happiness (pet s') = Z.max 0 (happiness (pet s) - n) /\
  energy (pet s') = Z.max 0 (energy (pet s) - n) /\
  currentState s' <> STATE_SLEEPING.
Proof.
  cbv zeta. revert s. induction mss as [|ms mss IH]; intros s Hne Hst.
  - destruct Hst as (Hh & Hp & He & _). unfold in_range in *.
    simpl. repeat split; try lia; exact Hne.
  - change (run (map Tick (ms :: mss)) s)
      with (run (map Tick mss) (exec (updateStats ms) s)).
    destruct (updateStats_awake_step ms s Hne Hst) as (Eh & Ep & Ee & Hne' & Hst').
    cbv zeta in *.
    destruct (IH _ Hne' Hst') as (Ih & Ip & Ie & Is).
    rewrite Ih, Ip, Ie, Eh, Ep, Ee.
    destruct Hst as (Hh & Hp & He & _). unfold in_range in *.
    change (length (ms :: mss)) with (S (length mss)).
    rewrite Nat2Z.inj_succ.
    split; [lia|]. split; [lia|]. split; [lia|]. exact Is.
Qed.

Lemma awake_ticks_witness :
  currentState first_boot <> STATE_SLEEPING /\
  hunger (pet (run (map Tick [10; 20; 30]) first_boot)) = 77.
Proof.
  assert (Hne : currentState first_boot <> STATE_SLEEPING)
    by (simpl; unfold STATE_IDLE, STATE_SLEEPING; lia).
  assert (Hst : stats_in_range (pet first_boot))
    by (unfold stats_in_range, in_range; simpl; lia).
  split; [exact Hne|].
  exact (proj1 (awake_ticks [10; 20; 30] first_boot Hne Hst)).
Defined.

(** ** Who may put the pet to sleep *)

Lemma feedPet_state (ms : Z) (s : State) :
  currentState (exec (feedPet ms) s) = currentState s \/
  currentState (exec (feedPet ms) s) = STATE_HAPPY.
Proof.
  destruct (Z.lt_ge_cases (hunger (pet s)) 100) as [H|H].
  - right. apply feedPet_fed, H.
  - left. unfold exec. rewrite feedPet_full by lia. reflexivity.
Qed.

Lemma playWithPet_state (ms : Z) (s : State) :
  currentState (exec (playWithPet ms) s) = currentState s \/
  currentState (exec (playWithPet ms) s) = STATE_HAPPY.
Proof.
  destruct (Z.lt_ge_cases (energy (pet s)) 20) as [H|H].
  - left. unfold exec. rewrite playWithPet_tired by lia. reflexivity.
  - right. apply playWithPet_played. lia.
Qed.

Lemma wakeUp_state (ms : Z) (s : State) :
  currentState (exec (wakeUp ms) s) = currentState s \/
  currentState (exec (wakeUp ms) s) = STATE_IDLE.
Proof.
  destruct (Z.eq_dec (currentState s) STATE_SLEEPING) as [H|H].
  - right. apply wakeUp_asleep, H.
  - left. unfold exec. rewrite (wakeUp_awake ms s H). reflexivity.
Qed.

Lemma handleShakeSickness_state (s : State) :
  currentState (exec handleShakeSickness s) = currentState s \/
  currentState (exec handleShakeSickness s) = STATE_SICK.
Proof.
  unfold handleShakeSickness. rewrite exec_ifM.
  destruct ((currentState s =? STATE_SICK) || (currentState s =? STATE_VOMITING)).
  - left. reflexivity.
  - right. destruct s as [fl [h hp en hl a] cs ? ? ? ? ? ? ? ? ? ?]. reflexivity.
Qed.

Lemma loop_shake_state (a : bool) (t ms ms' : Z) (s : State) :
  currentState (exec (loop_shake a t ms ms') s) = currentState s \/
  currentState (exec (loop_shake a t ms ms') s) = STATE_IDLE \/
  currentState (exec (loop_shake a t ms ms') s) = STATE_SICK.
Proof.
  unfold loop_shake. rewrite exec_bind.
  destruct (result (checkForShake a ms) s) eqn:Hr.
  - rewrite (checkForShake_exec a ms s Hr).
    rewrite exec_bind, exec_assign, exec_ifM.
    set (s1 := set_lastInteraction t _).
    assert (Hcs : currentState s1 = currentState s) by reflexivity.
    rewrite <- Hcs. clearbody s1.
    destruct (currentState s1 =? STATE_SLEEPING).
    + destruct (wakeUp_state ms' s1); auto.
    + rewrite exec_ifM.
      destruct (negb (currentState s1 =? STATE_SICK)
                && negb (currentState s1 =? STATE_VOMITING)).
      * destruct (handleShakeSickness_state s1); auto.
      * left. reflexivity.
  - left. unfold checkForShake, result, exec, ifM in *.
    destruct (a && (to_ulong (ms - lastShakeTime s) >? SHAKE_DEBOUNCE_MS));
      [discriminate | reflexivity].
Qed.

Lemma updateStats_state (ms : Z) (s : State) :
  currentState (exec (updateStats ms) s) = currentState s \/
  currentState (exec (updateStats ms) s) = STATE_HUNGRY \/
  currentState (exec (updateStats ms) s) = STATE_IDLE.
Proof.
  destruct s as [fl [h hp en hl a] cs ? ? ? ? ? ? ? ? ? ?].
  unfold updateStats. stmt_unfold. simpl.
  repeat match goal with
         | |- context [if ?c then _ else _] => destruct c; simpl
         end; auto.
Qed.

Lemma applyDecay_state (e savedState : Z) (s : State) :
  currentState (exec (applyDecay e savedState) s)
  = (if savedState =? STATE_SLEEPING then STATE_SLEEPING else STATE_IDLE).
Proof.
  destruct s as [fl [h hp en hl a] cs ? ? ? ? ? ? ? ? ? ?].
  unfold applyDecay. stmt_unfold. simpl.
  destruct (savedState =? STATE_SLEEPING); simpl;
    repeat match goal with
           | |- context [if ?c then _ else _] => destruct c; simpl
           end; reflexivity.
Qed.

(** X7.  The pet is SLEEPING after an event only if it was SLEEPING
    before, or the event is the sleep request itself, or the device wakes
    from a deep sleep (timer or button) on a snapshot that was saved
    SLEEPING.  Ticks, feeding, play, shakes, saves, resets and fresh boots
    never put it to sleep. *)
Theorem sleeping_only_on_request (ev : Event) (s : State) :
  currentState (step ev s) = STATE_SLEEPING ->
  currentState s = STATE_SLEEPING \/
  (exists ms, ev = Sleep ms) \/
  (exists w dt, ev = Boot false w dt /\ w <> ESP_SLEEP_WAKEUP_UNDEFINED /\
                prefs s !! "state" = Some STATE_SLEEPING).
Proof.
  assert (Hneq : STATE_HAPPY <> STATE_SLEEPING /\ STATE_IDLE <> STATE_SLEEPING /\
                 STATE_SICK <> STATE_SLEEPING /\ STATE_HUNGRY <> STATE_SLEEPING)
    by (unfold STATE_HAPPY, STATE_IDLE, STATE_SICK, STATE_HUNGRY, STATE_SLEEPING; lia).
  destruct Hneq as (Hhappy & Hidle & Hsick & Hhungry).
  destruct ev as [ms|ms|ms|ms|ms|a t ms ms'|b|dt|n dt|r w dt];
    unfold step; simpl handler; intros H.
  - destruct (updateStats_state ms s) as [E|[E|E]]; rewrite E in H; auto; congruence.
  - destruct (feedPet_state ms s) as [E|E]; rewrite E in H; auto; congruence.
  - destruct (playWithPet_state ms s) as [E|E]; rewrite E in H; auto; congruence.
  - right. left. eauto.
  - destruct (wakeUp_state ms s) as [E|E]; rewrite E in H; auto; congruence.
  - destruct (loop_shake_state a t ms ms' s) as [E|[E|E]]; rewrite E in H;
      auto; congruence.
  - left. revert H. unfold updateAnimations_happy. rewrite exec_ifM.
    destruct ((currentState s =? STATE_HAPPY) && b); simpl; [congruence | auto].
  - left. rewrite saveStats_exec in H. exact H.
  - left. destruct (saveStats_interrupted_ram n dt s) as (flash & E & _).
    rewrite E in H. exact H.
  - change (exec (reboot ;; setup_load r w dt) s) with (step (Boot r w dt) s) in H.
    destruct r.
    + rewrite boot_reset in H. simpl in H. congruence.
    + rewrite boot_load in H.
      destruct (prefs s !! "hunger") as [v|] eqn:Hk.
      * assert (Hkey : isKey "hunger" (power_on (prefs s)) = true).
        { apply bool_decide_eq_true. simpl. rewrite Hk. eauto. }
        destruct w.
        -- rewrite (loadStats_fresh_exec dt _ Hkey) in H. simpl in H.
           destruct (getInt "state" STATE_IDLE (power_on (prefs s)) =? STATE_SLEEPING) eqn:E.
           ++ congruence.
           ++ apply Z.eqb_neq in E. congruence.
        -- rewrite (loadStats_resume _ dt _ Hkey) in H by discriminate.
           change (currentState (set_alertWakeup ?b ?x)) with (currentState x) in H.
           rewrite applyDecay_state in H.
           destruct (getInt "state" STATE_IDLE (power_on (prefs s)) =? STATE_SLEEPING) eqn:E;
             [| congruence].
           apply Z.eqb_eq in E. unfold getInt in E. simpl in E.
           right. right. exists ESP_SLEEP_WAKEUP_EXT0, dt.
           split; [reflexivity|]. split; [discriminate|].
           destruct (prefs s !! "state") as [v'|]; simpl in E; congruence.
        -- rewrite (loadStats_resume _ dt _ Hkey) in H by discriminate.
           change (currentState (set_alertWakeup ?b ?x)) with (currentState x) in H.
           rewrite applyDecay_state in H.
           destruct (getInt "state" STATE_IDLE (power_on (prefs s)) =? STATE_SLEEPING) eqn:E;
             [| congruence].
           apply Z.eqb_eq in E. unfold getInt in E. simpl in E.
           right. right. exists ESP_SLEEP_WAKEUP_TIMER, dt.
           split; [reflexivity|]. split; [discriminate|].
           destruct (prefs s !! "state") as [v'|]; simpl in E; congruence.
      * unfold exec in H. rewrite loadStats_absent in H by (simpl; exact Hk).
        simpl in H. congruence.
Qed.

Lemma sleeping_only_on_request_witness :
  currentState (step (Sleep 5) first_boot) = STATE_SLEEPING /\
  (currentState first_boot = STATE_SLEEPING \/
   (exists ms, Sleep 5 = Sleep ms) \/
   (exists w dt, Sleep 5 = Boot false w dt /\ w <> ESP_SLEEP_WAKEUP_UNDEFINED /\
                 prefs first_boot !! "state" = Some STATE_SLEEPING)).
Proof.
  assert (H : currentState (step (Sleep 5) first_boot) = STATE_SLEEPING)
    by reflexivity.
  split; [exact H|].
  exact (sleeping_only_on_request (Sleep 5) first_boot H).
Defined.

(** ** Resuming from a deep sleep *)

Lemma applyDecay_asleep (e : Z) (s : State) :
  stats_in_range (pet s) -> 0 <= e <= 60 ->
  let ticks := e / 2 in
  pet (exec (applyDecay e STATE_SLEEPING) s)
  = mkPetStats (hunger (pet s)) (happiness (pet s))
               (Z.min 100 (energy (pet s) + ticks))
               (if (hunger (pet s) <? 10) || (happiness (pet s) <? 10)
                then Z.max 0 (health (pet s) - ticks) else health (pet s))
               (to_ulong (age (pet s) + e)).
Proof.
  intros (Hh & Hp & He & Hl) Hb. unfold in_range in *. cbv zeta.
  assert (Hu : is_ulong e) by (unfold is_ulong, ULONG_MAX; lia).
  destruct (ticks_int e Hu) as [Ht _].
  assert (Hd : 0 <= e / 2 <= 30)
    by (split; [apply Z.div_pos | apply Z.div_le_upper_bound]; lia).
  unfold applyDecay. rewrite Ht. set (ticks := e / 2) in *. clearbody ticks.
  stmt_unfold. change (STATE_SLEEPING =? STATE_SLEEPING) with true. cbv iota.
  destruct s as [fl [h hp en hl a] cs ? ? ? ? ? ? ? ? ? ?]; simpl in *.
  rewrite min_Zmin, to_int_small by (unfold is_int, INT_MIN, INT_MAX; lia).
  destruct ((h <? 10) || (hp <? 10)); simpl;
    rewrite ?max_Zmax, ?to_int_small by (unfold is_int, INT_MIN, INT_MAX; lia);
    reflexivity.
Qed.

(** X8.  The decay that [loadStats] applies when the saved state is
    SLEEPING, for statistics within range and up to 60 elapsed minutes:
    hunger and happiness are kept, energy gains elapsedMinutes / 2 up to
    100, the state is SLEEPING again, and age gains the elapsed minutes.
    Sleep does not protect the health: it still loses elapsedMinutes / 2
    when hunger or happiness is below 10. *)
Theorem resume_decay_asleep (e : Z) (s : State) :
  stats_in_range (pet s) -> 0 <= e <= 60 ->
  let s' := exec (applyDecay e STATE_SLEEPING) s in
  let ticks := e / 2 in
  hunger (pet s') = hunger (pet s) /\
  happiness (pet s') = happiness (pet s) /\
  energy (pet s') = Z.min 100 (energy (pet s) + ticks) /\
  currentState s' = STATE_SLEEPING /\
  health (pet s')
  = (if (hunger (pet s) <? 10) || (happiness (pet s) <? 10)
     then Z.max 0 (health (pet s) - ticks) else health (pet s)) /\
  age (pet s') = to_ulong (age (pet s) + e).
Proof.
  intros Hst Hb. cbv zeta.
  rewrite (applyDecay_asleep e s Hst Hb), applyDecay_state. simpl.
  repeat split; reflexivity.
Qed.

Lemma resume_decay_asleep_witness :
  stats_in_range (pet hungry_pet) /\
  energy (pet (exec (applyDecay 60 STATE_SLEEPING) hungry_pet))
  = Z.min 100 (energy (pet hungry_pet) + 60 / 2).
Proof.
  assert (Hst : stats_in_range (pet hungry_pet))
    by (unfold stats_in_range, in_range; simpl; lia).
  assert (Hb : 0 <= 60 <= 60) by lia.
  split; [exact Hst|].
  exact (proj1 (proj2 (proj2 (resume_decay_asleep 60 hungry_pet Hst Hb)))).
Defined.

Lemma resume_bounds (e savedState : Z) (s : State) :
  stats_in_range (pet s) -> 0 <= e <= 60 ->
  let p := pet (exec (applyDecay e savedState) s) in
  hunger (pet s) - 30 <= hunger p <= hunger (pet s) /\
  happiness (pet s) - 30 <= happiness p <= happiness (pet s) /\
  energy (pet s) - 15 <= energy p <= energy (pet s) + 30 /\
  health (pet s) - 30 <= health p <= health (pet s) /\
  stats_in_range p.
Proof.
  intros Hst Hb. cbv zeta.
  assert (Hd : 0 <= e / 2 <= 30)
    by (split; [apply Z.div_pos | apply Z.div_le_upper_bound]; lia).
  assert (Hq : 0 <= e / 2 / 2 <= 15)
    by (split; [apply Z.div_pos | apply Z.div_le_upper_bound]; lia).
  destruct (Z.eq_dec savedState STATE_SLEEPING) as [-> | Hne].
  - rewrite (applyDecay_asleep e s Hst Hb). cbv zeta.
    destruct Hst as (Hh & Hp & He & Hl).
    unfold stats_in_range, in_range in *. simpl.
    destruct ((hunger (pet s) <? 10) || (happiness (pet s) <? 10)); lia.
  - assert (Hu : is_ulong e) by (unfold is_ulong, ULONG_MAX; lia).
    destruct (applyDecay_awake e savedState s Hst Hu Hne) as [-> _].
    destruct Hst as (Hh & Hp & He & Hl).
    unfold stats_in_range, in_range in *. simpl.
    match goal with
    | |- context [if ?c then _ else _] => destruct c
    end; lia.
Qed.

(** X9.  One resume costs a bounded amount, whatever the clock says.
    With the statistics in the flash within range and the key "hunger"
    present, [loadStats] ends, for every wake cause and clock reading,
    with hunger and happiness at most 30 and energy at most 15 below
    their saved values, health at most 30 below, and none of hunger,
    happiness and health above its saved value; energy is at most 30
    above.  All four stay within 0..100. *)
Theorem resume_loss_bounded (w : esp_sleep_wakeup_cause_t) (dt : DateTime)
    (s : State) :
  snapshot_in_range (prefs s) -> is_Some (prefs s !! "hunger") ->
  let saved := pet (restored s) in
  let p := pet (exec (loadStats w dt) s) in
  hunger saved - 30 <= hunger p <= hunger saved /\
  happiness saved - 30 <= happiness p <= happiness saved /\
  energy saved - 15 <= energy p <= energy saved + 30 /\
  health saved - 30 <= health p <= health saved /\
  stats_in_range p.
Proof.
  intros Hfl Hk. cbv zeta.
  assert (Hkey : isKey "hunger" s = true) by (apply bool_decide_eq_true, Hk).
  assert (Hst : stats_in_range (pet (restored s))).
  { unfold restored, stats_in_range; simpl.
    refine (conj _ (conj _ (conj _ _)));
      apply getInt_in_range; try assumption; try in_list;
      unfold in_range; lia. }
  destruct w.
  - rewrite (loadStats_fresh_exec dt s Hkey).
    change (pet (set_alertWakeup ?b (set_currentState ?c ?x))) with (pet x).
    destruct Hst as (Hh & Hp & He & Hl). unfold in_range in *.
    unfold stats_in_range, in_range. lia.
  - rewrite (loadStats_resume _ dt s Hkey) by discriminate.
    change (pet (set_alertWakeup ?b ?x)) with (pet x).
    apply resume_bounds; [exact Hst | apply elapsedMinutes_bounds].
  - rewrite (loadStats_resume _ dt s Hkey) by discriminate.
    change (pet (set_alertWakeup ?b ?x)) with (pet x).
    apply resume_bounds; [exact Hst | apply elapsedMinutes_bounds].
Qed.

Lemma resume_loss_bounded_witness :
  let s := exec (saveStats half_past_ten) hungry_pet in
  snapshot_in_range (prefs s) /\ is_Some (prefs s !! "hunger") /\
  stats_in_range
    (pet (exec (loadStats ESP_SLEEP_WAKEUP_TIMER half_past_ten) s)).
Proof.
  cbv zeta.
  assert (Hfl : snapshot_in_range (prefs (exec (saveStats half_past_ten) hungry_pet))).
  { intros k v Hk Hl. apply not_stat_key in Hk.
    destruct Hk as [->|[->|[->| ->]]]; vm_compute in Hl;
      injection Hl as <-; unfold in_range; lia. }
  assert (Hk : is_Some (prefs (exec (saveStats half_past_ten) hungry_pet) !! "hunger"))
    by (exists 25; vm_compute; reflexivity).
  split; [exact Hfl|]. split; [exact Hk|].
  exact (proj2 (proj2 (proj2 (proj2
           (resume_loss_bounded ESP_SLEEP_WAKEUP_TIMER half_past_ten _ Hfl Hk))))).
Defined.

(** ** The clock *)

Lemma timeVal_valid (dt : DateTime) :
  valid_clock dt -> timeVal dt = date dt * 1440 + hours dt * 60 + minutes dt.
Proof.
  intros (Hd & Hh & Hm). unfold timeVal.
  rewrite (to_int_small (date dt * 24)) by (unfold is_int, INT_MIN, INT_MAX; lia).
  rewrite (to_int_small (date dt * 24 * 60)) by (unfold is_int, INT_MIN, INT_MAX; lia).
  rewrite (to_int_small (hours dt * 60)) by (unfold is_int, INT_MIN, INT_MAX; lia).
  rewrite (to_int_small (date dt * 24 * 60 + hours dt * 60))
    by (unfold is_int, INT_MIN, INT_MAX; lia).
  rewrite (to_int_small (date dt * 24 * 60 + hours dt * 60 + minutes dt))
    by (unfold is_int, INT_MIN, INT_MAX; lia).
  rewrite to_ulong_small by (unfold is_ulong, ULONG_MAX; lia).
  lia.
Qed.

(** X10.  For a clock reading with day 1..31, hour 0..23 and minute 0..59
    the saved timestamp is day * 1440 + hour * 60 + minute without any
    wrap-around, it lies between 1440 and 46079, hence passes the
    [savedTime > 0] test of [loadStats], and day, hour and minute can be
    read back from it. *)
Theorem timeVal_decode (dt : DateTime) :
  valid_clock dt ->
  let t := timeVal dt in
  t = date dt * 1440 + hours dt * 60 + minutes dt /\
  1440 <= t <= 46079 /\
  date dt = t / 1440 /\ hours dt = t mod 1440 / 60 /\ minutes dt = t mod 60.
Proof.
  intros Hv. cbv zeta. rewrite (timeVal_valid dt Hv).
  destruct Hv as (Hd & Hh & Hm).
  split; [reflexivity|]. split; [lia|].
  assert (E1 : (date dt * 1440 + hours dt * 60 + minutes dt) / 1440 = date dt).
  { symmetry. apply (Z.div_unique _ 1440 (date dt) (hours dt * 60 + minutes dt)); lia. }
  assert (E2 : (date dt * 1440 + hours dt * 60 + minutes dt) mod 1440
               = hours dt * 60 + minutes dt).
  { symmetry. apply (Z.mod_unique _ 1440 (date dt) (hours dt * 60 + minutes dt)); lia. }
  assert (E3 : (hours dt * 60 + minutes dt) / 60 = hours dt).
  { symmetry. apply (Z.div_unique _ 60 (hours dt) (minutes dt)); lia. }
  assert (E4 : (date dt * 1440 + hours dt * 60 + minutes dt) mod 60 = minutes dt).
  { symmetry. apply (Z.mod_unique _ 60 (date dt * 24 + hours dt) (minutes dt)); lia. }
  rewrite E1, E2, E3, E4. repeat split; reflexivity.
Qed.

Lemma timeVal_decode_witness :
  valid_clock half_past_ten /\ timeVal half_past_ten = 22230.
Proof.
  assert (Hv : valid_clock half_past_ten)
    by (unfold valid_clock; simpl; lia).
  split; [exact Hv|].
  exact (proj1 (timeVal_decode half_past_ten Hv)).
Defined.

(** X11.  Saving at one calendar time and waking at another in the same
    month, with a clock year above 2020: when the clock has not gone
    back, the estimate is the number of minutes between the two readings,
    capped at 60; when it has gone back, the estimate is 1.  This holds
    for the timer and for the button alike. *)
Theorem estimate_same_month (w : esp_sleep_wakeup_cause_t)
    (dt dt' : DateTime) (s : State) :
  valid_clock dt -> valid_clock dt' -> year dt' > 2020 -> month dt' = month dt ->
  let saved := exec (saveStats dt) s in
  let passed := (date dt' - date dt) * 1440 + (hours dt' - hours dt) * 60
                + (minutes dt' - minutes dt) in
  elapsedMinutes w dt' (getULong "saveTime" 0 saved) (getInt "saveMonth" 0 saved)
  = (if passed <? 0 then 1 else Z.min 60 passed).
Proof.
  intros Hv Hv' Hy Hm. cbv zeta.
  destruct (saveStats_lookup dt s) as (_ & _ & _ & _ & _ & _ & Ht & Hmo).
  cbv zeta in Ht, Hmo. unfold getULong, getInt. rewrite Ht, Hmo. simpl default.
  unfold elapsedMinutes.
  rewrite (timeVal_valid dt Hv), (timeVal_valid dt' Hv').
  destruct Hv as (Hd & Hh & Hmi). destruct Hv' as (Hd' & Hh' & Hmi').
  set (t := date dt * 1440 + hours dt * 60 + minutes dt).
  set (t' := date dt' * 1440 + hours dt' * 60 + minutes dt').
  replace ((date dt' - date dt) * 1440 + (hours dt' - hours dt) * 60
           + (minutes dt' - minutes dt)) with (t' - t) by (unfold t, t'; lia).
  assert (Ht0 : (t >? 0) = true) by (apply Z.gtb_gt; unfold t; lia).
  assert (Hy0 : (year dt' >? 2020) = true) by (apply Z.gtb_gt; lia).
  assert (Hm0 : (month dt' =? month dt) = true) by (apply Z.eqb_eq; exact Hm).
  rewrite Ht0, Hy0, Hm0. simpl andb.
  assert (Hr : 0 <= t <= 46079 /\ 0 <= t' <= 46079) by (unfold t, t'; lia).
  clearbody t t'.
  destruct (Z.ltb_spec (t' - t) 0) as [Hneg | Hpos].
  - assert (E1 : (t' >=? t) = false) by (rewrite Z.geb_leb; apply Z.leb_gt; lia).
    assert (E2 : (t' <? t) = true) by (apply Z.ltb_lt; lia).
    rewrite E1, E2. reflexivity.
  - assert (E1 : (t' >=? t) = true) by (rewrite Z.geb_leb; apply Z.leb_le; lia).
    rewrite E1. rewrite to_ulong_small by (unfold is_ulong, ULONG_MAX; lia).
    rewrite Z.gtb_ltb. destruct (Z.ltb_spec 60 (t' - t)); lia.
Qed.

Lemma estimate_same_month_witness :
  valid_clock half_past_ten /\
  elapsedMinutes ESP_SLEEP_WAKEUP_EXT0 (mkDateTime 2025 6 15 10 42)
    (getULong "saveTime" 0 (exec (saveStats half_past_ten) first_boot))
    (getInt "saveMonth" 0 (exec (saveStats half_past_ten) first_boot))
  = 12.
Proof.
  assert (Hv : valid_clock half_past_ten) by (unfold valid_clock; simpl; lia).
  assert (Hv' : valid_clock (mkDateTime 2025 6 15 10 42))
    by (unfold valid_clock; simpl; lia).
  split; [exact Hv|].
  apply (estimate_same_month ESP_SLEEP_WAKEUP_EXT0 half_past_ten
           (mkDateTime 2025 6 15 10 42) first_boot Hv Hv'); simpl; lia.
Defined.

(** X12.  When the clock cannot be trusted (year 2020 or earlier) or the
    flash holds no saved time (the key is missing, or the value is 0),
    the estimate ignores the clock altogether: 15 minutes after a timer
    wake-up and 1 minute otherwise. *)
Theorem estimate_without_clock (w : esp_sleep_wakeup_cause_t) (dt : DateTime)
    (s : State) :
  year dt <= 2020 \/ prefs s !! "saveTime" = None \/
  prefs s !! "saveTime" = Some 0 ->
  elapsedMinutes w dt (getULong "saveTime" 0 s) (getInt "saveMonth" 0 s)
  = (if is_TIMER w then 15 else 1).
Proof.
  intros H. unfold elapsedMinutes.
  assert (E : (getULong "saveTime" 0 s >? 0) && (year dt >? 2020) = false).
  { apply andb_false_iff. destruct H as [H | [H | H]].
    - right. rewrite Z.gtb_ltb. apply Z.ltb_ge. lia.
    - left. unfold getULong. rewrite H. reflexivity.
    - left. unfold getULong. rewrite H. reflexivity. }
  rewrite E. destruct (is_TIMER w); reflexivity.
Qed.

Lemma estimate_without_clock_witness :
  prefs first_boot !! "saveTime" = None /\
  elapsedMinutes ESP_SLEEP_WAKEUP_TIMER half_past_ten
    (getULong "saveTime" 0 first_boot) (getInt "saveMonth" 0 first_boot) = 15.
Proof.
  assert (H : prefs first_boot !! "saveTime" = None) by (vm_compute; reflexivity).
  split; [exact H|].
  exact (estimate_without_clock ESP_SLEEP_WAKEUP_TIMER half_past_ten first_boot
           (or_intror (or_introl H))).
Defined.

(** ** Feeding repeatedly *)

Lemma feedPet_hunger (ms : Z) (s : State) :
  in_range (hunger (pet s)) ->
  hunger (pet (exec (feedPet ms) s)) = Z.min 100 (hunger (pet s) + 25).
Proof.
  intros Hh. unfold in_range in Hh.
  destruct (Z.lt_ge_cases (hunger (pet s)) 100) as [H|H].
  - destruct (feedPet_fed ms s H) as [-> _]. simpl.
    rewrite min_Zmin, to_int_small by (unfold is_int, INT_MIN, INT_MAX; lia).
    reflexivity.
  - unfold exec. rewrite feedPet_full by lia. simpl. lia.
Qed.

(** X13.  Four feedings in a row fill any pet: whatever the hunger within
    0..100 at the start, it is 100 after the fourth, and a fifth feeding
    is refused with the message "Already full!". *)
Theorem four_feeds_fill (a b c d e : Z) (s : State) :
  in_range (hunger (pet s)) ->
  let s' := run [Feed a; Feed b; Feed c; Feed d] s in
  hunger (pet s') = 100 /\
  feedPet e s' = (tt, s', [tone 200 200; drawString "Already full!" 30 160]).
Proof.
  intros Hh. cbv zeta.
  change (run [Feed a; Feed b; Feed c; Feed d] s)
    with (exec (feedPet d) (exec (feedPet c) (exec (feedPet b) (exec (feedPet a) s)))).
  assert (H1 := feedPet_hunger a s Hh).
  assert (R1 : in_range (hunger (pet (exec (feedPet a) s))))
    by (unfold in_range in *; lia).
  assert (H2 := feedPet_hunger b _ R1).
  assert (R2 : in_range (hunger (pet (exec (feedPet b) (exec (feedPet a) s)))))
    by (unfold in_range in *; lia).
  assert (H3 := feedPet_hunger c _ R2).
  assert (R3 : in_range (hunger (pet (exec (feedPet c)
                  (exec (feedPet b) (exec (feedPet a) s))))))
    by (unfold in_range in *; lia).
  assert (H4 := feedPet_hunger d _ R3).
  assert (E : hunger (pet (exec (feedPet d) (exec (feedPet c)
                (exec (feedPet b) (exec (feedPet a) s))))) = 100)
    by (unfold in_range in *; lia).
  split; [exact E|].
  apply feedPet_full. lia.
Qed.

Lemma four_feeds_fill_witness :
  in_range (hunger (pet hungry_pet)) /\
  hunger (pet (run [Feed 1; Feed 2; Feed 3; Feed 4] hungry_pet)) = 100.
Proof.
  assert (Hh : in_range (hunger (pet hungry_pet)))
    by (unfold in_range; simpl; lia).
  split; [exact Hh|].
  exact (proj1 (four_feeds_fill 1 2 3 4 5 hungry_pet Hh)).
Defined.

(** ** The shake detector *)

(** X14.  [checkForShake] debounces: once it has reported a shake at
    clock [ms], it reports none at any clock up to 1000 ms later, however
    hard the device is shaken; and a call that reports no shake changes
    nothing, so the shake counter counts exactly the reported shakes. *)
Theorem shake_debounce (a a' : bool) (ms ms' : Z) (s : State) :
  is_ulong ms -> ms <= ms' <= ms + 1000 ->
  (result (checkForShake a ms) s = true ->
   result (checkForShake a' ms') (exec (checkForShake a ms) s) = false /\
   shakeCount (exec (checkForShake a ms) s) = to_int (shakeCount s + 1)) /\
  (result (checkForShake a ms) s = false -> exec (checkForShake a ms) s = s).
Proof.
  intros Hu Hb. split.
  - intros Hr. rewrite (checkForShake_exec a ms s Hr).
    split; [| reflexivity].
    unfold checkForShake, result, ifM. simpl lastShakeTime.
    assert (E : (to_ulong (ms' - ms) >? SHAKE_DEBOUNCE_MS) = false).
    { unfold is_ulong, ULONG_MAX in Hu.
      rewrite to_ulong_small by (unfold is_ulong, ULONG_MAX; lia).
      rewrite Z.gtb_ltb. apply Z.ltb_ge. unfold SHAKE_DEBOUNCE_MS. lia. }
    change (lastShakeTime (set_shakeCount ?c (set_lastShakeTime ?v ?x))) with v.
    rewrite E, andb_false_r. reflexivity.
  - unfold checkForShake, result, exec, ifM.
    destruct (a && (to_ulong (ms - lastShakeTime s) >? SHAKE_DEBOUNCE_MS));
      simpl; [discriminate | reflexivity].
Qed.

Lemma shake_debounce_witness :
  is_ulong 1500 /\ result (checkForShake true 1500) first_boot = true /\
  result (checkForShake true 2400) (exec (checkForShake true 1500) first_boot)
  = false.
Proof.
  assert (Hu : is_ulong 1500) by (unfold is_ulong, ULONG_MAX; lia).
  assert (Hb : 1500 <= 2400 <= 1500 + 1000) by lia.
  assert (Hr : result (checkForShake true 1500) first_boot = true)
    by (vm_compute; reflexivity).
  split; [exact Hu|]. split; [exact Hr|].
  exact (proj1 (proj1 (shake_debounce true true 1500 2400 first_boot Hu Hb) Hr)).
Defined.

(** ** Age *)

Lemma updateStats_age (ms : Z) (s : State) :
  age (pet (exec (updateStats ms) s))
  = (if negb (currentState s =? STATE_SLEEPING)
        && (to_ulong (ms - lastAgeUpdate s) >? 60000)
     then to_ulong (age (pet s) + 1) else age (pet s)).
Proof.
  destruct s as [fl [h hp en hl a] cs ? ? ? ? ? ? ? ? lau ?].
  unfold updateStats. stmt_unfold. simpl.
  destruct (cs =? STATE_SLEEPING); simpl; [reflexivity|].
  repeat match goal with
         | |- context [if ?c then _ else _] =>
             lazymatch c with
             | (to_ulong _ >? _) => fail
             | _ => destruct c; simpl
             end
         end;
    destruct (to_ulong (ms - lau) >? 60000); reflexivity.
Qed.

(** X15.  Between boots the age moves only with an awake tick: feeding,
    play, sleep, wake-up, shakes, the calm-down and saves leave it as it
    is, and a tick adds one minute exactly when the pet is not SLEEPING
    and more than 60000 ms have passed since the last time it did. *)
Theorem age_moves_only_by_tick (ev : Event) (s : State) :
  (forall r w dt, ev <> Boot r w dt) ->
  age (pet (step ev s))
  = match ev with
    | Tick ms =>
        if negb (currentState s =? STATE_SLEEPING)
           && (to_ulong (ms - lastAgeUpdate s) >? 60000)
        then to_ulong (age (pet s) + 1) else age (pet s)
    | _ => age (pet s)
    end.
Proof.
  intros Hnb.
  destruct ev as [ms|ms|ms|ms|ms|a t ms ms'|b|dt|n dt|r w dt];
    unfold step; simpl handler.
  - apply updateStats_age.
  - destruct (Z.lt_ge_cases (hunger (pet s)) 100) as [H|H].
    + destruct (feedPet_fed ms s H) as [-> _]. reflexivity.
    + unfold exec. rewrite feedPet_full by lia. reflexivity.
  - destruct (Z.lt_ge_cases (energy (pet s)) 20) as [H|H].
    + unfold exec. rewrite playWithPet_tired by lia. reflexivity.
    + destruct (playWithPet_played ms s) as [-> _]; [lia | reflexivity].
  - reflexivity.
  - destruct (Z.eq_dec (currentState s) STATE_SLEEPING) as [H|H].
    + destruct (wakeUp_asleep ms s H) as [-> _]. reflexivity.
    + unfold exec. rewrite (wakeUp_awake ms s H). reflexivity.
  - unfold loop_shake. rewrite exec_bind.
    destruct (result (checkForShake a ms) s) eqn:Hr.
    + rewrite (checkForShake_exec a ms s Hr).
      rewrite exec_bind, exec_assign, exec_ifM.
      set (s1 := set_lastInteraction t _).
      assert (Hp : pet s1 = pet s) by reflexivity.
      rewrite <- Hp. clearbody s1.
      destruct (currentState s1 =? STATE_SLEEPING) eqn:E.
      * apply Z.eqb_eq in E. destruct (wakeUp_asleep ms' s1 E) as [-> _].
        reflexivity.
      * rewrite exec_ifM.
        destruct (negb (currentState s1 =? STATE_SICK)
                  && negb (currentState s1 =? STATE_VOMITING)) eqn:E2.
        -- apply andb_prop in E2 as [E2 E3].
           apply negb_true_iff in E2, E3. apply Z.eqb_neq in E2, E3.
           destruct (handleShakeSickness_awake s1 E2 E3) as [-> _]. reflexivity.
        -- reflexivity.
    + unfold checkForShake, result, exec, ifM in *.
      destruct (a && (to_ulong (ms - lastShakeTime s) >? SHAKE_DEBOUNCE_MS));
        [discriminate | reflexivity].
  - unfold updateAnimations_happy. rewrite exec_ifM.
    destruct ((currentState s =? STATE_HAPPY) && b); reflexivity.
  - rewrite saveStats_exec. reflexivity.
  - destruct (saveStats_interrupted_ram n dt s) as (flash & -> & _). reflexivity.
  - exfalso. apply (Hnb r w dt). reflexivity.
Qed.

Lemma age_moves_only_by_tick_witness :
  (forall r w dt, Tick 70000 <> Boot r w dt) /\
  age (pet (step (Tick 70000) first_boot)) = 1.
Proof.
  assert (H : forall r w dt, Tick 70000 <> Boot r w dt)
    by (intros r w dt E; discriminate E).
  split; [exact H|].
  exact (age_moves_only_by_tick (Tick 70000) first_boot H).
Defined.

(** ** Waking from a deep sleep: [handleWakeup] *)

Lemma saveStats_run (dt : DateTime) (s : State) :
  saveStats dt s = (tt, exec (saveStats dt) s, []).
Proof. destruct s as [fl [h hp en hl a] cs ? ? ? ? ? ? ? ? ? ?]. reflexivity. Qed.

Lemma enterDeepSleep_run (dt : DateTime) (s : State) :
  enterDeepSleep dt s
  = (DeepSleep GPIO_NUM_37 ALERT_CHECK_INTERVAL_US, exec (saveStats dt) s,
     [drawString "Going to sleep..." 20 100;
      drawString "Press PWR to wake" 15 120;
      drawString "Checking in 15min" 15 150; setBrightness 0]).
Proof.
  unfold enterDeepSleep, mbind, M_bind, bind. rewrite saveStats_run.
  reflexivity.
Qed.

(** The alert screen up to the wait: what is shown and played. *)
Lemma handleWakeup_alert (a : Z) (polls : list (Z * bool)) (msAck : Z)
    (dt : DateTime) (s : State) :
  needsAlert s = true ->
  handleWakeup ESP_SLEEP_WAKEUP_TIMER a polls msAck dt s
  = (let shown :=
       ([setBrightness 100; tone 1000 150; tone 500 150; tone 1000 150;
         tone 500 150; tone 1000 150; tone 500 150; drawString "ALERT!" 35 30]
        ++ alert_lines (pet s) ++ [drawString "Press A to care" 20 220])%list in
     let '(answer, s1, o1) := alertWait a polls msAck (set_alertWakeup true s) in
     match answer with
     | Some true => (Returned, s1, (shown ++ o1)%list)
     | Some false =>
         (DeepSleep GPIO_NUM_37 ALERT_CHECK_INTERVAL_US,
          exec (saveStats dt) s1,
          (shown ++ o1 ++
           [drawString "Going to sleep..." 20 100;
            drawString "Press PWR to wake" 15 120;
            drawString "Checking in 15min" 15 150; setBrightness 0])%list)
     | None => (Waiting, s1, (shown ++ o1)%list)
     end).
Proof.
  intros Hn. unfold handleWakeup.
  change (is_TIMER ESP_SLEEP_WAKEUP_TIMER) with true. cbv iota.
  unfold ifM at 1. cbv beta. rewrite Hn.
  unfold alert_lines, alertLine, ifM, mbind, M_bind, bind, assign, emit, mret,
    M_ret, ret. simpl.
  repeat match goal with
         | |- context [if (?v <? STAT_CRITICAL_THRESHOLD) then _ else _] =>
             destruct (v <? STAT_CRITICAL_THRESHOLD); simpl
         end;
    destruct (alertWait a polls msAck (set_alertWakeup true s)) as [[[[|]|] s1] o1];
    rewrite ?enterDeepSleep_run; simpl; rewrite ?app_nil_r; reflexivity.
Qed.

Lemma handleWakeup_calm (a : Z) (polls : list (Z * bool)) (msAck : Z)
    (dt : DateTime) (s : State) :
  needsAlert s = false ->
  handleWakeup ESP_SLEEP_WAKEUP_TIMER a polls msAck dt s
  = (DeepSleep GPIO_NUM_37 ALERT_CHECK_INTERVAL_US, exec (saveStats dt) s, []).
Proof.
  intros Hn. unfold handleWakeup.
  change (is_TIMER ESP_SLEEP_WAKEUP_TIMER) with true. cbv iota.
  unfold ifM. rewrite Hn. unfold mbind, M_bind, bind.
  rewrite saveStats_run. reflexivity.
Qed.

Lemma saved_in_flash_saveStats (dt : DateTime) (s : State) :
  saved_in_flash (exec (saveStats dt) s).
Proof.
  destruct (saveStats_lookup dt s) as (H1 & H2 & H3 & H4 & H5 & H6 & _).
  cbv zeta in *. unfold saved_in_flash.
  rewrite H1, H2, H3, H4, H5, H6. rewrite saveStats_exec.
  repeat split; reflexivity.
Qed.

(** The wait touches the idle clock and the alert flag only. *)
Lemma alertWait_frame (a : Z) (polls : list (Z * bool)) (msAck : Z) (s : State) :
  pet (exec (alertWait a polls msAck) s) = pet s /\
  currentState (exec (alertWait a polls msAck) s) = currentState s /\
  prefs (exec (alertWait a polls msAck) s) = prefs s.
Proof.
  induction polls as [|[ms pressed] rest IH]; simpl.
  - repeat split; reflexivity.
  - destruct (to_ulong (ms - a) <? 30000); [destruct pressed|].
    + repeat split; reflexivity.
    + exact IH.
    + repeat split; reflexivity.
Qed.

Lemma alertWait_quiet (a : Z) (quiet rest : list (Z * bool)) (msAck : Z) (s : State) :
  quiet_polls a quiet ->
  alertWait a (quiet ++ rest) msAck s = alertWait a rest msAck s.
Proof.
  induction 1 as [|[ms pressed] quiet [Hin Hp] _ IH]; simpl.
  - reflexivity.
  - apply Z.ltb_lt in Hin. rewrite Hin, Hp. exact IH.
Qed.

(** X16.  A pet that is well kept sleeps on.  When the device wakes by
    the timer on a flash whose four statistics are within range and all
    at least 55, no statistic is critical after the decay, whatever the
    clock reads, and [handleWakeup] saves and goes straight back to deep
    sleep: no sound, no text, no backlight, and the button pin and the
    15 minute timer armed again. *)
Theorem well_kept_sleeps_on (dt dt' : DateTime) (a : Z)
    (polls : list (Z * bool)) (msAck : Z) (s : State) :
  snapshot_in_range (prefs s) -> is_Some (prefs s !! "hunger") ->
  55 <= hunger (pet (restored s)) -> 55 <= happiness (pet (restored s)) ->
  55 <= energy (pet (restored s)) -> 55 <= health (pet (restored s)) ->
  let s1 := exec (loadStats ESP_SLEEP_WAKEUP_TIMER dt) s in
  needsAlert s1 = false /\
  handleWakeup ESP_SLEEP_WAKEUP_TIMER a polls msAck dt' s1
  = (DeepSleep 37 900000000, exec (saveStats dt') s1, []).
Proof.
  intros Hfl Hk Hh Hp He Hl. cbv zeta.
  assert (Hkey : isKey "hunger" s = true) by (apply bool_decide_eq_true, Hk).
  assert (Hst : stats_in_range (pet (restored s))).
  { unfold restored, stats_in_range; simpl.
    refine (conj _ (conj _ (conj _ _)));
      apply getInt_in_range; try assumption; try in_list;
      unfold in_range; lia. }
  assert (Hn : needsAlert (exec (loadStats ESP_SLEEP_WAKEUP_TIMER dt) s) = false).
  { rewrite (loadStats_resume _ dt s Hkey) by discriminate.
    unfold needsAlert.
    change (pet (set_alertWakeup ?b ?x)) with (pet x).
    destruct (resume_bounds _ (getInt "state" STATE_IDLE s) (restored s) Hst
                (elapsedMinutes_bounds ESP_SLEEP_WAKEUP_TIMER dt
                   (getULong "saveTime" 0 s) (getInt "saveMonth" 0 s)))
      as (Bh & Bp & Be & Bl & _).
    cbv zeta in *. unfold STAT_CRITICAL_THRESHOLD.
    repeat (apply orb_false_iff; split); apply Z.ltb_ge; lia. }
  split; [exact Hn|].
  apply handleWakeup_calm, Hn.
Qed.

Lemma well_kept_sleeps_on_witness :
  let s := exec (saveStats half_past_ten) first_boot in
  snapshot_in_range (prefs s) /\ is_Some (prefs s !! "hunger") /\
  needsAlert (exec (loadStats ESP_SLEEP_WAKEUP_TIMER
                      (mkDateTime 2025 6 15 10 45)) s) = false.
Proof.
  cbv zeta.
  assert (Hfl : snapshot_in_range (prefs (exec (saveStats half_past_ten) first_boot))).
  { intros k v Hk Hl. apply not_stat_key in Hk.
    destruct Hk as [->|[->|[->| ->]]]; vm_compute in Hl;
      injection Hl as <-; unfold in_range; lia. }
  assert (Hk : is_Some (prefs (exec (saveStats half_past_ten) first_boot) !! "hunger"))
    by (exists 80; vm_compute; reflexivity).
  split; [exact Hfl|]. split; [exact Hk|].
  apply (well_kept_sleeps_on (mkDateTime 2025 6 15 10 45) half_past_ten 0 [] 0
           _ Hfl Hk); vm_compute; discriminate.
Defined.

(** X17.  The alert screen names exactly the statistics that are
    critical.  When a statistic is below 25 on a timer wake-up,
    [handleWakeup] turns the backlight on, plays the alert, writes
    "ALERT!" and then one line for each statistic below 25, in the order
    hunger, happiness, energy, health, from height 70 downwards in steps
    of 20 without gaps, followed by the prompt "Press A to care". *)
Theorem alert_screen (a : Z) (polls : list (Z * bool)) (msAck : Z)
    (dt : DateTime) (s : State) :
  needsAlert s = true ->
  exists rest,
    outputs (handleWakeup ESP_SLEEP_WAKEUP_TIMER a polls msAck dt) s
    = ([setBrightness 100; tone 1000 150; tone 500 150; tone 1000 150;
        tone 500 150; tone 1000 150; tone 500 150; drawString "ALERT!" 35 30]
       ++ alert_lines (pet s) ++ [drawString "Press A to care" 20 220]
       ++ rest)%list.
Proof.
  intros Hn. unfold outputs. rewrite (handleWakeup_alert a polls msAck dt s Hn).
  cbv zeta.
  destruct (alertWait a polls msAck (set_alertWakeup true s)) as [[[[|]|] s1] o1];
    simpl snd; eexists; rewrite <- !app_assoc; reflexivity.
Qed.

Lemma alert_screen_witness :
  needsAlert (set_hunger 10 (set_energy 5 first_boot)) = true /\
  exists rest,
    outputs (handleWakeup ESP_SLEEP_WAKEUP_TIMER 0 [] 0 half_past_ten)
            (set_hunger 10 (set_energy 5 first_boot))
    = ([setBrightness 100; tone 1000 150; tone 500 150; tone 1000 150;
        tone 500 150; tone 1000 150; tone 500 150; drawString "ALERT!" 35 30]
       ++ [drawString "I'm hungry!" 30 70; drawString "I'm tired!" 32 90]
       ++ [drawString "Press A to care" 20 220] ++ rest)%list.
Proof.
  assert (Hn : needsAlert (set_hunger 10 (set_energy 5 first_boot)) = true)
    by reflexivity.
  split; [exact Hn|].
  exact (alert_screen 0 [] 0 half_past_ten _ Hn).
Defined.

Lemma alertWait_press (a ms : Z) (rest : list (Z * bool)) (msAck : Z) (s : State) :
  to_ulong (ms - a) < 30000 ->
  alertWait a ((ms, true) :: rest) msAck s
  = (Some true, set_alertWakeup false (set_lastInteraction msAck s), []).
Proof.
  intros H. apply Z.ltb_lt in H. simpl. rewrite H. reflexivity.
Qed.

Lemma alertWait_timeout (a ms : Z) (b : bool) (rest : list (Z * bool))
    (msAck : Z) (s : State) :
  30000 <= to_ulong (ms - a) ->
  alertWait a ((ms, b) :: rest) msAck s = (Some false, s, []).
Proof.
  intros H. apply Z.ltb_ge in H. simpl. rewrite H. reflexivity.
Qed.

(** X18.  How the alert ends.  While no button is pressed and less than
    30 seconds have passed since the alert screen was drawn, the device
    keeps waiting.  The first press of A or B within the 30 seconds ends
    [handleWakeup] normally: the idle clock restarts at that moment, the
    alert flag is cleared, and neither the statistics nor the flash have
    been touched.  The first reading at 30 seconds or later sends the
    device back to deep sleep with the statistics saved, pressed or not
    at that moment. *)
Theorem alert_wait_outcomes (a : Z) (quiet rest : list (Z * bool)) (ms : Z)
    (b : bool) (msAck : Z) (dt : DateTime) (s : State) :
  needsAlert s = true -> quiet_polls a quiet ->
  let wake polls := handleWakeup ESP_SLEEP_WAKEUP_TIMER a polls msAck dt in
  result (wake quiet) s = Waiting /\
  (to_ulong (ms - a) < 30000 ->
   let s' := exec (wake (quiet ++ (ms, true) :: rest)%list) s in
   result (wake (quiet ++ (ms, true) :: rest)%list) s = Returned /\
   lastInteraction s' = msAck /\ alertWakeup s' = false /\
   pet s' = pet s /\ currentState s' = currentState s /\ prefs s' = prefs s) /\
  (30000 <= to_ulong (ms - a) ->
   result (wake (quiet ++ (ms, b) :: rest)%list) s = DeepSleep 37 900000000 /\
   exec (wake (quiet ++ (ms, b) :: rest)%list) s
   = exec (saveStats dt) (set_alertWakeup true s)).
Proof.
  intros Hn Hq. cbv zeta. unfold result, exec.
  rewrite !(handleWakeup_alert _ _ _ _ _ Hn). cbv zeta.
  rewrite !(alertWait_quiet _ _ _ _ _ Hq).
  split; [|split].
  - rewrite <- (app_nil_r quiet), (alertWait_quiet _ _ _ _ _ Hq). reflexivity.
  - intros Hin. rewrite (alertWait_press _ _ _ _ _ Hin). simpl.
    repeat split; reflexivity.
  - intros Hout. rewrite (alertWait_timeout _ _ _ _ _ _ Hout). simpl.
    split; reflexivity.
Qed.

Lemma alert_wait_outcomes_witness :
  let s := set_hunger 10 first_boot in
  let wake polls := handleWakeup ESP_SLEEP_WAKEUP_TIMER 1000 polls 1234 half_past_ten in
  result (wake [(1000, false); (1050, false)]) s = Waiting /\
  result (wake [(1000, false); (1050, false); (1100, true)]) s = Returned /\
  result (wake [(1000, false); (1050, false); (31000, true)]) s
  = DeepSleep 37 900000000.
Proof.
  assert (Hn : needsAlert (set_hunger 10 first_boot) = true) by reflexivity.
  assert (Hq : quiet_polls 1000 [(1000, false); (1050, false)]).
  { repeat constructor; vm_compute; reflexivity. }
  pose proof (alert_wait_outcomes 1000 _ [] 1100 true 1234 half_past_ten _ Hn Hq)
    as (H1 & H2 & _).
  pose proof (alert_wait_outcomes 1000 _ [] 31000 true 1234 half_past_ten _ Hn Hq)
    as (_ & _ & H3).
  cbv zeta in *.
  split; [exact H1|]. split.
  - apply H2. vm_compute. reflexivity.
  - apply H3. vm_compute. discriminate.
Defined.

(** X19.  [handleWakeup] powers the device down only on a timer wake-up,
    and never without saving.  Whatever the wake-up cause, the statistics,
    the buttons and the clock: if the call ends in deep sleep, the cause
    was the timer, button A (pin 37) and the 15 minute timer are armed,
    and the flash holds the statistics and the state exactly as they are
    in RAM, which are those the call started with.  On any other cause
    the call returns with statistics, state and flash untouched. *)
Theorem deep_sleep_only_by_timer (w : esp_sleep_wakeup_cause_t) (a : Z)
    (polls : list (Z * bool)) (msAck : Z) (dt : DateTime) (s : State) :
  let s' := exec (handleWakeup w a polls msAck dt) s in
  pet s' = pet s /\ currentState s' = currentState s /\
  (forall pin us,
     result (handleWakeup w a polls msAck dt) s = DeepSleep pin us ->
     w = ESP_SLEEP_WAKEUP_TIMER /\ pin = 37 /\ us = 900000000 /\
     saved_in_flash s') /\
  (w <> ESP_SLEEP_WAKEUP_TIMER ->
   result (handleWakeup w a polls msAck dt) s = Returned /\ prefs s' = prefs s).
Proof.
  assert (Sp : forall x, pet (exec (saveStats dt) x) = pet x)
    by (intros x; rewrite saveStats_exec; reflexivity).
  assert (Sc : forall x, currentState (exec (saveStats dt) x) = currentState x)
    by (intros x; rewrite saveStats_exec; reflexivity).
  cbv zeta. unfold result.
  destruct w.
  - simpl. repeat split; try reflexivity; discriminate.
  - simpl. repeat split; try reflexivity; discriminate.
  - destruct (needsAlert s) eqn:Hn.
    + unfold exec at 1 2 3 4.
      rewrite (handleWakeup_alert _ _ _ _ _ Hn). cbv zeta.
      pose proof (alertWait_frame a polls msAck (set_alertWakeup true s))
        as (Fp & Fc & _).
      unfold exec in Fp, Fc.
      destruct (alertWait a polls msAck (set_alertWakeup true s))
        as [[[[|]|] s1] o1]; cbn [fst snd] in *.
      * refine (conj Fp (conj Fc (conj _ _))); [discriminate|congruence].
      * rewrite Sp, Sc.
        refine (conj Fp (conj Fc (conj _ _))); [|congruence].
        intros pin us [= <- <-].
        refine (conj eq_refl (conj eq_refl (conj eq_refl _))).
        apply saved_in_flash_saveStats.
      * refine (conj Fp (conj Fc (conj _ _))); [discriminate|congruence].
    + unfold exec at 1 2 3 4.
      rewrite (handleWakeup_calm _ _ _ _ _ Hn). cbn [fst snd].
      rewrite Sp, Sc.
      refine (conj eq_refl (conj eq_refl (conj _ _))); [|congruence].
      intros pin us [= <- <-].
      refine (conj eq_refl (conj eq_refl (conj eq_refl _))).
      apply saved_in_flash_saveStats.
Qed.

Lemma deep_sleep_only_by_timer_witness :
  result (handleWakeup ESP_SLEEP_WAKEUP_TIMER 0 [] 0 half_past_ten) first_boot
  = DeepSleep 37 900000000 /\
  saved_in_flash
    (exec (handleWakeup ESP_SLEEP_WAKEUP_TIMER 0 [] 0 half_past_ten) first_boot).
Proof.
  split; [reflexivity|].
  destruct (deep_sleep_only_by_timer ESP_SLEEP_WAKEUP_TIMER 0 [] 0
              half_past_ten first_boot) as (_ & _ & H & _).
  destruct (H 37 900000000 eq_refl) as (_ & _ & _ & Hs). exact Hs.
Defined.

(** ** The device with its power states *)

Lemma is_ulong_to_ulong (z : Z) : is_ulong (to_ulong z).
Proof. pose proof (to_ulong_bounds z). unfold is_ulong, ULONG_MAX. lia. Qed.

(** An assignment keeps the age an [unsigned long] when it is to another
    variable, or when the value is one. *)
Ltac age_assign :=
  match goal with
  | Ha : is_ulong (age (pet ?s)),
    Hf : (forall v, prefs ?s !! "age" = Some v -> is_ulong v)
    |- age_is_ulong _ =>
      split; simpl;
      first [ exact Ha | exact Hf | apply is_ulong_to_ulong
            | unfold is_ulong, ULONG_MAX; lia ]
  end.

Lemma updateStats_age_is_ulong (ms : Z) : preserves age_is_ulong (updateStats ms).
Proof.
  unfold updateStats. preserves_rules; auto with sounds; age_assign.
Qed.

Lemma feedPet_age_is_ulong (ms : Z) : preserves age_is_ulong (feedPet ms).
Proof.
  unfold feedPet. preserves_rules; auto with sounds; age_assign.
Qed.

Lemma playWithPet_age_is_ulong (ms : Z) : preserves age_is_ulong (playWithPet ms).
Proof.
  unfold playWithPet. preserves_rules; auto with sounds; age_assign.
Qed.

Lemma putToSleep_age_is_ulong (ms : Z) : preserves age_is_ulong (putToSleep ms).
Proof.
  unfold putToSleep. preserves_rules; auto with sounds; age_assign.
Qed.

Lemma wakeUp_age_is_ulong (ms : Z) : preserves age_is_ulong (wakeUp ms).
Proof.
  unfold wakeUp. preserves_rules; auto with sounds; age_assign.
Qed.

Lemma handleShakeSickness_age_is_ulong : preserves age_is_ulong handleShakeSickness.
Proof.
  unfold handleShakeSickness. preserves_rules; auto with sounds; age_assign.
Qed.

Lemma loop_shake_age_is_ulong (a : bool) (t ms ms' : Z) :
  preserves age_is_ulong (loop_shake a t ms ms').
Proof.
  unfold loop_shake. apply preserves_bind.
  - unfold checkForShake. preserves_rules; age_assign.
  - intros [|]; preserves_rules;
      auto using wakeUp_age_is_ulong, handleShakeSickness_age_is_ulong;
      age_assign.
Qed.

Lemma updateAnimations_happy_age_is_ulong (b : bool) :
  preserves age_is_ulong (updateAnimations_happy b).
Proof.
  unfold updateAnimations_happy. preserves_rules; age_assign.
Qed.

Lemma saveStats_puts_age_is_ulong (dt : DateTime) :
  Forall (preserves age_is_ulong) (saveStats_puts dt).
Proof.
  unfold saveStats_puts, putInt, putULong.
  repeat apply Forall_cons_2; try apply Forall_nil_2;
    apply preserves_assign; intros s [Ha Hf];
    (split; [exact Ha|]); simpl;
    intros v; rewrite lookup_insert; case_decide as E;
    first [ discriminate E | intros [= <-]; exact Ha | apply Hf ].
Qed.

Lemma applyDecay_age_is_ulong (e savedState : Z) :
  preserves age_is_ulong (applyDecay e savedState).
Proof.
  unfold applyDecay. preserves_rules; age_assign.
Qed.

Lemma loadStats_age_is_ulong (w : esp_sleep_wakeup_cause_t) (dt : DateTime) :
  preserves age_is_ulong (loadStats w dt).
Proof.
  unfold loadStats. apply preserves_ifM; [apply preserves_skip|].
  do 4 (apply preserves_bind; [preserves_rules; age_assign | intros _]).
  apply preserves_bind.
  { apply preserves_assign. intros s [Ha Hf]. split; simpl; [|exact Hf].
    unfold getULong. destruct (prefs s !! "age") as [v|]; simpl.
    - apply Hf. reflexivity.
    - unfold is_ulong, ULONG_MAX; lia. }
  intros _. apply preserves_bind; [apply preserves_get|]. intros s0.
  destruct (is_TIMER w || is_EXT0 w).
  - apply preserves_bind; [apply applyDecay_age_is_ulong|].
    intros _. preserves_rules; age_assign.
  - preserves_rules; age_assign.
Qed.

Lemma setup_load_age_is_ulong (r : bool) (w : esp_sleep_wakeup_cause_t)
    (dt : DateTime) :
  preserves age_is_ulong (setup_load r w dt).
Proof.
  unfold setup_load. apply preserves_bind; [apply preserves_emit|]. intros _.
  destruct r; [|apply loadStats_age_is_ulong].
  unfold resetPet, clear. preserves_rules; auto with sounds;
    try age_assign.
  split; simpl; [assumption|].
  intros v. rewrite lookup_empty. discriminate.
Qed.

Lemma handler_age_is_ulong (ev : Event) : preserves age_is_ulong (handler ev).
Proof.
  destruct ev; simpl;
    auto using updateStats_age_is_ulong, feedPet_age_is_ulong,
      playWithPet_age_is_ulong, putToSleep_age_is_ulong, wakeUp_age_is_ulong,
      loop_shake_age_is_ulong, updateAnimations_happy_age_is_ulong.
  - apply preserves_block, saveStats_puts_age_is_ulong.
  - apply preserves_block, Forall_take, saveStats_puts_age_is_ulong.
  - apply preserves_bind; [|intros _; apply setup_load_age_is_ulong].
    intros s [_ Hf]. split; [|exact Hf].
    unfold is_ulong, ULONG_MAX; simpl; lia.
Qed.

Lemma step_good (ev : Event) (s : State) :
  Inv s /\ age_is_ulong s -> Inv (step ev s) /\ age_is_ulong (step ev s).
Proof.
  intros [Hi Ha]. split.
  - apply handler_Inv, Hi.
  - apply handler_age_is_ulong, Ha.
Qed.

Lemma power_on_good (flash : gmap string Z) :
  snapshot_in_range flash ->
  (forall v, flash !! "age" = Some v -> is_ulong v) ->
  Inv (power_on flash) /\ age_is_ulong (power_on flash).
Proof.
  intros Hfl Hf. split; [apply Inv_power_on, Hfl|].
  split; [|exact Hf]. unfold is_ulong, ULONG_MAX; simpl; lia.
Qed.

(** The invariants look at the statistics and the flash only. *)
Lemma good_frame (s s' : State) :
  pet s' = pet s -> prefs s' = prefs s ->
  Inv s /\ age_is_ulong s -> Inv s' /\ age_is_ulong s'.
Proof.
  unfold Inv, age_is_ulong. intros -> ->. tauto.
Qed.

Lemma setup_load_good (r : bool) (w : esp_sleep_wakeup_cause_t)
    (dt : DateTime) (s : State) :
  Inv s /\ age_is_ulong s ->
  Inv (exec (setup_load r w dt) s) /\ age_is_ulong (exec (setup_load r w dt) s).
Proof.
  intros [Hi Ha]. split.
  - apply setup_load_Inv, Hi.
  - apply setup_load_age_is_ulong, Ha.
Qed.

(** After the first part of [setup] on a wake-up from deep sleep the pet
    is IDLE, unless the snapshot says SLEEPING. *)
Lemma setup_load_idle (r : bool) (w : esp_sleep_wakeup_cause_t)
    (dt : DateTime) (flash : gmap string Z) :
  is_TIMER w || is_EXT0 w = true ->
  default STATE_IDLE (flash !! "state") <> STATE_SLEEPING ->
  currentState (exec (setup_load r w dt) (power_on flash)) = STATE_IDLE.
Proof.
  intros Hw Hst.
  unfold setup_load. rewrite exec_bind, exec_emit.
  destruct r; [reflexivity|].
  destruct (isKey "hunger" (power_on flash)) eqn:Hk.
  - rewrite loadStats_resume; [|exact Hk|destruct w; discriminate].
    change (currentState (set_alertWakeup ?b ?x)) with (currentState x).
    rewrite applyDecay_state.
    unfold getInt; simpl prefs.
    apply Z.eqb_neq in Hst. rewrite Hst. reflexivity.
  - unfold exec. rewrite loadStats_absent; [reflexivity|].
    unfold isKey in Hk. apply bool_decide_eq_false in Hk.
    destruct (prefs (power_on flash) !! "hunger") eqn:E; [|reflexivity].
    exfalso. apply Hk. eauto.
Qed.

(** How [handleWakeup] ends: it leaves the statistics and the state as
    they are, and the flash too unless it ends in deep sleep, which it
    enters straight after a [saveStats]. *)
Lemma handleWakeup_ends (w : esp_sleep_wakeup_cause_t) (a : Z)
    (polls : list (Z * bool)) (msAck : Z) (dt : DateTime) (s : State) :
  exists o s' out,
    handleWakeup w a polls msAck dt s = (o, s', out) /\
    pet s' = pet s /\ currentState s' = currentState s /\
    match o with
    | DeepSleep _ _ =>
        exists s0, s' = exec (saveStats dt) s0 /\ pet s0 = pet s /\
                   currentState s0 = currentState s /\ prefs s0 = prefs s
    | _ => prefs s' = prefs s
    end.
Proof.
  assert (Sp : forall x, pet (exec (saveStats dt) x) = pet x)
    by (intros x; rewrite saveStats_exec; reflexivity).
  assert (Sc : forall x, currentState (exec (saveStats dt) x) = currentState x)
    by (intros x; rewrite saveStats_exec; reflexivity).
  destruct w.
  - do 3 eexists. split; [reflexivity|]. repeat split; reflexivity.
  - do 3 eexists. split; [reflexivity|]. repeat split; reflexivity.
  - destruct (needsAlert s) eqn:Hn.
    + rewrite (handleWakeup_alert _ _ _ _ _ Hn). cbv zeta.
      pose proof (alertWait_frame a polls msAck (set_alertWakeup true s))
        as (Fp & Fc & Ff).
      unfold exec in Fp, Fc, Ff.
      destruct (alertWait a polls msAck (set_alertWakeup true s))
        as [[[[|]|] s1] o1]; cbn [fst snd] in *;
        do 3 eexists; (split; [reflexivity|]).
      * repeat split; assumption.
      * rewrite Sp, Sc. split; [exact Fp|]. split; [exact Fc|].
        exists s1. repeat split; assumption.
      * repeat split; assumption.
    + rewrite (handleWakeup_calm _ _ _ _ _ Hn).
      do 3 eexists. split; [reflexivity|].
      rewrite Sp, Sc. split; [reflexivity|]. split; [reflexivity|].
      exists s. repeat split; reflexivity.
Qed.

(** Where [setup] leaves the device. *)
Lemma ended_setup (r : bool) (w : esp_sleep_wakeup_cause_t) (dt : DateTime)
    (a : Z) (polls : list (Z * bool)) (msAck : Z) (dt' : DateTime) (ms : Z)
    (s : State) :
  ended (setup r w dt a polls msAck dt' ms s)
  = if is_TIMER w || is_EXT0 w then
      match handleWakeup w a polls msAck dt' (exec (setup_load r w dt) s) with
      | (Returned, s2, _) => Some (Running (set_lastInteraction ms s2))
      | (DeepSleep _ _, s2, _) => Some (InDeepSleep (prefs s2))
      | (Waiting, _, _) => None
      end
    else Some (Running (set_lastInteraction ms (exec (setup_load r w dt) s))).
Proof.
  unfold setup, mbind, M_bind, bind, exec.
  destruct (setup_load r w dt s) as [[[] s1] o1]. cbn [fst snd].
  destruct (is_TIMER w || is_EXT0 w).
  - destruct (handleWakeup w a polls msAck dt' s1) as [[[| |] s2] o2];
      reflexivity.
  - reflexivity.
Qed.

Lemma setup_device_Inv (r : bool) (w : esp_sleep_wakeup_cause_t) (dt : DateTime)
    (a : Z) (polls : list (Z * bool)) (msAck : Z) (dt' : DateTime) (ms : Z)
    (flash : gmap string Z) (d : Device) :
  snapshot_in_range flash ->
  (forall v, flash !! "age" = Some v -> is_ulong v) ->
  (is_TIMER w || is_EXT0 w = true ->
   default STATE_IDLE (flash !! "state") <> STATE_SLEEPING) ->
  ended (setup r w dt a polls msAck dt' ms (power_on flash)) = Some d ->
  device_Inv d.
Proof.
  intros Hfl Hf Hst. rewrite ended_setup.
  pose proof (setup_load_good r w dt _ (power_on_good flash Hfl Hf)) as Hg.
  destruct (is_TIMER w || is_EXT0 w) eqn:Hw.
  - pose proof (setup_load_idle r w dt flash Hw (Hst eq_refl)) as Hidle.
    destruct (handleWakeup_ends w a polls msAck dt'
                (exec (setup_load r w dt) (power_on flash)))
      as (o & s2 & out & -> & Hp & Hc & Ho).
    destruct o as [|pin us|]; [| |discriminate].
    + intros [= <-]. simpl.
      apply (good_frame (exec (setup_load r w dt) (power_on flash)));
        [exact Hp | exact Ho | exact Hg].
    + intros [= <-]. simpl.
      destruct Ho as (s0 & -> & Hp0 & Hc0 & Hf0).
      exists s0, dt'. split; [reflexivity|]. split.
      * apply (good_frame (exec (setup_load r w dt) (power_on flash)));
          assumption.
      * rewrite Hc0. exact Hidle.
  - intros [= <-]. simpl.
    apply (good_frame (exec (setup_load r w dt) (power_on flash)));
      [reflexivity | reflexivity | exact Hg].
Qed.

(** What the flash holds, in any power state. *)
Lemma device_Inv_flash (d : Device) :
  device_Inv d ->
  snapshot_in_range (flash_of d) /\
  forall v, flash_of d !! "age" = Some v -> is_ulong v.
Proof.
  destruct d as [s|flash|flash]; simpl.
  - intros [[_ Hfl] [_ Hf]]. split; assumption.
  - intros (s & dt & -> & [Hi Ha] & _).
    pose proof (saveStats_Inv dt s Hi) as [_ Hfl].
    pose proof (preserves_block age_is_ulong _ (saveStats_puts_age_is_ulong dt)
                  s Ha) as [_ Hf].
    split; assumption.
  - tauto.
Qed.

Lemma device_step_Inv (e : DeviceEvent) (d d' : Device) :
  device_Inv d -> device_step e d = Some d' -> device_Inv d'.
Proof.
  intros Hd. pose proof (device_Inv_flash d Hd) as [Hfl Hf].
  destruct e as [ev|t|t dt|n dt|r dt ms|w r dt a polls msAck dt' ms|w r dt n dt'].
  - destruct d as [s| |]; simpl; try discriminate.
    destruct (in_loop ev); [|discriminate].
    intros [= <-]. apply step_good, Hd.
  - destruct d as [s| |]; simpl; try discriminate.
    intros [= <-]. apply (good_frame s); [reflexivity|reflexivity|exact Hd].
  - destruct d as [s| |]; simpl; try discriminate.
    unfold loop_autosleep, ifM.
    destruct ((currentState s =? STATE_IDLE)
              && (to_ulong (t - lastInteraction s) >? SLEEP_TIMEOUT_MS)) eqn:G.
    + rewrite enterDeepSleep_run. intros [= <-].
      apply andb_prop in G as [G _]. apply Z.eqb_eq in G.
      exists s, dt. split; [reflexivity|]. split; assumption.
    + intros [= <-]. exact Hd.
  - destruct d as [s| |]; simpl; try discriminate.
    intros [= <-].
    pose proof (step_good (PowerLoss n dt) s Hd) as [[_ Hfl'] [_ Hf']].
    split; assumption.
  - simpl. apply setup_device_Inv; [exact Hfl|exact Hf|discriminate].
  - destruct d as [|flash|]; simpl; try discriminate.
    destruct (is_TIMER w || is_EXT0 w) eqn:Hw; [|discriminate].
    apply setup_device_Inv; [exact Hfl|exact Hf|].
    intros _. destruct Hd as (s & dt0 & -> & _ & Hidle).
    destruct (saveStats_lookup dt0 s) as (_ & _ & _ & _ & _ & H6 & _).
    cbv zeta in H6. rewrite H6, Hidle. discriminate.
  - destruct d as [|flash|]; simpl; try discriminate.
    destruct (is_TIMER w || is_EXT0 w) eqn:Hw; [|discriminate].
    intros [= <-]. rewrite exec_bind.
    pose proof (setup_load_good r w dt _ (power_on_good flash Hfl Hf)) as Hg.
    pose proof (step_good (PowerLoss n dt') _ Hg) as [[_ Hfl'] [_ Hf']].
    split; assumption.
Qed.

Lemma device_run_Inv (evs : list DeviceEvent) (d d' : Device) :
  device_Inv d -> device_run evs d = Some d' -> device_Inv d'.
Proof.
  revert d. induction evs as [|e evs IH]; intros d Hd; simpl.
  - intros [= <-]. exact Hd.
  - destruct (device_step e d) as [d1|] eqn:E; [|discriminate].
    apply IH, (device_step_Inv e d d1 Hd E).
Qed.

Lemma device_Inv_factory : device_Inv factory.
Proof.
  split; [apply snapshot_in_range_empty|].
  intros v. rewrite lookup_empty. discriminate.
Qed.

(** The snapshot a device in deep sleep holds: that of a pet with its
    statistics in range, saved while IDLE. *)
Lemma deep_sleep_snapshot (flash : gmap string Z) :
  device_Inv (InDeepSleep flash) ->
  getInt "state" STATE_IDLE (power_on flash) = STATE_IDLE /\
  stats_in_range (pet (restored (power_on flash))) /\
  is_ulong (age (pet (restored (power_on flash)))) /\
  isKey "hunger" (power_on flash) = true.
Proof.
  intros (s & dt & -> & [[Hst _] [Ha _]] & Hidle).
  destruct (saveStats_lookup dt s) as (H1 & H2 & H3 & H4 & H5 & H6 & _).
  cbv zeta in *.
  generalize dependent (prefs (exec (saveStats dt) s)).
  intros flash H1 H2 H3 H4 H5 H6.
  unfold restored, getInt, getULong, isKey, stats_in_range; simpl.
  rewrite H1, H2, H3, H4, H5, H6; simpl.
  split; [exact Hidle|]. split; [exact Hst|]. split; [exact Ha|].
  reflexivity.
Qed.

(** C5.  On every snapshot that the device can resume from, the decay
    with 0 elapsed minutes is a no-op.  The device enters deep sleep only
    from [enterDeepSleep], reached in [loop] when the pet is IDLE, and
    from [handleWakeup] after a timer wake-up, both straight after
    [saveStats]; so for every flash the device can be in deep sleep with,
    however it got there from the factory state, the decay with 0
    minutes leaves hunger, happiness, energy, health and age as they were
    saved and the state equal to the saved state, and applying it once
    more changes nothing.  [loadStats] as a whole then restores exactly
    what was saved whenever its estimate is 0 minutes. *)
Theorem decay_zero_minutes (evs : list DeviceEvent) (flash : gmap string Z) :
  device_run evs factory = Some (InDeepSleep flash) ->
  let boot := power_on flash in
  let savedState := getInt "state" STATE_IDLE boot in
  let saved := restored boot in
  let s' := exec (applyDecay 0 savedState) saved in
  (flash !! "hunger" = Some (hunger (pet saved)) /\
   flash !! "happiness" = Some (happiness (pet saved)) /\
   flash !! "energy" = Some (energy (pet saved)) /\
   flash !! "health" = Some (health (pet saved)) /\
   flash !! "age" = Some (age (pet saved)) /\
   flash !! "state" = Some savedState) /\
  pet s' = pet saved /\
  currentState s' = savedState /\
  exec (applyDecay 0 savedState) s' = s' /\
  forall w dt,
    is_TIMER w || is_EXT0 w = true ->
    elapsedMinutes w dt (getULong "saveTime" 0 boot) (getInt "saveMonth" 0 boot)
    = 0 ->
    pet (exec (loadStats w dt) boot) = pet saved /\
    currentState (exec (loadStats w dt) boot) = savedState.
Proof.
  intros Hrun. cbv zeta.
  pose proof (device_run_Inv evs factory _ device_Inv_factory Hrun) as Hd.
  destruct (deep_sleep_snapshot flash Hd) as (Hidle & Hst & Ha & Hk).
  rewrite Hidle.
  rewrite (applyDecay_zero STATE_IDLE _ Hst Ha).
  change (if STATE_IDLE =? STATE_SLEEPING then STATE_SLEEPING else STATE_IDLE)
    with STATE_IDLE.
  split.
  { destruct Hd as (s & dt & -> & _ & Hc).
    destruct (saveStats_lookup dt s) as (H1 & H2 & H3 & H4 & H5 & H6 & _).
    cbv zeta in *.
    generalize dependent (prefs (exec (saveStats dt) s)).
    intros flash _ _ _ _ _ H1 H2 H3 H4 H5 H6.
    unfold restored, getInt, getULong; simpl.
    rewrite H1, H2, H3, H4, H5, H6; simpl. rewrite Hc.
    repeat split; reflexivity. }
  split; [reflexivity|]. split; [reflexivity|]. split.
  { rewrite (applyDecay_zero STATE_IDLE (set_currentState STATE_IDLE _) Hst Ha).
    reflexivity. }
  intros w dt Hw He.
  rewrite (loadStats_resume w dt _ Hk) by (destruct w; discriminate).
  rewrite He, Hidle.
  rewrite (applyDecay_zero STATE_IDLE _ Hst Ha).
  split; reflexivity.
Qed.

Lemma decay_zero_minutes_witness :
  let evs := [PowerOn false half_past_ten 0;
              InLoop (Feed 5000);
              InLoop (Calm true);
              IdleCheck 70000 half_past_ten] in
  exists flash,
    device_run evs factory = Some (InDeepSleep flash) /\
    flash !! "hunger" = Some 100 /\
    elapsedMinutes ESP_SLEEP_WAKEUP_EXT0 half_past_ten
      (getULong "saveTime" 0 (power_on flash))
      (getInt "saveMonth" 0 (power_on flash)) = 0 /\
    pet (exec (loadStats ESP_SLEEP_WAKEUP_EXT0 half_past_ten) (power_on flash))
    = mkPetStats 100 85 100 100 0 /\
    currentState (exec (loadStats ESP_SLEEP_WAKEUP_EXT0 half_past_ten)
                       (power_on flash)) = STATE_IDLE.
Proof.
  cbv zeta. eexists.
  assert (Hrun : device_run [PowerOn false half_past_ten 0;
                             InLoop (Feed 5000);
                             InLoop (Calm true);
                             IdleCheck 70000 half_past_ten] factory
                 = Some (InDeepSleep
                           (prefs (exec (saveStats half_past_ten)
                                     (set_pet (mkPetStats 100 85 100 100 0)
                                        first_boot)))))
    by (vm_compute; reflexivity).
  split; [exact Hrun|].
  split; [vm_compute; reflexivity|].
  assert (He : elapsedMinutes ESP_SLEEP_WAKEUP_EXT0 half_past_ten
      (getULong "saveTime" 0 (power_on (prefs (exec (saveStats half_past_ten)
                                     (set_pet (mkPetStats 100 85 100 100 0)
                                        first_boot)))))
      (getInt "saveMonth" 0 (power_on (prefs (exec (saveStats half_past_ten)
                                     (set_pet (mkPetStats 100 85 100 100 0)
                                        first_boot))))) = 0)
    by (vm_compute; reflexivity).
  split; [exact He|].
  destruct (decay_zero_minutes _ _ Hrun) as (_ & _ & _ & _ & Hload).
  destruct (Hload ESP_SLEEP_WAKEUP_EXT0 half_past_ten eq_refl He) as [Hp Hc].
  split.
  - rewrite Hp. vm_compute. reflexivity.
  - rewrite Hc. vm_compute. reflexivity.
Defined.

(** X20.  The device sleeps only on the whole snapshot of an IDLE pet.
    However the device got into deep sleep from the factory state,
    through any history of care, ticks, saves, power failures, resets and
    wake-ups, its flash then holds all eight fields, the four statistics
    within range and the state IDLE.  So a pet that has been put to sleep
    keeps the device from powering down, and on every wake-up by the
    timer or the button [loadStats] takes the awake branch of the decay:
    the pet is IDLE when [loadStats] is done. *)
Theorem deep_sleep_only_when_idle (evs : list DeviceEvent)
    (flash : gmap string Z) :
  device_run evs factory = Some (InDeepSleep flash) ->
  flash !! "state" = Some STATE_IDLE /\
  partial_snapshot flash = false /\
  snapshot_in_range flash /\
  forall w dt,
    is_TIMER w || is_EXT0 w = true ->
    currentState (exec (loadStats w dt) (power_on flash)) = STATE_IDLE.
Proof.
  intros Hrun.
  pose proof (device_run_Inv evs factory _ device_Inv_factory Hrun) as Hd.
  destruct (deep_sleep_snapshot flash Hd) as (Hidle & _ & _ & Hk).
  destruct (device_Inv_flash _ Hd) as [Hfl _]. simpl in Hfl.
  destruct Hd as (s & dt0 & -> & _ & Hc).
  destruct (saveStats_lookup dt0 s) as (H1 & H2 & H3 & H4 & H5 & H6 & H7 & H8).
  cbv zeta in *.
  split; [rewrite H6, Hc; reflexivity|]. split; [|split; [exact Hfl|]].
  - generalize dependent (prefs (exec (saveStats dt0) s)).
    intros flash _ _ _ _ H1 H2 H3 H4 H5 H6 H7 H8.
    unfold partial_snapshot, snapshot_keys.
    apply andb_false_iff. right. simpl.
    rewrite H1, H2, H3, H4, H5, H6, H7, H8. reflexivity.
  - intros w dt Hw.
    rewrite (loadStats_resume w dt _ Hk) by (destruct w; discriminate).
    change (currentState (set_alertWakeup ?b ?x)) with (currentState x).
    rewrite applyDecay_state, Hidle. reflexivity.
Qed.

Lemma deep_sleep_only_when_idle_witness :
  exists flash,
    device_run [PowerOn false half_past_ten 0;
                IdleCheck 60001 half_past_ten;
                Resume ESP_SLEEP_WAKEUP_TIMER false
                       (mkDateTime 2025 6 15 10 45) 0 [] 0
                       (mkDateTime 2025 6 15 10 45) 0] factory
    = Some (InDeepSleep flash) /\
    flash !! "state" = Some STATE_IDLE /\
    flash !! "hunger" = Some 73.
Proof.
  eexists.
  assert (Hrun : device_run [PowerOn false half_past_ten 0;
                IdleCheck 60001 half_past_ten;
                Resume ESP_SLEEP_WAKEUP_TIMER false
                       (mkDateTime 2025 6 15 10 45) 0 [] 0
                       (mkDateTime 2025 6 15 10 45) 0] factory
    = Some (InDeepSleep
              (prefs (exec (saveStats (mkDateTime 2025 6 15 10 45))
                        (set_pet (mkPetStats 73 73 97 100 15) first_boot)))))
    by (vm_compute; reflexivity).
  split; [exact Hrun|].
  split; [exact (proj1 (deep_sleep_only_when_idle _ _ Hrun))|].
  vm_compute. reflexivity.
Defined.

(** ** Waking the pet *)

Lemma wakeUp_asleep_run (ms : Z) (s : State) :
  currentState s = STATE_SLEEPING ->
  wakeUp ms s
  = (tt, set_lastInteraction ms (set_currentState STATE_IDLE s),
     [setBrightness 100; tone 400 100; tone 600 100; tone 800 200]).
Proof.
  intros Hs. unfold wakeUp, ifM. rewrite Hs. reflexivity.
Qed.



